(** * BlueBuzzah firmware: receive framer, SYNC codec, statistics, recovery

    A shallow embedding of the parts of the BlueBuzzah firmware that the
    specification's testable properties talk about:

    - [SyncStats]  (src/sync_stats.py): the three parallel sample buffers
      and the quantile report;
    - [Ble]        (src/ble.py): [BLE.receive], the EOT framer with its
      fixed accumulator and its queue of completed frames;
    - [App]        (src/app.py): the SYNC encoder of the PRIMARY, the SYNC
      handler of the SECONDARY, the heartbeat recovery path and the
      PRIMARY boot sequence.

    Conventions.  Python [int] is [Z]; a [str] is the list of its code
    points; a [bytes]/[bytearray] is a list of byte values; [list] is
    [list]; a [dict] is an insertion-ordered association list.  Code that
    can raise returns an [outcome]: either a value or an exception, both
    with the state reached at that point, so that what a [try]/[except]
    leaves behind is what the source leaves behind.  Clock readings are
    integers: milliseconds in [Ble], nanoseconds in [App]. *)

From Stdlib Require Import ZArith Lia List Bool String Ascii Decimal DecimalPos DecimalZ.
From stdpp Require Import base tactics option list sorting gmap.

Local Open Scope Z_scope.

(** ** Python runtime: exceptions and stateful code *)

Inductive exn : Type :=
| IndexError
| ZeroDivisionError
| TypeError
| ValueError
| UnicodeError
| AttributeError
| ExternalError.

Inductive outcome (S A : Type) : Type :=
| Returned (a : A) (s : S)
| Raised (e : exn) (s : S).
Arguments Returned {S A} a s.
Arguments Raised {S A} e s.

Definition M (S A : Type) : Type := S -> outcome S A.

Definition ret {S A} (a : A) : M S A := fun s => Returned a s.

Definition bind {S A B} (c : M S A) (k : A -> M S B) : M S B :=
  fun s => match c s with
           | Returned a s' => k a s'
           | Raised e s' => Raised e s'
           end.

Definition raise {S A} (e : exn) : M S A := fun s => Raised e s.
Definition get {S} : M S S := fun s => Returned s s.
Definition modify {S} (f : S -> S) : M S unit := fun s => Returned tt (f s).

(** [try: c except Exception: h] *)
Definition try_except {S A} (c : M S A) (h : exn -> M S A) : M S A :=
  fun s => match c s with
           | Returned a s' => Returned a s'
           | Raised e s' => h e s'
           end.

Declare Scope py_scope.
Delimit Scope py_scope with py.
Notation "x <- c ;; k" := (bind c (fun x => k))
  (at level 100, c at next level, right associativity) : py_scope.
Notation "c ;; k" := (bind c (fun _ => k))
  (at level 100, right associativity) : py_scope.

(** [l[i]] with Python's negative indices; [None] stands for IndexError. *)
Definition py_index {A} (l : list A) (i : Z) : option A :=
  let n := Z.of_nat (length l) in
  if (0 <=? i) && (i <? n) then l !! Z.to_nat i
  else if (- n <=? i) && (i <? 0) then l !! Z.to_nat (i + n)
  else None.

(** [sorted(samples)] on integers.  Python's sort is a merge sort; on a
    total order every sorting algorithm returns the same list (see
    [sorted_unique] below), so the library merge sort stands for it. *)
Definition sorted (l : list Z) : list Z := merge_sort Z.le l.


(** A [str] is the list of its code points; [lit] turns a literal into
    one. *)
Abbreviation pystr := (list Z).

Definition lit (s : string) : pystr :=
  (fun a => Z.of_N (N_of_ascii a)) <$> list_ascii_of_string s.

(** [bytes.decode('utf-8')] (strict): [None] stands for
    UnicodeDecodeError.  Overlong forms, surrogates and code points above
    U+10FFFF are rejected. *)
Definition is_cont (b : Z) : bool := (0x80 <=? b) && (b <=? 0xBF).

Fixpoint utf8_decode (bs : list Z) : option pystr :=
  match bs with
  | [] => Some []
  | b0 :: r0 =>
      if (0 <=? b0) && (b0 <=? 0x7F) then cons b0 <$> utf8_decode r0
      else if (0xC2 <=? b0) && (b0 <=? 0xDF) then
        match r0 with
        | b1 :: r1 =>
            if is_cont b1
            then cons ((b0 - 0xC0) * 64 + (b1 - 0x80)) <$> utf8_decode r1
            else None
        | _ => None
        end
      else if (0xE0 <=? b0) && (b0 <=? 0xEF) then
        match r0 with
        | b1 :: b2 :: r2 =>
            let cp := (b0 - 0xE0) * 4096 + (b1 - 0x80) * 64 + (b2 - 0x80) in
            if is_cont b1 && is_cont b2 && (0x800 <=? cp)
               && negb ((0xD800 <=? cp) && (cp <=? 0xDFFF))
            then cons cp <$> utf8_decode r2
            else None
        | _ => None
        end
      else if (0xF0 <=? b0) && (b0 <=? 0xF4) then
        match r0 with
        | b1 :: b2 :: b3 :: r3 =>
            let cp := (b0 - 0xF0) * 262144 + (b1 - 0x80) * 4096
                      + (b2 - 0x80) * 64 + (b3 - 0x80) in
            if is_cont b1 && is_cont b2 && is_cont b3
               && (0x10000 <=? cp) && (cp <=? 0x10FFFF)
            then cons cp <$> utf8_decode r3
            else None
        | _ => None
        end
      else None
  end.


(** *** Text: [strip], [split], [join], [int], [str] *)

(** The characters [str.strip()] removes and [int()] skips: those for
    which [str.isspace()] holds. *)
Definition is_space (c : Z) : bool :=
  ((0x09 <=? c) && (c <=? 0x0D)) || ((0x1C <=? c) && (c <=? 0x20))
  || (c =? 0x85) || (c =? 0xA0) || (c =? 0x1680)
  || ((0x2000 <=? c) && (c <=? 0x200A))
  || (c =? 0x2028) || (c =? 0x2029) || (c =? 0x202F) || (c =? 0x205F)
  || (c =? 0x3000).

Fixpoint lstrip (s : pystr) : pystr :=
  match s with
  | [] => []
  | c :: r => if is_space c then lstrip r else s
  end.

Definition rstrip (s : pystr) : pystr := rev (lstrip (rev s)).

(** [s.strip()] *)
Definition strip (s : pystr) : pystr := rstrip (lstrip s).

(** [s.split(sep, maxsplit)] for a one-character separator: at most
    [maxsplit] cuts, from the left. *)
Fixpoint split_at_most (sep : Z) (maxsplit : nat) (s : pystr) : list pystr :=
  match s with
  | [] => [[]]
  | c :: r =>
      match maxsplit with
      | O => [s]
      | S k =>
          if c =? sep then [] :: split_at_most sep k r
          else match split_at_most sep maxsplit r with
               | h :: t => (c :: h) :: t
               | [] => [[c]]
               end
      end
  end.

(** [s.split(sep)]: a text of length [n] has at most [n] cuts. *)
Definition split (sep : Z) (s : pystr) : list pystr :=
  split_at_most sep (length s) s.

(** [sep.join(parts)] *)
Fixpoint join (sep : pystr) (parts : list pystr) : pystr :=
  match parts with
  | [] => []
  | [p] => p
  | p :: rest => p ++ sep ++ join sep rest
  end.

Definition is_digit (c : Z) : bool := (48 <=? c) && (c <=? 57).

(** The digits of [digit ("_"? digit)*], underscores removed; [None]
    when the text does not have that shape. *)
Fixpoint digit_run (after_digit : bool) (s : pystr) : option pystr :=
  match s with
  | [] => if after_digit then Some [] else None
  | c :: r =>
      if is_digit c then cons c <$> digit_run true r
      else if (c =? 95) && after_digit then digit_run false r
      else None
  end.

Definition digit_of_char (c : Z) (u : Decimal.uint) : option Decimal.uint :=
  if c =? 48 then Some (Decimal.D0 u) else if c =? 49 then Some (Decimal.D1 u)
  else if c =? 50 then Some (Decimal.D2 u) else if c =? 51 then Some (Decimal.D3 u)
  else if c =? 52 then Some (Decimal.D4 u) else if c =? 53 then Some (Decimal.D5 u)
  else if c =? 54 then Some (Decimal.D6 u) else if c =? 55 then Some (Decimal.D7 u)
  else if c =? 56 then Some (Decimal.D8 u) else if c =? 57 then Some (Decimal.D9 u)
  else None.

Fixpoint uint_of_digits (s : pystr) : option Decimal.uint :=
  match s with
  | [] => Some Decimal.Nil
  | c :: r =>
      match uint_of_digits r with
      | Some u => digit_of_char c u
      | None => None
      end
  end.

Definition int_of_digits (s : pystr) : option Z :=
  match digit_run false s with
  | Some ds => Z.of_uint <$> uint_of_digits ds
  | None => None
  end.

(** [int(s)] in base ten: surrounding whitespace, an optional sign, then
    digits with single underscores between them.  [None] stands for
    ValueError.  Decimal digits outside ASCII are not part of the wire
    alphabet and are read as non-digits. *)
Definition py_int (s : pystr) : option Z :=
  match strip s with
  | 43 :: r => int_of_digits r
  | 45 :: r => Z.opp <$> int_of_digits r
  | t => int_of_digits t
  end.

Fixpoint digits_of_uint (u : Decimal.uint) : pystr :=
  match u with
  | Decimal.Nil => []
  | Decimal.D0 u' => 48 :: digits_of_uint u'
  | Decimal.D1 u' => 49 :: digits_of_uint u'
  | Decimal.D2 u' => 50 :: digits_of_uint u'
  | Decimal.D3 u' => 51 :: digits_of_uint u'
  | Decimal.D4 u' => 52 :: digits_of_uint u'
  | Decimal.D5 u' => 53 :: digits_of_uint u'
  | Decimal.D6 u' => 54 :: digits_of_uint u'
  | Decimal.D7 u' => 55 :: digits_of_uint u'
  | Decimal.D8 u' => 56 :: digits_of_uint u'
  | Decimal.D9 u' => 57 :: digits_of_uint u'
  end.

(** [str(n)] for an [int]. *)
Definition str_of_int (z : Z) : pystr :=
  match Z.to_int z with
  | Decimal.Pos u => digits_of_uint u
  | Decimal.Neg u => 45 :: digits_of_uint u
  end.

(** The values that travel in a SYNC data map: an [int] or a [str].
    (A [float] or [bool] on the sending side behaves as the text that
    [str()] makes of it.) *)
Inductive pyval : Type :=
| VInt (z : Z)
| VStr (s : pystr).

(** [str(value)] *)
Definition str_of (v : pyval) : pystr :=
  match v with
  | VInt z => str_of_int z
  | VStr s => s
  end.

(** The truth value of an object in a condition. *)
Definition truthy (v : pyval) : bool :=
  match v with
  | VInt z => negb (z =? 0)
  | VStr s => match s with [] => false | _ :: _ => true end
  end.

Definition pystr_eqb (a b : pystr) : bool := bool_decide (a = b).

(** A [dict] with text keys: the items in insertion order, one per key. *)
Abbreviation pydict := (list (pystr * pyval)).

(** [data[key] = value] *)
Fixpoint dict_set (data : pydict) (key : pystr) (value : pyval) : pydict :=
  match data with
  | [] => [(key, value)]
  | (k, v) :: rest =>
      if pystr_eqb k key then (k, value) :: rest
      else (k, v) :: dict_set rest key value
  end.

(** [data.get(key)] *)
Fixpoint dict_lookup (data : pydict) (key : pystr) : option pyval :=
  match data with
  | [] => None
  | (k, v) :: rest => if pystr_eqb k key then Some v else dict_lookup rest key
  end.

(** [data.get(key, default)] *)
Definition dict_get (data : pydict) (key : pystr) (default : pyval) : pyval :=
  match dict_lookup data key with
  | Some v => v
  | None => default
  end.

(** ** src/sync_stats.py *)

Module SyncStats.

Record t : Type := mk {
  max_samples : Z;
  network_latency_samples : list Z;
  execution_time_samples : list Z;
  total_latency_samples : list Z;
  sample_count : Z;
  last_sample_time : option Z
}.

(** [SyncStats.__init__] *)
Definition init (max_samples : Z) : t :=
  mk max_samples [] [] [] 0 None.

Definition set_network (f : list Z -> list Z) (s : t) : t :=
  mk (max_samples s) (f (network_latency_samples s))
     (execution_time_samples s) (total_latency_samples s)
     (sample_count s) (last_sample_time s).
Definition set_execution (f : list Z -> list Z) (s : t) : t :=
  mk (max_samples s) (network_latency_samples s)
     (f (execution_time_samples s)) (total_latency_samples s)
     (sample_count s) (last_sample_time s).
Definition set_total (f : list Z -> list Z) (s : t) : t :=
  mk (max_samples s) (network_latency_samples s)
     (execution_time_samples s) (f (total_latency_samples s))
     (sample_count s) (last_sample_time s).
Definition set_bookkeeping (count : Z) (now : Z) (s : t) : t :=
  mk (max_samples s) (network_latency_samples s)
     (execution_time_samples s) (total_latency_samples s)
     count (Some now).

(** [buf.pop(0)]: IndexError on an empty list. *)
Definition pop0 (proj : t -> list Z)
    (set : (list Z -> list Z) -> t -> t) : M t unit :=
  (s <- get ;;
   match proj s with
   | [] => raise IndexError
   | _ :: _ => modify (set (drop 1))
   end)%py.

(** [SyncStats.add_sample]; [now] is what [time.monotonic()] reads. *)
Definition add_sample (now : Z)
    (network_latency_us execution_time_us total_latency_us : Z) : M t unit :=
  (modify (set_network (fun l => l ++ [network_latency_us])) ;;
   modify (set_execution (fun l => l ++ [execution_time_us])) ;;
   modify (set_total (fun l => l ++ [total_latency_us])) ;;
   s <- get ;;
   (if Z.of_nat (length (network_latency_samples s)) >? max_samples s
    then pop0 network_latency_samples set_network ;;
         pop0 execution_time_samples set_execution ;;
         pop0 total_latency_samples set_total
    else ret tt) ;;
   s <- get ;;
   modify (set_bookkeeping (sample_count s + 1) now))%py.

(** One call of [add_sample] as the caller sees it. *)
Record call : Type := mk_call {
  c_now : Z; c_network : Z; c_execution : Z; c_total : Z
}.

Fixpoint add_samples (cs : list call) : M t unit :=
  match cs with
  | [] => ret tt
  | c :: cs' =>
      (add_sample (c_now c) (c_network c) (c_execution c) (c_total c) ;;
       add_samples cs')%py
  end.

(** The entry of the report for one metric.  [mean] is the exact
    quotient [sum / n], kept as numerator and denominator. *)
Record metric : Type := mk_metric {
  mean : Z * Z;
  median : Z;
  min : Z;
  max : Z;
  p95 : Z;
  p99 : Z;
  n_samples : Z
}.

Definition sum (l : list Z) : Z := foldr Z.add 0 l.

(** The body of the [for name, samples in ...] loop of
    [get_statistics].  [int(n * 0.95)] and [int(n * 0.99)] are written
    with integer arithmetic: the double nearest to 0.95 (0.99) is within
    5e-17 of it and the product is correctly rounded, so the truncated
    product is the floor of [95 n / 100] ([99 n / 100]) for every
    length a list can have. *)
Definition metric_of (samples : list Z) : exn + metric :=
  let sorted_samples := sorted samples in
  let n := Z.of_nat (length sorted_samples) in
  if n =? 0 then inl ZeroDivisionError
  else
    match py_index sorted_samples (n / 2),
          py_index sorted_samples 0,
          py_index sorted_samples (-1),
          (if n >? 20 then py_index sorted_samples (n * 95 / 100)
           else py_index sorted_samples (-1)),
          (if n >? 100 then py_index sorted_samples (n * 99 / 100)
           else py_index sorted_samples (-1)) with
    | Some med, Some mn, Some mx, Some q95, Some q99 =>
        inr (mk_metric (sum sorted_samples, n) med mn mx q95 q99 n)
    | _, _, _, _, _ => inl IndexError
    end.

Record statistics : Type := mk_statistics {
  network_latency : metric;
  execution_time : metric;
  total_latency : metric
}.

(** [SyncStats.get_statistics]: [inr None] is the early [return None]. *)
Definition get_statistics (s : t) : exn + option statistics :=
  match network_latency_samples s with
  | [] => inr None
  | _ :: _ =>
      match metric_of (network_latency_samples s) with
      | inl e => inl e
      | inr net =>
          match metric_of (execution_time_samples s) with
          | inl e => inl e
          | inr exe =>
              match metric_of (total_latency_samples s) with
              | inl e => inl e
              | inr tot => inr (Some (mk_statistics net exe tot))
              end
          end
      end
  end.

(** [SyncStats.reset] *)
Definition reset (s : t) : t := mk (max_samples s) [] [] [] 0 None.

End SyncStats.

(** ** src/ble.py *)

Module Ble.

Definition EOT : Z := 0x04.

(** [BLEConnection].  The UART service of the connection is part of it:
    [uart_fifo] holds the bytes that have arrived and were not read yet
    ([uart.in_waiting] is its length), [uart_has_readinto] tells whether
    the service offers [readinto].  [connected] is what
    [ble_connection.connected] reports. *)
Record BLEConnection : Type := mk_conn {
  name : pystr;
  connected : bool;
  uart_fifo : list Z;
  uart_has_readinto : bool;
  connected_at : Z;
  last_seen : Z;
  _rx_buffer : list Z;
  _msg_buffer : list Z;
  _msg_len : nat;
  _pending_messages : list pystr
}.

(** [BLEConnection.__init__] at clock reading [now]. *)
Definition new_connection (name : pystr) (now : Z) : BLEConnection :=
  mk_conn name true [] true now now (replicate 256 0) (replicate 512 0) 0 [].

Definition set_uart_fifo (v : list Z) (c : BLEConnection) : BLEConnection :=
  mk_conn (name c) (connected c) v (uart_has_readinto c) (connected_at c)
    (last_seen c) (_rx_buffer c) (_msg_buffer c) (_msg_len c)
    (_pending_messages c).
Definition set_last_seen (v : Z) (c : BLEConnection) : BLEConnection :=
  mk_conn (name c) (connected c) (uart_fifo c) (uart_has_readinto c)
    (connected_at c) v (_rx_buffer c) (_msg_buffer c) (_msg_len c)
    (_pending_messages c).
Definition set_rx_buffer (v : list Z) (c : BLEConnection) : BLEConnection :=
  mk_conn (name c) (connected c) (uart_fifo c) (uart_has_readinto c)
    (connected_at c) (last_seen c) v (_msg_buffer c) (_msg_len c)
    (_pending_messages c).
Definition set_msg_buffer (v : list Z) (c : BLEConnection) : BLEConnection :=
  mk_conn (name c) (connected c) (uart_fifo c) (uart_has_readinto c)
    (connected_at c) (last_seen c) (_rx_buffer c) v (_msg_len c)
    (_pending_messages c).
Definition set_msg_len (v : nat) (c : BLEConnection) : BLEConnection :=
  mk_conn (name c) (connected c) (uart_fifo c) (uart_has_readinto c)
    (connected_at c) (last_seen c) (_rx_buffer c) (_msg_buffer c) v
    (_pending_messages c).
Definition set_pending_messages (v : list pystr) (c : BLEConnection)
    : BLEConnection :=
  mk_conn (name c) (connected c) (uart_fifo c) (uart_has_readinto c)
    (connected_at c) (last_seen c) (_rx_buffer c) (_msg_buffer c)
    (_msg_len c) v.

(** Lines printed by [receive]. *)
Inductive log_line : Type :=
| LogNotInConnections (conn_id : pystr)
| LogNotConnected (conn_id : pystr)
| LogBufferOverflow (conn_id : pystr)
| LogReceiveError (conn_id : pystr) (e : exn).

(** What one call of [receive] works on: the connection object, the
    monotonic clock (milliseconds) and the console. *)
Record rx : Type := mk_rx {
  conn : BLEConnection;
  clock : Z;
  console : list log_line
}.

Definition on_conn (f : BLEConnection -> BLEConnection) (s : rx) : rx :=
  mk_rx (f (conn s)) (clock s) (console s).
Definition print (l : log_line) (s : rx) : rx :=
  mk_rx (conn s) (clock s) (console s ++ [l]).
(** [time.sleep(0.01)] *)
Definition sleep (ms : Z) (s : rx) : rx :=
  mk_rx (conn s) (clock s + ms) (console s).
(** [conn.update_last_seen()] *)
Definition update_last_seen (s : rx) : rx :=
  on_conn (set_last_seen (clock s)) s.

(** The body of [for i in range(bytes_read)] after [byte = rx_buf[i]]:
    one byte against the accumulator.  [msg_len] is the local variable;
    the accumulated bytes live in [conn._msg_buffer], which is updated in
    place. *)
Definition accumulate (conn_id : pystr) (msg_len : nat) (byte : Z)
    : M rx nat :=
  (s <- get ;;
   if byte =? EOT then
     ((if (0 <? msg_len)%nat then
         match utf8_decode (take msg_len (_msg_buffer (conn s))) with
         | Some message =>
             modify (on_conn (fun c =>
               set_pending_messages (_pending_messages c ++ [message]) c))
         | None => raise UnicodeError
         end
       else ret tt) ;;
      ret 0%nat)
   else if (msg_len <? length (_msg_buffer (conn s)))%nat then
     (modify (on_conn (fun c =>
        set_msg_buffer (<[msg_len := byte]> (_msg_buffer c)) c)) ;;
      ret (S msg_len))
   else
     (modify (print (LogBufferOverflow conn_id)) ;;
      ret 0%nat))%py.

Definition process_byte (conn_id : pystr) (msg_len : nat) (i : nat)
    : M rx nat :=
  (s <- get ;;
   match _rx_buffer (conn s) !! i with
   | None => raise IndexError
   | Some byte => accumulate conn_id msg_len byte
   end)%py.

Fixpoint process_bytes (conn_id : pystr) (range : list nat) (msg_len : nat)
    : M rx nat :=
  match range with
  | [] => ret msg_len
  | i :: range' =>
      (msg_len' <- process_byte conn_id msg_len i ;;
       process_bytes conn_id range' msg_len')%py
  end.

(** [conn.uart.readinto(rx_buf)], or the [read()] fallback when the
    service has no [readinto]: the bytes land at the front of
    [rx_buf]; the result is [bytes_read]. *)
Definition read_uart (s : rx) : nat * rx :=
  let c := conn s in
  let data :=
    if uart_has_readinto c then take (length (_rx_buffer c)) (uart_fifo c)
    else uart_fifo c in
  let c' :=
    set_rx_buffer (data ++ drop (length data) (_rx_buffer c))
      (set_uart_fifo (drop (length data) (uart_fifo c)) c) in
  (length data, mk_rx c' (clock s) (console s)).

(** [timeout and (time.monotonic() - start_time > timeout)];
    [timeout] is [None] or a number of milliseconds. *)
Definition timed_out (timeout : option Z) (elapsed : Z) : bool :=
  match timeout with
  | None => false
  | Some t => negb (t =? 0) && (elapsed >? t)
  end.

(** The [while True] loop of [receive].  It need not end: [fuel] bounds
    the number of iterations and [None] means that the bound was
    reached.  Bytes that arrive while the call is in progress are not
    modelled: the call sees the bytes that were waiting when it began. *)
Fixpoint receive_loop (fuel : nat) (conn_id : pystr) (timeout : option Z)
    (start_time : Z) (msg_len : nat) (s : rx)
    : option (outcome rx (option pystr)) :=
  match fuel with
  | O => None
  | S fuel' =>
      if timed_out timeout (clock s - start_time) then Some (Returned None s)
      else
        let in_waiting := length (uart_fifo (conn s)) in
        if (0 <? in_waiting)%nat then
          let '(bytes_read, s1) := read_uart s in
          if (0 <? bytes_read)%nat then
            match process_bytes conn_id (seq 0 bytes_read) msg_len s1 with
            | Raised e s2 => Some (Raised e s2)
            | Returned msg_len' s2 =>
                let s3 := on_conn (set_msg_len msg_len') s2 in
                match _pending_messages (conn s3) with
                | message :: rest =>
                    Some (Returned (Some message)
                            (update_last_seen
                               (on_conn (set_pending_messages rest) s3)))
                | [] =>
                    receive_loop fuel' conn_id timeout start_time msg_len'
                      (sleep 10 s3)
                end
            end
          else
            receive_loop fuel' conn_id timeout start_time msg_len (sleep 10 s1)
        else
          receive_loop fuel' conn_id timeout start_time msg_len (sleep 10 s)
  end.

(** The [try] block of [receive] with its [except Exception] handler. *)
Definition receive_connected (fuel : nat) (conn_id : pystr)
    (timeout : option Z) (s : rx) : option (option pystr * rx) :=
  match _pending_messages (conn s) with
  | message :: rest =>
      Some (Some message,
            update_last_seen (on_conn (set_pending_messages rest) s))
  | [] =>
      match receive_loop fuel conn_id timeout (clock s) (_msg_len (conn s)) s with
      | None => None
      | Some (Returned r s') => Some (r, s')
      | Some (Raised e s') => Some (None, print (LogReceiveError conn_id e) s')
      end
  end.

(** The [BLE] object: its connection table, with the clock and the
    console it shares with the rest of the program. *)
Record BLE : Type := mk_ble {
  _connections : gmap (list Z) BLEConnection;
  now : Z;
  output : list log_line
}.

(** [BLE.receive(conn_id, timeout)]. *)
Definition receive (fuel : nat) (conn_id : pystr) (timeout : option Z)
    (b : BLE) : option (option pystr * BLE) :=
  match _connections b !! conn_id with
  | None =>
      Some (None, mk_ble (_connections b) (now b)
                    (output b ++ [LogNotInConnections conn_id]))
  | Some c =>
      if negb (connected c) then
        Some (None, mk_ble (_connections b) (now b)
                      (output b ++ [LogNotConnected conn_id]))
      else
        match receive_connected fuel conn_id timeout
                (mk_rx c (now b) (output b)) with
        | None => None
        | Some (r, s') =>
            Some (r, mk_ble (<[conn_id := conn s']> (_connections b))
                       (clock s') (console s'))
        end
  end.

End Ble.

(** ** core.types and state.py *)

(** Modelled from the spec: the enumerations of [core.types] are not
    under src/; their members are those of the specification's data
    model. *)
Inductive DeviceRole : Type := PRIMARY | SECONDARY.

Inductive BootResult : Type :=
| FAILED | SUCCESS | SUCCESS_NO_PHONE | SUCCESS_WITH_PHONE.

Module TherapyState.
Inductive t : Type :=
| IDLE | READY | RUNNING | PAUSED | STOPPING
| CONNECTION_LOST | LOW_BATTERY | CRITICAL_BATTERY | ERROR.
End TherapyState.

Module StateTrigger.
Inductive t : Type :=
| CONNECTED | DISCONNECTED | START_SESSION | PAUSE_SESSION | RESUME_SESSION
| STOP_SESSION | STOPPED | ERROR | EMERGENCY_STOP | FORCE.
End StateTrigger.

Module StateMachine.

(** Modelled from the spec: [state.TherapyStateMachine] is not under
    src/.  The transition table of the specification; [None] where the
    table has no entry. *)
Definition table (s : TherapyState.t) (trigger : StateTrigger.t)
    : option TherapyState.t :=
  match trigger, s with
  | StateTrigger.CONNECTED, TherapyState.IDLE => Some TherapyState.READY
  | StateTrigger.DISCONNECTED, _ => Some TherapyState.CONNECTION_LOST
  | StateTrigger.START_SESSION, TherapyState.READY => Some TherapyState.RUNNING
  | StateTrigger.START_SESSION, TherapyState.IDLE => Some TherapyState.RUNNING
  | StateTrigger.PAUSE_SESSION, TherapyState.RUNNING => Some TherapyState.PAUSED
  | StateTrigger.RESUME_SESSION, TherapyState.PAUSED => Some TherapyState.RUNNING
  | StateTrigger.STOP_SESSION, TherapyState.RUNNING => Some TherapyState.STOPPING
  | StateTrigger.STOP_SESSION, TherapyState.PAUSED => Some TherapyState.STOPPING
  | StateTrigger.STOPPED, TherapyState.STOPPING => Some TherapyState.IDLE
  | StateTrigger.ERROR, _ => Some TherapyState.ERROR
  | StateTrigger.EMERGENCY_STOP, _ => Some TherapyState.ERROR
  | _, _ => None
  end.

Definition state_eqb (a b : TherapyState.t) : bool :=
  match a, b with
  | TherapyState.IDLE, TherapyState.IDLE
  | TherapyState.READY, TherapyState.READY
  | TherapyState.RUNNING, TherapyState.RUNNING
  | TherapyState.PAUSED, TherapyState.PAUSED
  | TherapyState.STOPPING, TherapyState.STOPPING
  | TherapyState.CONNECTION_LOST, TherapyState.CONNECTION_LOST
  | TherapyState.LOW_BATTERY, TherapyState.LOW_BATTERY
  | TherapyState.CRITICAL_BATTERY, TherapyState.CRITICAL_BATTERY
  | TherapyState.ERROR, TherapyState.ERROR => true
  | _, _ => false
  end.

(** Modelled from the spec: [transition(trigger)] gives the new state and
    whether the observers are notified (only on an actual change). *)
Definition transition (s : TherapyState.t) (trigger : StateTrigger.t)
    : TherapyState.t * bool :=
  match table s trigger with
  | Some s' => (s', negb (state_eqb s s'))
  | None => (s, false)
  end.

End StateMachine.

(** ** src/app.py *)

Module App.

(** Calls into the collaborators of the application whose outcome the
    environment decides: the haptic driver, the therapy engine and the
    link. *)
Inductive port_call : Type :=
| HapticActivate (finger amplitude : pyval)
| HapticDeactivate (finger : pyval)
| HapticEmergencyStop
| EnginePause
| EngineResume
| EngineStop
| BleAdvertise (name : pystr)
| BleSend (conn_id message : pystr)
| BleScanAndConnect (target : pystr) (timeout : Z) (conn_id : pystr)
| BleWaitForConnection (conn_id : pystr) (timeout : Z).

(** Calls into the LED controllers; they only drive the indicator and
    are taken to return. *)
Inductive led_call : Type :=
| LedSetTherapyState (s : TherapyState.t)
| LedIndicateBleInit
| LedIndicateReady
| LedIndicateFailure
| LedIndicateConnectionSuccess
| LedIndicateWaitingForPhone
| LedUpdateAnimation.

(** What the environment answers to a call: whether it raises, how long
    it takes (nanoseconds) and, for the calls that yield a connection,
    whether one was obtained. *)
Record reply : Type := mk_reply {
  raises : bool;
  takes : nat;
  accepts : bool
}.

(** What the program does to the outside, in program order. *)
Inductive event : Type :=
| Print (text : string) (args : list pyval)
| Called (c : port_call) (at_time : Z) (r : reply)
| Led (l : led_call)
| Slept (ns : Z)
| Notified (from to : TherapyState.t) (trigger : StateTrigger.t)
    (reason : option string).

(** The environment of a run: the debug switch of [core.constants], which
    texts [float()] accepts, and the answers of the collaborators (they
    may depend on the time of the call). *)
Record Env : Type := mk_env {
  DEBUG_ENABLED : bool;
  float_parses : pystr -> bool;
  respond : Z -> port_call -> reply
}.

(** The device configuration map: the two keys the code reads. *)
Record Config : Type := mk_config {
  ble_name : option pystr;
  startup_window_sec : option Z
}.

(** [BlueBuzzahApplication]: the attributes the modelled methods use.
    [state] is the state held by [state_machine]; [haptic_controller]
    and [therapy_engine] tell whether the attribute is set; [clock] is
    the monotonic clock in nanoseconds ([time.monotonic()] reads the same
    instant in seconds), which advances in the calls the environment
    answers and in [time.sleep], not between them; [trace] collects the
    events. *)
Record t : Type := mk {
  role : DeviceRole;
  config : Config;
  state : TherapyState.t;
  haptic_controller : bool;
  therapy_engine : bool;
  sync_stats : option SyncStats.t;
  secondary_connection : option pystr;
  phone_connection : option pystr;
  primary_connection : option pystr;
  _last_heartbeat_received : option Z;
  _last_received_seq : Z;
  _missed_commands : Z;
  _last_sync_command_received : option Z;
  clock : Z;
  trace : list event
}.

Definition set_state (v : TherapyState.t) (a : t) : t :=
  mk (role a) (config a) v (haptic_controller a) (therapy_engine a)
    (sync_stats a) (secondary_connection a) (phone_connection a)
    (primary_connection a) (_last_heartbeat_received a) (_last_received_seq a)
    (_missed_commands a) (_last_sync_command_received a) (clock a) (trace a).
Definition set_sync_stats (v : option SyncStats.t) (a : t) : t :=
  mk (role a) (config a) (state a) (haptic_controller a) (therapy_engine a)
    v (secondary_connection a) (phone_connection a)
    (primary_connection a) (_last_heartbeat_received a) (_last_received_seq a)
    (_missed_commands a) (_last_sync_command_received a) (clock a) (trace a).
Definition set_secondary_connection (v : option pystr) (a : t) : t :=
  mk (role a) (config a) (state a) (haptic_controller a) (therapy_engine a)
    (sync_stats a) v (phone_connection a)
    (primary_connection a) (_last_heartbeat_received a) (_last_received_seq a)
    (_missed_commands a) (_last_sync_command_received a) (clock a) (trace a).
Definition set_phone_connection (v : option pystr) (a : t) : t :=
  mk (role a) (config a) (state a) (haptic_controller a) (therapy_engine a)
    (sync_stats a) (secondary_connection a) v
    (primary_connection a) (_last_heartbeat_received a) (_last_received_seq a)
    (_missed_commands a) (_last_sync_command_received a) (clock a) (trace a).
Definition set_primary_connection (v : option pystr) (a : t) : t :=
  mk (role a) (config a) (state a) (haptic_controller a) (therapy_engine a)
    (sync_stats a) (secondary_connection a) (phone_connection a)
    v (_last_heartbeat_received a) (_last_received_seq a)
    (_missed_commands a) (_last_sync_command_received a) (clock a) (trace a).
Definition set_last_heartbeat_received (v : option Z) (a : t) : t :=
  mk (role a) (config a) (state a) (haptic_controller a) (therapy_engine a)
    (sync_stats a) (secondary_connection a) (phone_connection a)
    (primary_connection a) v (_last_received_seq a)
    (_missed_commands a) (_last_sync_command_received a) (clock a) (trace a).
Definition set_last_received_seq (v : Z) (a : t) : t :=
  mk (role a) (config a) (state a) (haptic_controller a) (therapy_engine a)
    (sync_stats a) (secondary_connection a) (phone_connection a)
    (primary_connection a) (_last_heartbeat_received a) v
    (_missed_commands a) (_last_sync_command_received a) (clock a) (trace a).
Definition set_missed_commands (v : Z) (a : t) : t :=
  mk (role a) (config a) (state a) (haptic_controller a) (therapy_engine a)
    (sync_stats a) (secondary_connection a) (phone_connection a)
    (primary_connection a) (_last_heartbeat_received a) (_last_received_seq a)
    v (_last_sync_command_received a) (clock a) (trace a).
Definition set_last_sync_command_received (v : option Z) (a : t) : t :=
  mk (role a) (config a) (state a) (haptic_controller a) (therapy_engine a)
    (sync_stats a) (secondary_connection a) (phone_connection a)
    (primary_connection a) (_last_heartbeat_received a) (_last_received_seq a)
    (_missed_commands a) v (clock a) (trace a).
Definition set_clock (v : Z) (a : t) : t :=
  mk (role a) (config a) (state a) (haptic_controller a) (therapy_engine a)
    (sync_stats a) (secondary_connection a) (phone_connection a)
    (primary_connection a) (_last_heartbeat_received a) (_last_received_seq a)
    (_missed_commands a) (_last_sync_command_received a) v (trace a).
Definition emit (e : event) (a : t) : t :=
  mk (role a) (config a) (state a) (haptic_controller a) (therapy_engine a)
    (sync_stats a) (secondary_connection a) (phone_connection a)
    (primary_connection a) (_last_heartbeat_received a) (_last_received_seq a)
    (_missed_commands a) (_last_sync_command_received a) (clock a)
    (trace a ++ [e]).

(** *** Effects *)

Definition print (text : string) (args : list pyval) : M t unit :=
  modify (emit (Print text args)).

(** [if DEBUG_ENABLED: print(...)] *)
Definition debug (env : Env) (text : string) (args : list pyval) : M t unit :=
  if DEBUG_ENABLED env then print text args else ret tt.

Definition led (l : led_call) : M t unit := modify (emit (Led l)).

(** [time.sleep(seconds)], in nanoseconds. *)
Definition sleep (ns : Z) : M t unit :=
  modify (fun a => emit (Slept ns) (set_clock (clock a + ns) a)).

(** A call that may raise; the result tells whether a connection was
    obtained (meaningful for the link calls only). *)
Definition call (env : Env) (c : port_call) : M t bool :=
  (a <- get ;;
   let r := respond env (clock a) c in
   modify (fun a => emit (Called c (clock a) r)
                      (set_clock (clock a + Z.of_nat (takes r)) a)) ;;
   if raises r then raise ExternalError else ret (accepts r))%py.

(** [self.haptic_controller.<method>(...)]: AttributeError when the
    attribute is [None]. *)
Definition haptic (env : Env) (c : port_call) : M t unit :=
  (a <- get ;;
   if haptic_controller a then (call env c ;; ret tt) else raise AttributeError)%py.

(** Modelled from the spec: [state_machine.transition(trigger)].  The
    observers (the application's two callbacks, which print and set the
    LED) are notified on an actual change; the notification is one
    event. *)
Definition sm_transition (trigger : StateTrigger.t) : M t unit :=
  (a <- get ;;
   let '(s', changed) := StateMachine.transition (state a) trigger in
   modify (set_state s') ;;
   if changed then modify (emit (Notified (state a) s' trigger None))
   else ret tt)%py.

(** Modelled from the spec: [state_machine.force_state(target, reason)]:
    an unconditional jump that always notifies, with trigger FORCE. *)
Definition sm_force_state (target : TherapyState.t) (reason : option string)
    : M t unit :=
  (a <- get ;;
   modify (set_state target) ;;
   modify (emit (Notified (state a) target StateTrigger.FORCE reason)))%py.

(** Truth value of a connection handle ([None] or a connection id). *)
Definition handle_truthy (h : option pystr) : bool :=
  match h with
  | Some (_ :: _) => true
  | _ => false
  end.

(** *** PRIMARY: the SYNC encoder of [send_sync_command] *)

(** [data_str]: ["|".join] of the keys and stringified values in item
    order, empty for an empty map. *)
Definition encode_data (data : pydict) : pystr :=
  match data with
  | [] => []
  | _ :: _ =>
      join (lit "|") (flat_map (fun kv => [fst kv; str_of (snd kv)]) data)
  end.

(** [message = "SYNC:" + command_type + ":" + data_str] *)
Definition sync_message (command_type : pystr) (data : pydict) : pystr :=
  lit "SYNC:" ++ command_type ++ lit ":" ++ encode_data data.

(** The [send_sync_command] closure of [_initialize_domain]. *)
Definition send_sync_command (env : Env) (command_type : pystr)
    (data : pydict) : M t unit :=
  (a <- get ;;
   match role a, secondary_connection a with
   | PRIMARY, Some (c :: conn) =>
       try_except
         (call env (BleSend (c :: conn) (sync_message command_type data)) ;;
          ret tt)
         (fun _ => debug env "[DEBUG] Failed to send sync command: {}" [])
   | _, _ => ret tt
   end)%py.

(** *** SECONDARY: [_handle_sync_command] *)

(** [int(value)], the text itself on ValueError. *)
Definition coerce (value : pystr) : pyval :=
  match py_int value with
  | Some z => VInt z
  | None => VStr value
  end.

(** The [for i in range(0, len(data_parts), 2)] loop: the parts in
    pairs, a last part without partner is skipped.  The result is [data]
    and [command_timestamp]. *)
Fixpoint parse_pairs (data_parts : list pystr) (data : pydict)
    (command_timestamp : option pyval) : pydict * option pyval :=
  match data_parts with
  | key :: value :: rest =>
      let v := coerce value in
      parse_pairs rest (dict_set data key v)
        (if pystr_eqb key (lit "timestamp") then Some v else command_timestamp)
  | _ => (data, command_timestamp)
  end.

(** [data = {}] ... [if data_str: ...] *)
Definition parse_data (data_str : pystr) : pydict * option pyval :=
  match data_str with
  | [] => ([], None)
  | _ :: _ => parse_pairs (split 124 data_str) [] None
  end.

(** [parts = message.strip().split(':', 2)]; [None] when there are
    fewer than two parts, else [command_type] and [data_str]. *)
Definition split_message (message : pystr) : option (pystr * pystr) :=
  match split_at_most 58 2 (strip message) with
  | [_; command_type] => Some (command_type, [])
  | [_; command_type; data_str] => Some (command_type, data_str)
  | _ => None
  end.

Definition is_set {A} (o : option A) : bool :=
  match o with Some _ => true | None => false end.

(** The branch for ["EXECUTE_BUZZ"], in the four steps its comments
    name.  First step: sequence gap detection. *)
Definition track_sequence (data : pydict) : M t unit :=
  match dict_get data (lit "seq") (VInt (-1)) with
  | VStr _ => raise TypeError
  | VInt seq =>
      if seq >=? 0 then
        (a <- get ;;
         (if (seq >? _last_received_seq a + 1) && (_last_received_seq a >=? 0)
          then
            let gap := seq - _last_received_seq a - 1 in
            modify (set_missed_commands (_missed_commands a + gap)) ;;
            print "[WARN] Sequence gap: missed {} cmds" [VInt gap]
          else ret tt) ;;
         modify (set_last_received_seq seq))%py
      else ret tt
  end.

(** Second step: [network_latency_us]; [t_receive] is the reading of
    [time.monotonic_ns()] taken on entry. *)
Definition network_latency (env : Env) (t_receive : Z)
    (command_timestamp : option pyval) : M t Z :=
  (a <- get ;;
   match command_timestamp with
   | Some ts =>
       if truthy ts && is_set (sync_stats a) then
         match ts with
         | VInt ts_us =>
             let network_latency_us := t_receive / 1000 - ts_us in
             debug env "[SYNC_TIMING] Network latency: {} us"
               [VInt network_latency_us] ;;
             ret network_latency_us
         | VStr _ => raise TypeError
         end
       else ret 0
   | None => ret 0
   end)%py.

(** Third step: the two activations, each in its own [try]; the result
    is [t_exec_start]. *)
Definition activate_fingers (env : Env) (data : pydict) : M t Z :=
  (let left_finger := dict_get data (lit "left_finger") (VInt 0) in
   let right_finger := dict_get data (lit "right_finger") (VInt 0) in
   let amplitude := dict_get data (lit "amplitude") (VInt 100) in
   debug env "[DEBUG] SYNC: Activate fingers L{}/R{} @ {}%"
     [left_finger; right_finger; amplitude] ;;
   a <- get ;;
   let t_exec_start := clock a in
   try_except (haptic env (HapticActivate left_finger amplitude))
     (fun _ => print "[ERROR] Failed to activate finger {}: {}" [left_finger]) ;;
   try_except (haptic env (HapticActivate right_finger amplitude))
     (fun _ => print "[ERROR] Failed to activate finger {}: {}" [right_finger]) ;;
   ret t_exec_start)%py.

(** Fourth step: the sample for the statistics. *)
Definition record_timing (t_receive t_exec_start network_latency_us : Z)
    : M t unit :=
  (a <- get ;;
   match sync_stats a with
   | Some stats =>
       let t_exec_complete := clock a in
       let exec_time_us := (t_exec_complete - t_exec_start) / 1000 in
       let total_latency_us := (t_exec_complete - t_receive) / 1000 in
       print "[SYNC_TIMING] Execution time: {} us" [VInt exec_time_us] ;;
       print "[SYNC_TIMING] Total latency: {} us" [VInt total_latency_us] ;;
       match SyncStats.add_sample (clock a) network_latency_us exec_time_us
               total_latency_us stats with
       | Returned _ stats' => modify (set_sync_stats (Some stats'))
       | Raised e stats' => modify (set_sync_stats (Some stats')) ;; raise e
       end
   | None => ret tt
   end)%py.

Definition execute_buzz (env : Env) (t_receive : Z) (data : pydict)
    (command_timestamp : option pyval) : M t unit :=
  (track_sequence data ;;
   network_latency_us <- network_latency env t_receive command_timestamp ;;
   t_exec_start <- activate_fingers env data ;;
   record_timing t_receive t_exec_start network_latency_us)%py.

(** [float(jitter_int) / 10.0] raises on a text that is not a number. *)
Definition check_float (env : Env) (v : pyval) : M t unit :=
  match v with
  | VInt _ => ret tt
  | VStr s => if float_parses env s then ret tt else raise ValueError
  end.

(** The [if]/[elif] chain on [command_type]. *)
Definition dispatch (env : Env) (t_receive : Z) (command_type : pystr)
    (data : pydict) (command_timestamp : option pyval) : M t unit :=
  (if pystr_eqb command_type (lit "EXECUTE_BUZZ") then
     execute_buzz env t_receive data command_timestamp
   else if pystr_eqb command_type (lit "DEACTIVATE") then
     let left_finger := dict_get data (lit "left_finger") (VInt 0) in
     let right_finger := dict_get data (lit "right_finger") (VInt 0) in
     try_except
       (haptic env (HapticDeactivate left_finger) ;;
        haptic env (HapticDeactivate right_finger))
       (fun _ => print "[ERROR] Failed to deactivate: {}" [])
   else if pystr_eqb command_type (lit "START_SESSION") then
     print "[SYNC] Received START_SESSION from PRIMARY" [] ;;
     let duration_sec := dict_get data (lit "duration_sec") (VInt 7200) in
     let pattern_type := dict_get data (lit "pattern_type") (VStr (lit "rndp")) in
     let jitter_int := dict_get data (lit "jitter_percent") (VInt 235) in
     check_float env jitter_int ;;
     print "[DEBUG] Session config: duration={}s, pattern={}, jitter={}%"
       [duration_sec; pattern_type; jitter_int] ;;
     sm_transition StateTrigger.START_SESSION ;;
     led (LedSetTherapyState TherapyState.RUNNING) ;;
     print "SECONDARY: Entered therapy mode (follower - awaiting EXECUTE_BUZZ commands)" []
   else if pystr_eqb command_type (lit "PAUSE_SESSION") then
     debug env "[DEBUG] SYNC: Pause session" [] ;;
     a <- get ;;
     if therapy_engine a then
       call env EnginePause ;;
       sm_transition StateTrigger.PAUSE_SESSION ;;
       print "SECONDARY: Therapy session paused" []
     else ret tt
   else if pystr_eqb command_type (lit "RESUME_SESSION") then
     debug env "[DEBUG] SYNC: Resume session" [] ;;
     a <- get ;;
     if therapy_engine a then
       call env EngineResume ;;
       sm_transition StateTrigger.RESUME_SESSION ;;
       print "SECONDARY: Therapy session resumed" []
     else ret tt
   else if pystr_eqb command_type (lit "STOP_SESSION") then
     debug env "[DEBUG] SYNC: Stop session" [] ;;
     a <- get ;;
     if therapy_engine a then
       call env EngineStop ;;
       sm_transition StateTrigger.STOP_SESSION ;;
       sm_transition StateTrigger.STOPPED ;;
       print "SECONDARY: Therapy session stopped" []
     else ret tt
   else if pystr_eqb command_type (lit "HEARTBEAT") then
     a <- get ;;
     modify (set_last_heartbeat_received (Some (clock a))) ;;
     debug env "[DEBUG] Heartbeat received (PRIMARY ts: {})"
       [dict_get data (lit "ts") (VInt 0)]
   else
     debug env "[DEBUG] Unknown SYNC command: {}" [VStr command_type])%py.

(** [_handle_sync_command(message)].  Every exception of the body is
    caught by the method's own handler, so the method always returns:
    the result is the application afterwards. *)
Definition _handle_sync_command (env : Env) (message : pystr) (a : t) : t :=
  let t_receive := clock a in
  let body : M t unit :=
    (debug env "[SYNC_RX] Received: {}" [VStr (take 60 message)] ;;
     try_except
       (match split_message message with
        | None =>
            print "[SYNC_RX] ERROR: Invalid SYNC format: {}"
              [VStr (take 40 message)]
        | Some (command_type, data_str) =>
            a <- get ;;
            modify (set_last_sync_command_received (Some (clock a))) ;;
            debug env "[SYNC_RX] Parsed: cmd={}, data={}"
              [VStr command_type; VStr (take 40 data_str)] ;;
            let '(data, command_timestamp) := parse_data data_str in
            dispatch env t_receive command_type data command_timestamp
        end)
       (fun _ => print "[ERROR] Failed to handle SYNC command: {}" []))%py in
  match body a with
  | Returned _ a' => a'
  | Raised _ a' => a'
  end.

(** *** SECONDARY: heartbeat recovery *)

Definition MAX_ATTEMPTS : nat := 3.
Definition DELAY_SEC : Z := 2.
Definition second : Z := 1000000000.

Definition get_ble_name (a : t) : pystr :=
  match ble_name (config a) with
  | Some n => n
  | None => lit "BlueBuzzah"
  end.

(** The [for attempt in range(MAX_ATTEMPTS)] loop of
    [_attempt_reconnect_to_primary] from attempt number [attempt] on,
    with [remaining] attempts left, and what follows the loop. *)
Fixpoint reconnect_attempts (env : Env) (attempt : nat) (remaining : nat)
    : M t bool :=
  match remaining with
  | O =>
      (print "[RECOVERY] Failed to reconnect after {} attempts"
         [VInt (Z.of_nat MAX_ATTEMPTS)] ;;
       sm_force_state TherapyState.IDLE None ;;
       led LedIndicateFailure ;;
       ret false)%py
  | S remaining' =>
      (print "[RECOVERY] Attempt {}/{}"
         [VInt (Z.of_nat attempt + 1); VInt (Z.of_nat MAX_ATTEMPTS)] ;;
       led LedIndicateBleInit ;;
       reconnected <-
         try_except
           (a <- get ;;
            connection <- call env (BleScanAndConnect (get_ble_name a)
                                      (10 * second) (lit "primary")) ;;
            if connection then
              modify (set_primary_connection (Some (lit "primary"))) ;;
              sm_force_state TherapyState.READY None ;;
              led LedIndicateReady ;;
              print "[RECOVERY] Reconnected to PRIMARY successfully!" [] ;;
              ret true
            else ret false)
           (fun _ =>
              print "[RECOVERY] Attempt {} failed: {}"
                [VInt (Z.of_nat attempt + 1)] ;;
              ret false) ;;
       if reconnected then ret true
       else
         sleep (DELAY_SEC * second) ;;
         reconnect_attempts env (S attempt) remaining')%py
  end.

(** [_attempt_reconnect_to_primary()] *)
Definition _attempt_reconnect_to_primary (env : Env) : M t bool :=
  (print "[RECOVERY] Starting reconnection attempts to PRIMARY" [] ;;
   reconnect_attempts env 0 MAX_ATTEMPTS)%py.

(** [_handle_heartbeat_timeout()] *)
Definition _handle_heartbeat_timeout (env : Env) : M t unit :=
  (print "[RECOVERY] Heartbeat timeout - entering recovery mode" [] ;;
   a <- get ;;
   (if haptic_controller a then
      try_except
        (call env HapticEmergencyStop ;;
         print "[RECOVERY] Motors stopped" [])
        (fun _ => print "[ERROR] Failed to stop motors: {}" [])
    else ret tt) ;;
   sm_force_state TherapyState.CONNECTION_LOST (Some "heartbeat_timeout"%string) ;;
   led (LedSetTherapyState TherapyState.CONNECTION_LOST) ;;
   modify (set_last_heartbeat_received None) ;;
   _attempt_reconnect_to_primary env ;;
   ret tt)%py.

(** *** PRIMARY: boot sequence *)

(** [self.config.get('startup_window_sec', 30)], in nanoseconds. *)
Definition startup_window (a : t) : Z :=
  match startup_window_sec (config a) with
  | Some sec => sec * second
  | None => 30 * second
  end.

(** [self.ble.wait_for_connection(conn_id, timeout=min(0.02, remaining_time))]:
    the connection id, or [None]. *)
Definition wait_for_connection (env : Env) (conn_id : pystr)
    (start_time : Z) : M t (option pystr) :=
  (a <- get ;;
   let remaining_time := startup_window a - (clock a - start_time) in
   accepted <- call env
                 (BleWaitForConnection conn_id
                    (Z.min (20 * 1000000) remaining_time)) ;;
   ret (if accepted then Some conn_id else None))%py.

(** The [if not secondary_connected:] block of the loop; the result is
    the new [secondary_connected]. *)
Definition check_secondary (env : Env) (start_time : Z)
    (secondary_connected : bool) : M t bool :=
  (if negb secondary_connected then
     conn <- wait_for_connection env (lit "secondary") start_time ;;
     if handle_truthy conn then
       modify (set_secondary_connection conn) ;;
       print "PRIMARY: SECONDARY connected" [] ;;
       led LedIndicateConnectionSuccess ;;
       sleep (500 * 1000000) ;;
       led LedIndicateWaitingForPhone ;;
       print "PRIMARY: Waiting for phone..." [] ;;
       ret true
     else ret false
   else ret true)%py.

(** The [if not phone_connected and secondary_connected:] block; the
    result is the new [phone_connected]. *)
Definition check_phone (env : Env) (start_time : Z)
    (secondary_connected phone_connected : bool) : M t bool :=
  (if negb phone_connected && secondary_connected then
     conn <- wait_for_connection env (lit "phone") start_time ;;
     if handle_truthy conn then
       modify (set_phone_connection conn) ;;
       print "PRIMARY: Phone connected" [] ;;
       ret true
     else ret false
   else ret phone_connected)%py.

(** The body of the [while] loop up to the test for the early exit. *)
Definition boot_iteration (env : Env) (start_time : Z)
    (secondary_connected phone_connected : bool) : M t (bool * bool) :=
  (led LedUpdateAnimation ;;
   secondary_connected <- check_secondary env start_time secondary_connected ;;
   phone_connected <-
     check_phone env start_time secondary_connected phone_connected ;;
   ret (secondary_connected, phone_connected))%py.

(** The [while] loop of [_primary_boot_sequence]; the result is
    [(secondary_connected, phone_connected)].  [fuel] bounds the
    number of iterations; [None] means the bound was reached. *)
Fixpoint boot_loop (fuel : nat) (env : Env) (start_time : Z)
    (secondary_connected phone_connected : bool) (a : t)
    : option (outcome t (bool * bool)) :=
  match fuel with
  | O => None
  | S fuel' =>
      if clock a - start_time <? startup_window a then
        match boot_iteration env start_time
                secondary_connected phone_connected a with
        | Raised e a' => Some (Raised e a')
        | Returned (sc, pc) a' =>
            if sc && pc then Some (Returned (sc, pc) a')
            else
              match sleep (10 * 1000000) a' with
              | Returned _ a'' => boot_loop fuel' env start_time sc pc a''
              | Raised e a'' => Some (Raised e a'')
              end
        end
      else Some (Returned (secondary_connected, phone_connected) a)
  end.

(** [_primary_boot_sequence()] *)
Definition _primary_boot_sequence (fuel : nat) (env : Env) (a : t)
    : option (outcome t BootResult) :=
  let start : M t (option BootResult) :=
    (print "PRIMARY: Beginning boot sequence" [] ;;
     led LedIndicateBleInit ;;
     a <- get ;;
     try_except
       (call env (BleAdvertise (get_ble_name a)) ;; ret None)
       (fun _ =>
          print "PRIMARY: ERROR - Failed to advertise: {}" [] ;;
          led LedIndicateFailure ;;
          ret (Some FAILED)))%py in
  match start a with
  | Raised e a1 => Some (Raised e a1)
  | Returned (Some result) a1 => Some (Returned result a1)
  | Returned None a1 =>
      match print "PRIMARY: Waiting for connections" [] a1 with
      | Raised e a2 => Some (Raised e a2)
      | Returned _ a2 =>
          match boot_loop fuel env (clock a2) false false a2 with
          | None => None
          | Some (Raised e a3) => Some (Raised e a3)
          | Some (Returned (secondary_connected, phone_connected) a3) =>
              Some
                ((if negb secondary_connected then
                    print "PRIMARY: FAILED - SECONDARY did not connect" [] ;;
                    led LedIndicateFailure ;;
                    ret FAILED
                  else
                    led LedIndicateReady ;;
                    if phone_connected then
                      print "PRIMARY: SUCCESS - SECONDARY and phone connected" [] ;;
                      ret SUCCESS_WITH_PHONE
                    else
                      print "PRIMARY: SUCCESS - SECONDARY connected (no phone)" [] ;;
                      ret SUCCESS_NO_PHONE)%py a3)
          end
      end
  end.

End App.

(** *** [SyncStats.reset] with its console line *)

Module SyncStatsReset.
Import SyncStats.

(** [reset()] with the line it prints. *)
Definition reset (s : t) : t * string :=
  (reset s, "[SYNC_STATS] Statistics reset"%string).

End SyncStatsReset.

(** ** src/ble.py: sending and the connection table *)

(** [str.encode('utf-8')] (strict) for one code point: [None] stands for
    UnicodeEncodeError (a surrogate, or a value that is no code
    point). *)
Definition utf8_encode_char (cp : Z) : option (list Z) :=
  if (0 <=? cp) && (cp <=? 0x7F) then Some [cp]
  else if (0x80 <=? cp) && (cp <=? 0x7FF) then
    Some [0xC0 + cp / 64; 0x80 + cp mod 64]
  else if (0x800 <=? cp) && (cp <=? 0xFFFF) then
    if (0xD800 <=? cp) && (cp <=? 0xDFFF) then None
    else Some [0xE0 + cp / 4096; 0x80 + (cp / 64) mod 64; 0x80 + cp mod 64]
  else if (0x10000 <=? cp) && (cp <=? 0x10FFFF) then
    Some [0xF0 + cp / 262144; 0x80 + (cp / 4096) mod 64;
          0x80 + (cp / 64) mod 64; 0x80 + cp mod 64]
  else None.

Fixpoint utf8_encode (s : pystr) : option (list Z) :=
  match s with
  | [] => Some []
  | cp :: s' =>
      match utf8_encode_char cp, utf8_encode s' with
      | Some bs, Some bs' => Some (bs ++ bs')
      | _, _ => None
      end
  end.

Module BleOps.
Import Ble.

(** Lines printed by [send]; the debug lines carry what they show. *)
Inductive line : Type :=
| SendFailedNotFound (conn_id : pystr)
| SendAvailableConnections (keys : list pystr)
| SendFailedNotConnected (conn_id : pystr)
| SendDebug (text : string) (shown : option pystr)
| SendException (conn_id : pystr) (e : exn).

(** What the UART service of a connection is asked to do. *)
Inductive uart_call : Type :=
| UartWrite (data_bytes : list Z)
| UartFlush.

(** What the link underneath does with a connection: whether
    [uart.write] and [uart.flush] raise and whether the service has a
    [flush] and a [reset_input_buffer] at all. *)
Record Link : Type := mk_link {
  write_raises : pystr -> list Z -> bool;
  has_flush : pystr -> bool;
  flush_raises : pystr -> bool;
  has_reset_input_buffer : pystr -> bool
}.

(** The [BLE] object with what it has asked of the UART services and of
    the connections underneath, and the console of [send]. *)
Record radio : Type := mk_radio {
  ble : BLE;
  uart_calls : list (pystr * uart_call);
  link_disconnects : list pystr;
  console : list line
}.

Definition on_ble (f : BLE -> BLE) (s : radio) : radio :=
  mk_radio (f (ble s)) (uart_calls s) (link_disconnects s) (console s).
Definition print (l : line) (s : radio) : radio :=
  mk_radio (ble s) (uart_calls s) (link_disconnects s) (console s ++ [l]).
Definition ask (conn_id : pystr) (c : uart_call) (s : radio) : radio :=
  mk_radio (ble s) (uart_calls s ++ [(conn_id, c)]) (link_disconnects s)
    (console s).

(** [if DEBUG_ENABLED: print(...)] *)
Definition debug (enabled : bool) (text : string) (shown : option pystr)
    : M radio unit :=
  if enabled then modify (print (SendDebug text shown)) else ret tt.

(** [self._connections.keys()]; the order of the keys is not
    modelled. *)
Definition get_all_connections (b : BLE) : list pystr :=
  (map_to_list (_connections b)).*1.

(** The [try] block of [send]. *)
Definition send_body (DEBUG_ENABLED : bool) (link : Link)
    (conn_id message : pystr) : M radio bool :=
  (let message_with_eot := message ++ [EOT] in
   match utf8_encode message_with_eot with
   | None => raise UnicodeError
   | Some data_bytes =>
       debug DEBUG_ENABLED "[BLE] *** SEND DEBUG for '{}' ***" (Some conn_id) ;;
       debug DEBUG_ENABLED "[BLE] UART object: {}" None ;;
       debug DEBUG_ENABLED "[BLE] UART object type: {}" None ;;
       debug DEBUG_ENABLED "[BLE] Message (first 100 chars): {}..."
         (Some (take 100 message)) ;;
       debug DEBUG_ENABLED "[BLE] Data bytes length: {}"
         (Some (str_of_int (Z.of_nat (length data_bytes)))) ;;
       debug DEBUG_ENABLED "[BLE] Data bytes (first 50): {}"
         (Some (take 50 data_bytes)) ;;
       debug DEBUG_ENABLED "[BLE] Calling conn.uart.write()..." None ;;
       modify (ask conn_id (UartWrite data_bytes)) ;;
       (if write_raises link conn_id data_bytes then raise ExternalError
        else ret tt) ;;
       debug DEBUG_ENABLED "[BLE] write() returned: {}" None ;;
       (if has_flush link conn_id then
          debug DEBUG_ENABLED "[BLE] Calling conn.uart.flush()..." None ;;
          modify (ask conn_id UartFlush) ;;
          (if flush_raises link conn_id then raise ExternalError else ret tt) ;;
          debug DEBUG_ENABLED "[BLE] flush() completed" None
        else debug DEBUG_ENABLED "[BLE] No flush() method available" None) ;;
       (if has_reset_input_buffer link conn_id then
          debug DEBUG_ENABLED "[BLE] reset_input_buffer() is available" None
        else ret tt) ;;
       modify (on_ble (fun b =>
         mk_ble (alter (set_last_seen (now b)) conn_id (_connections b))
           (now b) (output b))) ;;
       debug DEBUG_ENABLED "[BLE] *** SEND SUCCESS to '{}' ***" (Some conn_id) ;;
       ret true
   end)%py.

(** [BLE.send(conn_id, message)] *)
Definition send (DEBUG_ENABLED : bool) (link : Link)
    (conn_id message : pystr) (s : radio) : bool * radio :=
  match _connections (ble s) !! conn_id with
  | None =>
      (false,
       print (SendAvailableConnections (get_all_connections (ble s)))
         (print (SendFailedNotFound conn_id) s))
  | Some conn =>
      if negb (connected conn) then
        (false, print (SendFailedNotConnected conn_id) s)
      else
        match send_body DEBUG_ENABLED link conn_id message s with
        | Returned r s' => (r, s')
        | Raised e s' => (false, print (SendException conn_id e) s')
        end
  end.

(** [BLE.disconnect(conn_id)]; what [ble_connection.disconnect()] raises
    is swallowed. *)
Definition disconnect (conn_id : pystr) (s : radio) : radio :=
  match _connections (ble s) !! conn_id with
  | None => s
  | Some _ =>
      mk_radio
        (mk_ble (delete conn_id (_connections (ble s))) (now (ble s))
           (output (ble s)))
        (uart_calls s) (link_disconnects s ++ [conn_id]) (console s)
  end.

(** [BLE.is_connected(conn_id)] *)
Definition is_connected (conn_id : pystr) (b : BLE) : bool :=
  match _connections b !! conn_id with
  | None => false
  | Some c => connected c
  end.

(** [BLE.disconnect_all()] *)
Definition disconnect_all (s : radio) : radio :=
  foldl (fun s conn_id => disconnect conn_id s) s (get_all_connections (ble s)).

End BleOps.

(** ** src/app.py: the message pump *)

(** [s.startswith(prefix)] *)
Definition startswith (s prefix : pystr) : bool :=
  pystr_eqb (take (length prefix) s) prefix.

Module Node.

(** [self.menu]: the menu controller is not under src/.  A command is
    whatever it does to the application, ending in a response (a text)
    or in an exception. *)
Record Menu : Type := mk_menu {
  handle_command : pystr -> M App.t pystr
}.

(** The application with its [BLE] object and its queue of responses,
    [self.message_queue]: pairs of a connection and a text, oldest
    first. *)
Record t : Type := mk {
  app : App.t;
  radio : BleOps.radio;
  message_queue : list (pystr * pystr)
}.

Definition on_app (f : App.t -> App.t) (n : t) : t :=
  mk (f (app n)) (radio n) (message_queue n).

Definition print (text : string) (args : list pyval) (n : t) : t :=
  on_app (App.emit (App.Print text args)) n.

Definition ns_per_ms : Z := 1000000.

(** The [BLE] object reads the one monotonic clock, in milliseconds. *)
Definition at_app_time (n : t) : BleOps.radio :=
  BleOps.on_ble
    (fun b => Ble.mk_ble (Ble._connections b) (App.clock (app n) / ns_per_ms)
                (Ble.output b))
    (radio n).

(** [self.ble.receive(connection, timeout=0.01)]; the time the call
    takes has passed for the application as well. *)
Definition ble_receive (fuel : nat) (connection : pystr) (n : t)
    : option (option pystr * t) :=
  let r := at_app_time n in
  match Ble.receive fuel connection (Some 10) (BleOps.ble r) with
  | None => None
  | Some (message, b') =>
      let elapsed := (Ble.now b' - Ble.now (BleOps.ble r)) * ns_per_ms in
      Some (message,
            mk (App.set_clock (App.clock (app n) + elapsed) (app n))
               (BleOps.on_ble (fun _ => b') r) (message_queue n))
  end.

(** [self.ble.send(connection, data)] *)
Definition ble_send (env : App.Env) (link : BleOps.Link)
    (connection data : pystr) (n : t) : bool * t :=
  let '(ok, r') := BleOps.send (App.DEBUG_ENABLED env) link connection data
                     (at_app_time n) in
  (ok, mk (app n) r' (message_queue n)).

(** [self.ble.is_connected(connection)] *)
Definition ble_is_connected (connection : pystr) (n : t) : bool :=
  BleOps.is_connected connection (BleOps.ble (radio n)).

(** [_process_connection_messages(connection, connection_type)].  The
    handler of the method catches what the menu raises; the traceback it
    prints after its line is not a separate event. *)
Definition _process_connection_messages (fuel : nat) (env : App.Env)
    (menu : Menu) (connection connection_type : pystr) (n : t) : option t :=
  match ble_receive fuel connection n with
  | None => None
  | Some (None, n1) => Some n1
  | Some (Some message, n1) =>
      let n2 := print "[RX] Received from {}: '{}...'"
                  [VStr connection_type; VStr (take 100 message)] n1 in
      if pystr_eqb connection_type (lit "primary")
         && startswith message (lit "SYNC:")
      then Some (on_app (App._handle_sync_command env message) n2)
      else
        match handle_command menu message (app n2) with
        | Returned response a' =>
            let n3 := mk a' (radio n2)
                        (message_queue n2 ++ [(connection, response)]) in
            Some (if App.DEBUG_ENABLED env
                  then print "[RX] Response queued: '{}...'"
                         [VStr (take 100 response)] n3
                  else n3)
        | Raised e a' =>
            Some (print "[RX] EXCEPTION processing {} message: {}"
                    [VStr connection_type]
                    (mk a' (radio n2) (message_queue n2)))
        end
  end.

(** The three blocks of [_process_incoming_ble_messages]; each reads the
    attribute of the application when its turn comes. *)
Definition poll_phone (fuel : nat) (env : App.Env) (menu : Menu) (n : t)
    : option t :=
  match App.phone_connection (app n) with
  | Some (c :: conn) =>
      if ble_is_connected (c :: conn) n
      then _process_connection_messages fuel env menu (c :: conn) (lit "phone") n
      else Some n
  | _ => Some n
  end.

Definition poll_primary (fuel : nat) (env : App.Env) (menu : Menu) (n : t)
    : option t :=
  match App.primary_connection (app n) with
  | Some (c :: conn) =>
      let n1 :=
        match App.role (app n) with
        | SECONDARY =>
            print "[POLL] PRIMARY connection check: conn_id='{}', is_connected={}"
              [VStr (c :: conn);
               VStr (lit (if ble_is_connected (c :: conn) n
                          then "True" else "False"))] n
        | PRIMARY => n
        end in
      if ble_is_connected (c :: conn) n1
      then _process_connection_messages fuel env menu (c :: conn) (lit "primary") n1
      else Some n1
  | _ => Some n
  end.

Definition poll_secondary (fuel : nat) (env : App.Env) (menu : Menu) (n : t)
    : option t :=
  match App.secondary_connection (app n) with
  | Some (c :: conn) =>
      if ble_is_connected (c :: conn) n
      then _process_connection_messages fuel env menu (c :: conn)
             (lit "secondary") n
      else Some n
  | _ => Some n
  end.

(** [_process_incoming_ble_messages()] *)
Definition _process_incoming_ble_messages (fuel : nat) (env : App.Env)
    (menu : Menu) (n : t) : option t :=
  match poll_phone fuel env menu n with
  | None => None
  | Some n1 =>
      match poll_primary fuel env menu n1 with
      | None => None
      | Some n2 => poll_secondary fuel env menu n2
      end
  end.

(** The [for _ in range(5)] loop of [_process_message_queue] with
    [rounds] turns left.  [BLE.send] catches what the link raises, so
    the handler of the method has nothing to catch. *)
Fixpoint send_queued (rounds : nat) (env : App.Env) (link : BleOps.Link)
    (n : t) : t :=
  match rounds with
  | O => n
  | S rounds' =>
      match message_queue n with
      | [] => n
      | (connection, data) :: rest =>
          let '(_, n1) := ble_send env link connection data
                            (mk (app n) (radio n) rest) in
          send_queued rounds' env link n1
      end
  end.

(** [_process_message_queue()] *)
Definition _process_message_queue (env : App.Env) (link : BleOps.Link)
    (n : t) : t :=
  send_queued 5 env link n.

(** The closure [send_sync_command] of [_initialize_domain] with the
    [BLE] object in place: [BLE.send] returns [False] where the link
    raises, so the handler of the closure has nothing to catch. *)
Definition send_sync_command (env : App.Env) (link : BleOps.Link)
    (command_type : pystr) (data : pydict) (n : t) : t :=
  match App.role (app n), App.secondary_connection (app n) with
  | PRIMARY, Some (c :: conn) =>
      snd (ble_send env link (c :: conn)
             (App.sync_message command_type data) n)
  | _, _ => n
  end.

End Node.

(** ** src/app.py: the heartbeat watchdog of the SECONDARY's loop *)

Module SecondaryLoop.
Import App.



End SecondaryLoop.

(** ** src/app.py: the SECONDARY's boot sequence and the boot of either role *)

Module Boot.
Import App.

(** The two calls of the SECONDARY's boot that are not among the events
    of the application: [ble.set_identity_name(name)], which prints and
    catches what the adapter raises, and
    [boot_led_controller.update_flash()]. *)
Inductive extra : Type :=
| BleSetIdentityName (name : pystr)
| LedUpdateFlash.

(** The application during boot.  [extras] holds the two calls above in
    program order, each with the number of events of the application
    that precede it. *)
Record t : Type := mk {
  app : App.t;
  extras : list (nat * extra)
}.

Definition lift {A} (c : M App.t A) : M t A :=
  fun s =>
    match c (app s) with
    | Returned x a => Returned x (mk a (extras s))
    | Raised e a => Raised e (mk a (extras s))
    end.

Definition note (x : extra) : M t unit :=
  modify (fun s => mk (app s) (extras s ++ [(length (trace (app s)), x)])).

(** The [try] block in the loop of [_secondary_boot_sequence] with its
    handler; the result tells whether the method returns SUCCESS from
    inside the block. *)
Definition scan_attempt (env : Env) (start_time : Z) : M App.t bool :=
  (try_except
     (a <- get ;;
      let scan_timeout :=
        Z.min (20 * 1000000) (startup_window a - (clock a - start_time)) in
      connection <- call env (BleScanAndConnect (get_ble_name a) scan_timeout
                                (lit "primary")) ;;
      if connection then
        print "SECONDARY: Connected to PRIMARY!" [] ;;
        modify (set_primary_connection (Some (lit "primary"))) ;;
        led LedIndicateConnectionSuccess ;;
        sleep (500 * 1000000) ;;
        led LedIndicateReady ;;
        print "SECONDARY: SUCCESS" [] ;;
        ret true
      else ret false)
     (fun _ => print "SECONDARY: Scan error: {}" [] ;; ret false))%py.

(** The [while] loop of [_secondary_boot_sequence]; the result tells
    whether the method returned SUCCESS from inside it.  [fuel] bounds
    the number of iterations; [None] means the bound was reached. *)
Fixpoint scan_loop (fuel : nat) (env : Env) (start_time : Z) (s : t)
    : option (outcome t bool) :=
  match fuel with
  | O => None
  | S fuel' =>
      if clock (app s) - start_time <? startup_window (app s) then
        match (note LedUpdateFlash ;;
               lift (scan_attempt env start_time))%py s with
        | Raised e s1 => Some (Raised e s1)
        | Returned true s1 => Some (Returned true s1)
        | Returned false s1 =>
            match lift (sleep (10 * 1000000)) s1 with
            | Returned _ s2 => scan_loop fuel' env start_time s2
            | Raised e s2 => Some (Raised e s2)
            end
        end
      else Some (Returned false s)
  end.

(** [_secondary_boot_sequence()] *)
Definition _secondary_boot_sequence (fuel : nat) (env : Env) (s : t)
    : option (outcome t BootResult) :=
  let start : M t unit :=
    (lift (print "SECONDARY: Beginning boot sequence" [] ;;
           led LedIndicateBleInit) ;;
     s <- get ;;
     note (BleSetIdentityName (get_ble_name (app s) ++ lit "-Secondary")) ;;
     lift (print "SECONDARY: Scanning for PRIMARY" []))%py in
  match start s with
  | Raised e s1 => Some (Raised e s1)
  | Returned _ s1 =>
      match scan_loop fuel env (clock (app s1)) s1 with
      | None => None
      | Some (Raised e s2) => Some (Raised e s2)
      | Some (Returned true s2) => Some (Returned SUCCESS s2)
      | Some (Returned false s2) =>
          Some (lift (print "SECONDARY: FAILED - Timeout without PRIMARY connection" [] ;;
                      led LedIndicateFailure ;;
                      ret FAILED)%py s2)
      end
  end.

(** [self.config.get('startup_window_sec', 30)] *)
Definition get_startup_window_sec (a : App.t) : Z :=
  match startup_window_sec (config a) with
  | Some sec => sec
  | None => 30
  end.

(** [_execute_boot_sequence()]: the boot sequence of the role inside the
    handler that turns every exception into FAILED. *)
Definition _execute_boot_sequence (fuel : nat) (env : Env) (s : t)
    : option (BootResult * t) :=
  let s1 :=
    mk (emit (Print "Timeout: {}s" [VInt (get_startup_window_sec (app s))])
          (emit (Print "Starting boot sequence" []) (app s)))
       (extras s) in
  let boot : option (outcome t BootResult) :=
    match role (app s1) with
    | PRIMARY =>
        match _primary_boot_sequence fuel env (app s1) with
        | None => None
        | Some o => Some (lift (fun _ => o) s1)
        end
    | SECONDARY => _secondary_boot_sequence fuel env s1
    end in
  match boot with
  | None => None
  | Some (Returned result s2) => Some (result, s2)
  | Some (Raised e s2) =>
      Some (FAILED,
            mk (emit (Led LedIndicateFailure)
                  (emit (Print "[ERROR] Boot sequence failed: {}" []) (app s2)))
               (extras s2))
  end.

End Boot.


(** * Vocabulary of the verification

    Definitions used to state the properties: what is retained by the
    sample buffers, what the report promises, the framer seen as a
    function of the byte stream, and a caller that polls [receive]. *)

(** ** SyncStats *)

(** The calls whose samples are still held after [calls] were made. *)
Definition retained (maxs : Z) (calls : list SyncStats.call)
    : list SyncStats.call :=
  drop (length calls - Z.to_nat maxs) calls.

Definition aligned (kept : list SyncStats.call) (s : SyncStats.t) : Prop :=
  SyncStats.network_latency_samples s = SyncStats.c_network <$> kept /\
  SyncStats.execution_time_samples s = SyncStats.c_execution <$> kept /\
  SyncStats.total_latency_samples s = SyncStats.c_total <$> kept.

Definition example_calls : list SyncStats.call :=
  [SyncStats.mk_call 10 700 120 830; SyncStats.mk_call 20 650 110 770;
   SyncStats.mk_call 30 900 130 1040].

Definition is_maximum (x : Z) (l : list Z) : Prop :=
  x ∈ l /\ forall y, y ∈ l -> y <= x.

(** What the report says about [p95] and [p99] of one metric. *)
Definition percentiles_ok (samples : list Z) (m : SyncStats.metric) : Prop :=
  let n := Z.of_nat (length samples) in
  1 <= n /\
  (if 20 <=? n
   then sorted samples !! Z.to_nat (n * 95 / 100) = Some (SyncStats.p95 m)
   else is_maximum (SyncStats.p95 m) samples) /\
  (if 100 <=? n
   then sorted samples !! Z.to_nat (n * 99 / 100) = Some (SyncStats.p99 m)
   else is_maximum (SyncStats.p99 m) samples).

Definition example_stats_state : SyncStats.t :=
  SyncStats.mk 200 [700; 650; 900] [120; 110; 130] [830; 770; 1040] 3 (Some 30).

Definition example_report : SyncStats.statistics :=
  SyncStats.mk_statistics
    (SyncStats.mk_metric (2250, 3) 700 650 900 900 900 3)
    (SyncStats.mk_metric (360, 3) 120 110 130 130 130 3)
    (SyncStats.mk_metric (2640, 3) 830 770 1040 1040 1040 3).

(** ** The framer as a function of the byte stream *)

(** The byte loop of [receive] run on the bytes themselves rather than
    on their positions in [rx_buf]. *)
Fixpoint feed (conn_id : pystr) (data : list Z) (msg_len : nat)
    : M Ble.rx nat :=
  match data with
  | [] => ret msg_len
  | byte :: data' =>
      (msg_len' <- Ble.accumulate conn_id msg_len byte ;;
       feed conn_id data' msg_len')%py
  end.

(** What a run of the byte loop leaves behind: the accumulator bytes, the
    frames it appended to the queue and the overflow warnings it printed. *)
Definition upd (conn_id : pystr) (buf : list Z) (new : list pystr) (ov : nat)
    (s : Ble.rx) : Ble.rx :=
  Ble.mk_rx
    (Ble.set_pending_messages (Ble._pending_messages (Ble.conn s) ++ new)
       (Ble.set_msg_buffer buf (Ble.conn s)))
    (Ble.clock s)
    (Ble.console s ++ replicate ov (Ble.LogBufferOverflow conn_id)).

Definition acc_step (buf : list Z) (len : nat) (byte : Z)
    : option (list Z * nat * list pystr * nat) :=
  if byte =? Ble.EOT then
    if (0 <? len)%nat then
      match utf8_decode (take len buf) with
      | Some m => Some (buf, 0%nat, [m], 0%nat)
      | None => None
      end
    else Some (buf, 0%nat, [], 0%nat)
  else if (len <? length buf)%nat
       then Some (<[len := byte]> buf, S len, [], 0%nat)
       else Some (buf, 0%nat, [], 1%nat).

(** Accumulator, length, completed frames and number of overflows after
    [data], or [None] when a frame does not decode. *)
Fixpoint acc_run (buf : list Z) (len : nat) (data : list Z)
    : option (list Z * nat * list pystr * nat) :=
  match data with
  | [] => Some (buf, len, [], 0%nat)
  | byte :: data' =>
      match acc_step buf len byte with
      | None => None
      | Some (buf1, len1, new1, ov1) =>
          match acc_run buf1 len1 data' with
          | None => None
          | Some (buf2, len2, new2, ov2) =>
              Some (buf2, len2, new1 ++ new2, (ov1 + ov2)%nat)
          end
      end
  end.

(** A payload of the wire format with the text it stands for: no EOT
    inside, not empty, within the accumulator, valid UTF-8. *)
Definition well_formed (cap : nat) (m : list Z) (t : pystr) : Prop :=
  (Ble.EOT ∉ m) /\ m <> [] /\ (length m <= cap)%nat /\ utf8_decode m = Some t.

(** The bytes on the link for a sequence of payloads: each one followed
    by EOT, as [BLE.send] writes them. *)
Definition wire (msgs : list (list Z)) : list Z :=
  concat ((fun m => m ++ [Ble.EOT]) <$> msgs).

(** One transport read takes everything that is waiting. *)
Definition single_read (c : Ble.BLEConnection) : Prop :=
  Ble.uart_has_readinto c = false \/
  (length (Ble.uart_fifo c) <= length (Ble._rx_buffer c))%nat.

(** The state a call leaves when its first read completes a frame. *)
Definition after_read (conn_id : pystr) (buf : list Z) (len : nat)
    (rest : list pystr) (ov : nat) (s : Ble.rx) : Ble.rx :=
  Ble.mk_rx
    (Ble.mk_conn (Ble.name (Ble.conn s)) (Ble.connected (Ble.conn s)) []
       (Ble.uart_has_readinto (Ble.conn s)) (Ble.connected_at (Ble.conn s))
       (Ble.clock s)
       (Ble.uart_fifo (Ble.conn s)
          ++ drop (length (Ble.uart_fifo (Ble.conn s)))
                  (Ble._rx_buffer (Ble.conn s)))
       buf len rest)
    (Ble.clock s)
    (Ble.console s ++ replicate ov (Ble.LogBufferOverflow conn_id)).

(** [n] calls of [receive] one after the other, as a polling caller makes
    them; the results in call order. *)
Fixpoint receive_calls (n : nat) (fuel : nat) (conn_id : pystr)
    (timeout : option Z) (b : Ble.BLE)
    : option (list (option pystr) * Ble.BLE) :=
  match n with
  | O => Some ([], b)
  | S n' =>
      match Ble.receive fuel conn_id timeout b with
      | None => None
      | Some (r, b1) =>
          match receive_calls n' fuel conn_id timeout b1 with
          | None => None
          | Some (rs, b2) => Some (r :: rs, b2)
          end
      end
  end.

Definition msg_ok (cap : nat) (m : pystr) : Prop :=
  m <> [] /\ (length m <= cap)%nat.

(** The accumulator is within its buffer of [cap] bytes and every queued
    frame is a non-empty text of at most [cap] characters. *)
Definition conn_ok (cap : nat) (c : Ble.BLEConnection) : Prop :=
  length (Ble._msg_buffer c) = cap /\
  (Ble._msg_len c <= cap)%nat /\
  Forall (msg_ok cap) (Ble._pending_messages c).

(** Every connection of the table in such a state. *)
Definition ble_ok (cap : nat) (b : Ble.BLE) : Prop :=
  map_Forall (fun _ c => conn_ok cap c) (Ble._connections b).

(** A table with one fresh connection ["primary"] on which [bytes] are
    waiting. *)
Definition primary_with (bytes : list Z) : Ble.BLE :=
  Ble.mk_ble
    {[ lit "primary" :=
         Ble.set_uart_fifo bytes (Ble.new_connection (lit "primary") 0) ]}
    0 [].


(** The two messages of the multi-message scenario. *)
Definition example_heartbeat : pystr := lit "SYNC:HEARTBEAT:ts|100".
Definition example_buzz : pystr :=
  lit "SYNC:EXECUTE_BUZZ:left_finger|0|right_finger|0|amplitude|50|seq|0|timestamp|200".



(** ** The SYNC codec *)

(** The receiving side's view of a value: an integer stays itself, a
    text that reads as an integer becomes it. *)
Definition coerce_value (v : pyval) : pyval :=
  match v with
  | VInt z => VInt z
  | VStr s => App.coerce s
  end.

Definition coerced (data : pydict) : pydict :=
  (fun kv => (fst kv, coerce_value (snd kv))) <$> data.

(** The parsing steps of [_handle_sync_command]: command type and data
    map of a message. *)
Definition decode_sync (message : pystr) : option (pystr * pydict) :=
  match App.split_message message with
  | Some (command_type, data_str) =>
      Some (command_type, fst (App.parse_data data_str))
  | None => None
  end.




Definition example_buzz_data : pydict :=
  [(lit "left_finger", VInt 2); (lit "right_finger", VInt 2);
   (lit "amplitude", VInt 75); (lit "seq", VInt 0);
   (lit "timestamp", VInt 1500000); (lit "pattern_type", VStr (lit "rndp"));
   (lit "jitter_percent", VStr (lit "235"))].


(** ** The SYNC handler *)

Section HandlerVocabulary.
Import App.

(** [c] started in [a] ends, by return or by exception, in a state that
    satisfies [Q]. *)
Definition ends_in {A} (c : M App.t A) (a : App.t) (Q : App.t -> Prop) : Prop :=
  match c a with
  | Returned _ a' => Q a'
  | Raised _ a' => Q a'
  end.

(** [c] leaves the observation [obs] as it found it. *)
Definition keeps {X A} (obs : App.t -> X) (c : M App.t A) : Prop :=
  forall a, ends_in c a (fun a' => obs a' = obs a).



(** The activation an event stands for, if it is one. *)
Definition activation (e : App.event) : option App.port_call :=
  match e with
  | App.Called (App.HapticActivate f v) _ _ => Some (App.HapticActivate f v)
  | _ => None
  end.







Definition quiet_env : Env :=
  mk_env false (fun _ => false) (fun _ _ => mk_reply false 1500 false).

Definition example_secondary : App.t :=
  mk SECONDARY (mk_config None None) TherapyState.RUNNING true true
     (Some (SyncStats.init 200)) None None (Some (lit "primary"))
     None (-1) 0 None 5000000 [].



(** The events other than console lines. *)
Definition effects (tr : list event) : list event :=
  omap (fun e => match e with Print _ _ => None | _ => Some e end) tr.




End HandlerVocabulary.

(** ** Heartbeat recovery *)

Section RecoveryVocabulary.
Import App.

(** The steps of the recovery a watchdog trip sets off, as they show in
    the event trace. *)
Inductive milestone : Type :=
| EmergencyStop
| Forced (target : TherapyState.t)
| Scan (target : pystr) (timeout : Z) (conn_id : pystr) (reconnected : bool)
| Delay (ns : Z).

(** The call returned (did not raise) a connection. *)
Definition connects (r : reply) : bool := negb (raises r) && accepts r.

Definition milestone_of (e : event) : option milestone :=
  match e with
  | Called HapticEmergencyStop _ _ => Some EmergencyStop
  | Called (BleScanAndConnect target timeout conn_id) _ r =>
      Some (Scan target timeout conn_id (connects r))
  | Notified _ target StateTrigger.FORCE _ => Some (Forced target)
  | Slept ns => Some (Delay ns)
  | _ => None
  end.

Definition milestones (a : t) : list milestone := omap milestone_of (trace a).

(** A failed attempt: a 10 s scan for the configured name, then the 2 s
    delay. *)
Definition failed_attempt (name : pystr) : list milestone :=
  [Scan name (10 * second) (lit "primary") false; Delay (2 * second)].

Definition failed_attempts (k : nat) (name : pystr) : list milestone :=
  concat (replicate k (failed_attempt name)).

(** How the attempts end: a scan that connects and READY, or IDLE. *)
Definition ending (reconnected : bool) (name : pystr) : list milestone :=
  if reconnected
  then [Scan name (10 * second) (lit "primary") true;
        Forced TherapyState.READY]
  else [Forced TherapyState.IDLE].

(** A link on which nothing answers before the clock reads 4 s. *)
Definition flaky_env : Env :=
  mk_env false (fun _ => false)
    (fun now c => mk_reply false 1500 (4 * second <=? now)).

End RecoveryVocabulary.

(** ** PRIMARY boot *)

Section BootVocabulary.
Import App.

(** The event is a wait for [conn_id] that returned a connection. *)
Definition accepts_from (conn_id : pystr) (e : event) : bool :=
  match e with
  | Called (BleWaitForConnection id _) _ r => pystr_eqb id conn_id && connects r
  | _ => false
  end.

(** Some wait for [conn_id] among the events returned a connection. *)
Definition accepted (conn_id : pystr) (tr : list event) : bool :=
  existsb (accepts_from conn_id) tr.



(** A PRIMARY with a one-second window, and a link on which the
    SECONDARY answers from 300 ms on and no phone ever does. *)
Definition example_primary : App.t :=
  mk PRIMARY (mk_config None (Some 1)) TherapyState.IDLE true true
     None None None None None (-1) 0 None 0 [].

Definition boot_env : Env :=
  mk_env false (fun _ => false)
    (fun now c =>
       match c with
       | BleWaitForConnection id _ =>
           mk_reply false 1500
             (pystr_eqb id (lit "secondary") && (300 * 1000000 <=? now))
       | _ => mk_reply false 1500 false
       end).

(** A link whose advertising fails. *)
Definition deaf_env : Env :=
  mk_env false (fun _ => false) (fun _ _ => mk_reply true 1500 false).

(** The result a boot sequence returned, if it returned one. *)
Definition returned_result (o : option (outcome App.t BootResult))
    : option BootResult :=
  match o with
  | Some (Returned result _) => Some result
  | _ => None
  end.

End BootVocabulary.

(** ** SyncStats: histories and the order of the report *)

Section StatsVocabulary.
Import SyncStats.






End StatsVocabulary.

(** ** Sending *)

Section SendVocabulary.
Import Ble BleOps.

(** The bytes written to the UART service of [conn_id], in order. *)
Definition written (conn_id : pystr) (calls : list (pystr * uart_call))
    : list Z :=
  concat (omap (fun ic => match ic with
                          | (id, UartWrite d) =>
                              if pystr_eqb id conn_id then Some d else None
                          | _ => None
                          end) calls).

(** [send] called for each message in turn; the results in call
    order. *)
Fixpoint send_all (DEBUG_ENABLED : bool) (link : Link) (conn_id : pystr)
    (messages : list pystr) (s : radio) : list bool * radio :=
  match messages with
  | [] => ([], s)
  | m :: messages' =>
      let '(r, s1) := send DEBUG_ENABLED link conn_id m s in
      let '(rs, s2) := send_all DEBUG_ENABLED link conn_id messages' s1 in
      (r :: rs, s2)
  end.

(** The bytes [send] writes for a sequence of texts. *)
Definition on_the_wire (messages : list pystr) : list Z :=
  concat ((fun m => default [] (utf8_encode m) ++ [EOT]) <$> messages).

(** A text [send] can frame and [receive] can give back: not empty, no
    EOT character, encodable, and within the accumulator of the
    receiver. *)
Definition sendable (message : pystr) : Prop :=
  message <> [] /\ (EOT ∉ message) /\
  exists payload, utf8_encode message = Some payload /\
                  (length payload <= 512)%nat.

(** The link lets every write and flush on [conn_id] through. *)
Definition link_up (link : Link) (conn_id : pystr) : Prop :=
  (forall d, write_raises link conn_id d = false) /\
  flush_raises link conn_id = false.

(** A link that lets everything through, a radio with one connection
    ["secondary"], and two texts: a heartbeat and one with characters
    of two, three and four bytes. *)
Definition open_link : Link :=
  mk_link (fun _ _ => false) (fun _ => true) (fun _ => false) (fun _ => false).

Definition example_radio : radio :=
  mk_radio
    (mk_ble {[ lit "secondary" := new_connection (lit "secondary") 0 ]} 0 [])
    [] [] [].

Definition example_texts : list pystr :=
  [lit "SYNC:HEARTBEAT:ts|100"; [104; 233; 8364; 128512]].

End SendVocabulary.

(** ** The connection table *)

Section TableVocabulary.
Import Ble BleOps.

(** A link on which every write raises. *)
Definition closed_link : Link :=
  mk_link (fun _ _ => true) (fun _ => true) (fun _ => false) (fun _ => false).

(** A radio with the connections ["secondary"] and ["phone"]. *)
Definition two_connections : radio :=
  mk_radio
    (mk_ble (<[ lit "phone" := new_connection (lit "phone") 5 ]>
               {[ lit "secondary" := new_connection (lit "secondary") 0 ]})
       7 [])
    [] [] [].

End TableVocabulary.

(** ** Receiving: silence, fragments and frames that do not decode *)

Section ReceiveVocabulary.
Import Ble.

(** [bytes] arrive on the connection [conn_id]: they join the bytes
    that wait to be read. *)
Definition arrive (conn_id : pystr) (bytes : list Z) (b : BLE) : BLE :=
  mk_ble (alter (fun c => set_uart_fifo (uart_fifo c ++ bytes) c) conn_id
            (_connections b))
    (now b) (output b).

End ReceiveVocabulary.

Section FragmentVocabulary.
Import Ble.

(** The connection after a call that read [d] without completing a
    frame: the bytes are in the accumulator, nothing waits. *)
Definition absorbed (d buf : list Z) (len : nat) (c : BLEConnection)
    : BLEConnection :=
  mk_conn (name c) (connected c) [] (uart_has_readinto c) (connected_at c)
    (last_seen c) (d ++ drop (length d) (_rx_buffer c)) buf len [].

End FragmentVocabulary.

(** The clock at the end of a run, returned or raised. *)
Definition final_clock {A} (o : outcome Ble.rx A) : Z :=
  match o with Returned _ s | Raised _ s => Ble.clock s end.

(** ** EXECUTE_BUZZ with fields that are not numbers *)

Section MalformedVocabulary.
Import App.


Definition error_line : event :=
  Print "[ERROR] Failed to handle SYNC command: {}" [].

End MalformedVocabulary.

(** ** The sample an EXECUTE_BUZZ leaves in the statistics *)

Section TimingVocabulary.
Import App.




End TimingVocabulary.

(** ** The message pump *)

Section PumpVocabulary.
Import Ble BleOps.

(** On the connection [connection] of the node nothing is queued, the
    accumulator of 512 bytes is empty, and [bytes] wait that one read
    takes. *)
Definition waiting (connection : pystr) (bytes : list Z) (n : Node.t)
    : Prop :=
  exists c,
    _connections (ble (Node.radio n)) !! connection = Some c /\
    connected c = true /\
    _pending_messages c = [] /\
    _msg_len c = 0%nat /\
    length (_msg_buffer c) = 512%nat /\
    uart_fifo c = bytes /\
    single_read c.

(** A PRIMARY with its SECONDARY connected, and a SECONDARY on whose
    connection ["primary"] the given bytes wait. *)
Definition primary_node : Node.t :=
  Node.mk (App.set_secondary_connection (Some (lit "secondary")) example_primary)
    example_radio [].

Definition secondary_node (bytes : list Z) : Node.t :=
  Node.mk example_secondary
    (mk_radio (primary_with bytes) [] [] []) [].

(** A menu that answers every command with ["OK:"] and the command. *)
Definition echo_menu : Node.Menu :=
  Node.mk_menu (fun message => ret (lit "OK:" ++ message)).

End PumpVocabulary.

(** ** The queue of responses *)

Section QueueVocabulary.
Import Ble BleOps.

(** What [BLE.send] asks of the UART services for one queue entry on
    the table [b]: nothing for a connection that is absent or not
    connected or a text that cannot be encoded, else the write and,
    when the write returns and the service has one, the flush. *)
Definition delivered (link : Link) (b : BLE) (entry : pystr * pystr)
    : list (pystr * uart_call) :=
  let '(connection, data) := entry in
  if is_connected connection b then
    match utf8_encode (data ++ [EOT]) with
    | Some data_bytes =>
        (connection, UartWrite data_bytes)
          :: (if write_raises link connection data_bytes then []
              else if has_flush link connection then [(connection, UartFlush)]
              else [])
    | None => []
    end
  else [].

(** A PRIMARY with a phone on whose connection [bytes] wait, and a
    queue for the example: five responses for the phone with one for a
    connection that is not in the table among them, and a sixth. *)
Definition phone_node (bytes : list Z) : Node.t :=
  Node.mk (App.set_phone_connection (Some (lit "phone")) example_primary)
    (mk_radio
       (mk_ble {[ lit "phone" :=
                    set_uart_fifo bytes (new_connection (lit "phone") 0) ]}
          0 [])
       [] [] [])
    [].

Definition example_queue : list (pystr * pystr) :=
  [(lit "phone", lit "A"); (lit "phone", lit "B"); (lit "tablet", lit "C");
   (lit "phone", lit "D"); (lit "phone", lit "E"); (lit "phone", lit "F")].

End QueueVocabulary.

(** ** The heartbeat watchdog *)

Section WatchdogVocabulary.
Import App.



End WatchdogVocabulary.

(** ** Polling *)

Section PollVocabulary.
Import Ble BleOps.

(** [k] turns of the main loop's [_process_incoming_ble_messages()]. *)
Fixpoint polls (k : nat) (fuel : nat) (env : App.Env) (menu : Node.Menu)
    (n : Node.t) : option Node.t :=
  match k with
  | O => Some n
  | S k' =>
      match Node._process_incoming_ble_messages fuel env menu n with
      | None => None
      | Some n1 => polls k' fuel env menu n1
      end
  end.

(** The role and the three connection attributes. *)
Definition obs_conn (a : App.t) :=
  (App.role a, App.phone_connection a, App.primary_connection a,
   App.secondary_connection a).

(** A SECONDARY whose only connection is [connection], to the
    PRIMARY. *)
Definition listening (connection : pystr) (a : App.t) : Prop :=
  connection <> [] /\
  obs_conn a = (SECONDARY, None, Some connection, None).

(** What one turn does with the SYNC message it finds on the connection
    to the PRIMARY: the two lines of the poll, then the handler. *)
Definition handled (env : App.Env) (connection : pystr) (a : App.t)
    (message : pystr) : App.t :=
  App._handle_sync_command env message
    (App.emit (App.Print "[RX] Received from {}: '{}...'"
                 [VStr (lit "primary"); VStr (take 100 message)])
       (App.emit (App.Print
                    "[POLL] PRIMARY connection check: conn_id='{}', is_connected={}"
                    [VStr connection; VStr (lit "True")]) a)).

(** A SYNC message that [send] can frame. *)
Definition sync_frame (message : pystr) : Prop :=
  startswith message (lit "SYNC:") = true /\ sendable message.

(** Two commands in one packet: finger 1 and 4, then finger 2 and 3. *)
Definition two_buzzes : list pystr :=
  [lit "SYNC:EXECUTE_BUZZ:left_finger|1|right_finger|4|amplitude|60|seq|0";
   lit "SYNC:EXECUTE_BUZZ:left_finger|2|right_finger|3|amplitude|60|seq|1"].

End PollVocabulary.

(** ** The SECONDARY's boot *)

Section SecondaryBootVocabulary.
Import App.




(** A SECONDARY at boot with a one-second window. *)
Definition booting_secondary : Boot.t :=
  Boot.mk
    (mk SECONDARY (mk_config None (Some 1)) TherapyState.IDLE true true
       (Some (SyncStats.init 200)) None None None None (-1) 0 None 0 [])
    [].

(** A link on which the PRIMARY is found from 300 ms on. *)
Definition scan_env : Env :=
  mk_env false (fun _ => false)
    (fun now c => mk_reply false 1500 (300 * 1000000 <=? now)).

(** A link on which every scan raises. *)
Definition raising_env : Env :=
  mk_env false (fun _ => false) (fun _ _ => mk_reply true 1500 false).



End SecondaryBootVocabulary.

(** ** Frames across reads *)

Section ChunkVocabulary.
Import Ble.

(** The transport can be read: a service with [readinto] has a buffer
    to read into. *)
Definition readable (c : BLEConnection) : Prop :=
  uart_has_readinto c = true -> (0 < length (_rx_buffer c))%nat.

(** The frames still to come on a connection are [texts]: those queued,
    then those the bytes that wait complete, without overflow; at the
    end the accumulator holds [len'] bytes. *)
Definition to_come (c : BLEConnection) (len' : nat) (texts : list pystr)
    : Prop :=
  exists buf' rest,
    acc_run (_msg_buffer c) (_msg_len c) (uart_fifo c)
      = Some (buf', len', rest, 0%nat) /\
    texts = _pending_messages c ++ rest.

(** A frame of 300 bytes, longer than the read buffer of 256, and a
    heartbeat behind it. *)
Definition long_frame : list Z := replicate 300 65.

Definition long_packet : list (list Z) := [long_frame; example_heartbeat].

End ChunkVocabulary.


(** * Verification *)

(** Closed decidable side conditions. *)
Ltac by_computation := refine (bool_decide_unpack _ _); vm_compute; exact I.

(** ** Sorting facts used by the report *)

Global Instance Z_le_total : Total Z.le.
Proof. intros x y. lia. Qed.

Lemma sorted_Sorted (l : list Z) : Sorted Z.le (sorted l).
Proof. apply Sorted_merge_sort; apply _. Qed.

Lemma sorted_Permutation (l : list Z) : sorted l ≡ₚ l.
Proof. apply merge_sort_Permutation. Qed.

Lemma sorted_length (l : list Z) : length (sorted l) = length l.
Proof. apply Permutation_length, sorted_Permutation. Qed.

(** Any ascending rearrangement of [l] is [sorted l]. *)
Lemma sorted_unique (l l' : list Z) :
  Sorted Z.le l' -> l' ≡ₚ l -> l' = sorted l.
Proof.
  intros Hs Hp.
  apply (Sorted_unique Z.le); [exact Hs | apply sorted_Sorted |].
  rewrite Hp. symmetry. apply sorted_Permutation.
Qed.

Lemma Sorted_lookup_le (l : list Z) (i j : nat) (x y : Z) :
  Sorted Z.le l -> l !! i = Some x -> l !! j = Some y -> (i <= j)%nat -> x <= y.
Proof.
  intros Hs. apply (Sorted_StronglySorted Z.le) in Hs.
  revert i j. induction Hs as [|a l Hl IH Hall]; intros i j Hi Hj Hij.
  - rewrite lookup_nil in Hi. discriminate.
  - destruct i as [|i], j as [|j]; simpl in *.
    + inversion Hi; inversion Hj; subst. lia.
    + inversion Hi; subst. rewrite Forall_forall in Hall.
      apply Hall. eapply list_elem_of_lookup_2. exact Hj.
    + lia.
    + eapply IH; eauto. lia.
Qed.

(** ** SyncStats: the three buffers move together *)

Section SyncStatsFacts.
Import SyncStats.


Lemma retained_length maxs calls :
  length (retained maxs calls) = Nat.min (length calls) (Z.to_nat maxs).
Proof. unfold retained. rewrite length_drop. lia. Qed.

Lemma retained_snoc_keep maxs calls c :
  (length calls < Z.to_nat maxs)%nat ->
  retained maxs (calls ++ [c]) = retained maxs calls ++ [c].
Proof.
  intros H. unfold retained. rewrite length_app. simpl.
  replace (length calls + 1 - Z.to_nat maxs)%nat with 0%nat by lia.
  replace (length calls - Z.to_nat maxs)%nat with 0%nat by lia.
  reflexivity.
Qed.

Lemma retained_snoc_evict maxs calls c :
  (Z.to_nat maxs <= length calls)%nat ->
  retained maxs (calls ++ [c]) = drop 1 (retained maxs calls ++ [c]).
Proof.
  intros H. unfold retained. rewrite length_app. simpl.
  replace (length calls + 1 - Z.to_nat maxs)%nat
    with ((length calls - Z.to_nat maxs) + 1)%nat by lia.
  rewrite <- drop_drop.
  f_equal. rewrite drop_app_le by lia. reflexivity.
Qed.

Lemma add_sample_aligned maxs pre c s :
  0 <= maxs -> max_samples s = maxs -> aligned (retained maxs pre) s ->
  exists s',
    add_sample (c_now c) (c_network c) (c_execution c) (c_total c) s
      = Returned tt s' /\
    max_samples s' = maxs /\
    sample_count s' = sample_count s + 1 /\
    aligned (retained maxs (pre ++ [c])) s'.
Proof.
  intros Hm Hmax (Hn & He & Ht).
  pose proof (retained_length maxs pre) as Hlen.
  destruct s as [m net exe tot cnt lst]; simpl in *. subst m net exe tot.
  unfold add_sample, bind, modify, get, set_network, set_execution,
    set_total, set_bookkeeping; simpl.
  rewrite length_app, length_fmap, Hlen. simpl.
  destruct (Z.gtb_spec (Z.of_nat (Nat.min (length pre) (Z.to_nat maxs) + 1)) maxs)
    as [Hgt|Hle].
  - assert (Z.to_nat maxs <= length pre)%nat as Hfull by lia.
    rewrite (retained_snoc_evict _ _ _ Hfull).
    unfold pop0, bind, get, modify, raise; simpl.
    destruct (retained maxs pre) as [|k kept]; simpl;
      (eexists; split; [reflexivity|]; unfold aligned; cbn;
       rewrite ?drop_0, ?fmap_app; repeat split; try reflexivity; lia).
  - assert (length pre < Z.to_nat maxs)%nat as Hroom by lia.
    rewrite (retained_snoc_keep _ _ _ Hroom).
    unfold ret. eexists; split; [reflexivity|]; unfold aligned; cbn;
      rewrite ?fmap_app; repeat split; try reflexivity; lia.
Qed.

Lemma add_samples_aligned maxs calls : forall pre s,
  0 <= maxs -> max_samples s = maxs -> aligned (retained maxs pre) s ->
  exists s',
    add_samples calls s = Returned tt s' /\
    max_samples s' = maxs /\
    sample_count s' = sample_count s + Z.of_nat (length calls) /\
    aligned (retained maxs (pre ++ calls)) s'.
Proof.
  induction calls as [|c calls IH]; intros pre s Hm Hmax Hal.
  - exists s. rewrite app_nil_r. simpl.
    split; [reflexivity|]. split; [assumption|]. split; [lia|assumption].
  - destruct (add_sample_aligned maxs pre c s Hm Hmax Hal)
      as (s1 & Hrun & Hmax1 & Hcnt1 & Hal1).
    destruct (IH (pre ++ [c]) s1 Hm Hmax1 Hal1)
      as (s2 & Hrun2 & Hmax2 & Hcnt2 & Hal2).
    exists s2. simpl. unfold bind. rewrite Hrun.
    split; [assumption|]. split; [assumption|]. split.
    + rewrite Hcnt2, Hcnt1. lia.
    + rewrite <- app_assoc in Hal2. exact Hal2.
Qed.

End SyncStatsFacts.


(** C6.  After any sequence of [add_sample] calls on a fresh collector
    (with a capacity that is not negative) no call raises, and the three
    buffers hold, position by position, the network, execution and total
    values of the same retained calls: the last [max_samples] calls, in
    call order.  Hence they have one length, that length is at most
    [max_samples], and an eviction removes the oldest call from all
    three. *)
Theorem add_sample_buffers_move_together (maxs : Z) (calls : list SyncStats.call) :
  0 <= maxs ->
  exists s,
    SyncStats.add_samples calls (SyncStats.init maxs) = Returned tt s /\
    SyncStats.network_latency_samples s
      = SyncStats.c_network <$> retained maxs calls /\
    SyncStats.execution_time_samples s
      = SyncStats.c_execution <$> retained maxs calls /\
    SyncStats.total_latency_samples s
      = SyncStats.c_total <$> retained maxs calls /\
    length (SyncStats.network_latency_samples s)
      = length (SyncStats.execution_time_samples s) /\
    length (SyncStats.execution_time_samples s)
      = length (SyncStats.total_latency_samples s) /\
    Z.of_nat (length (SyncStats.network_latency_samples s)) <= maxs /\
    SyncStats.sample_count s = Z.of_nat (length calls).
Proof.
  intros Hm.
  destruct (add_samples_aligned maxs calls [] (SyncStats.init maxs) Hm eq_refl)
    as (s & Hrun & _ & Hcnt & Hn & He & Ht).
  { repeat split. }
  exists s. simpl in Hn, He, Ht, Hcnt.
  split; [exact Hrun|]. rewrite Hn, He, Ht, !length_fmap, retained_length.
  repeat split; lia.
Qed.

Lemma add_sample_buffers_move_together_witness :
  exists s,
    SyncStats.add_samples example_calls (SyncStats.init 2) = Returned tt s /\
    SyncStats.network_latency_samples s
      = SyncStats.c_network <$> retained 2 example_calls /\
    SyncStats.execution_time_samples s
      = SyncStats.c_execution <$> retained 2 example_calls /\
    SyncStats.total_latency_samples s
      = SyncStats.c_total <$> retained 2 example_calls /\
    length (SyncStats.network_latency_samples s)
      = length (SyncStats.execution_time_samples s) /\
    length (SyncStats.execution_time_samples s)
      = length (SyncStats.total_latency_samples s) /\
    Z.of_nat (length (SyncStats.network_latency_samples s)) <= 2 /\
    SyncStats.sample_count s = Z.of_nat (length example_calls).
Proof. apply (add_sample_buffers_move_together 2 example_calls). lia. Defined.

Example add_samples_evicts_oldest :
  SyncStats.add_samples example_calls (SyncStats.init 2)
  = Returned tt (SyncStats.mk 2 [650; 900] [110; 130] [770; 1040] 3 (Some 30)).
Proof. reflexivity. Qed.

(** ** SyncStats: percentiles of the report *)


Lemma py_index_nonneg {A} (l : list A) (i : Z) (x : A) :
  0 <= i -> py_index l i = Some x -> l !! Z.to_nat i = Some x.
Proof.
  intros Hi. unfold py_index.
  destruct (0 <=? i) eqn:E1; [|lia].
  destruct (i <? Z.of_nat (length l)) eqn:E2; simpl; [tauto|].
  destruct (- Z.of_nat (length l) <=? i); simpl; [|discriminate].
  destruct (i <? 0) eqn:E3; [lia|discriminate].
Qed.

Lemma py_index_last {A} (l : list A) (x : A) :
  py_index l (-1) = Some x -> l !! (length l - 1)%nat = Some x.
Proof.
  unfold py_index. simpl.
  destruct (- Z.of_nat (length l) <=? -1) eqn:E; simpl; [|discriminate].
  replace (Z.to_nat (-1 + Z.of_nat (length l))) with (length l - 1)%nat by lia.
  tauto.
Qed.

Lemma sorted_last_is_maximum (l : list Z) (x : Z) :
  sorted l !! (length l - 1)%nat = Some x -> is_maximum x l.
Proof.
  intros Hx. split.
  - rewrite <- (sorted_Permutation l). eapply list_elem_of_lookup_2, Hx.
  - intros y Hy. rewrite <- (sorted_Permutation l) in Hy.
    apply list_elem_of_lookup_1 in Hy as [j Hj].
    eapply Sorted_lookup_le; [apply sorted_Sorted | exact Hj | exact Hx |].
    apply lookup_lt_Some in Hj. rewrite sorted_length in Hj. lia.
Qed.

Lemma metric_of_percentiles (samples : list Z) (m : SyncStats.metric) :
  SyncStats.metric_of samples = inr m -> percentiles_ok samples m.
Proof.
  unfold SyncStats.metric_of, percentiles_ok. rewrite sorted_length.
  set (n := Z.of_nat (length samples)).
  destruct (Z.eqb_spec n 0) as [|Hn0]; [discriminate|].
  destruct (py_index (sorted samples) (n / 2)) as [med|]; [|discriminate].
  destruct (py_index (sorted samples) 0) as [mn|]; [|discriminate].
  destruct (py_index (sorted samples) (-1)) as [mx|] eqn:Hmx; [|discriminate].
  apply py_index_last in Hmx. rewrite sorted_length in Hmx.
  assert (0 <= n) as Hn by (subst n; lia).
  destruct (if n >? 20 then _ else _) as [q95|] eqn:H95; [|discriminate].
  destruct (if n >? 100 then _ else _) as [q99|] eqn:H99; [|discriminate].
  intros [= <-]. simpl.
  split; [lia|]. split.
  - destruct (Z.gtb_spec n 20) as [Hgt|Hle].
    + destruct (Z.leb_spec 20 n); [|lia].
      apply py_index_nonneg in H95; [exact H95|].
      apply Z.div_pos; lia.
    + injection H95 as <-.
      destruct (Z.leb_spec 20 n) as [Hge|Hlt].
      * assert (n = 20) as E by lia. rewrite E. simpl.
        replace (length samples - 1)%nat with 19%nat in Hmx by lia. exact Hmx.
      * apply sorted_last_is_maximum, Hmx.
  - destruct (Z.gtb_spec n 100) as [Hgt|Hle].
    + destruct (Z.leb_spec 100 n); [|lia].
      apply py_index_nonneg in H99; [exact H99|].
      apply Z.div_pos; lia.
    + injection H99 as <-.
      destruct (Z.leb_spec 100 n) as [Hge|Hlt].
      * assert (n = 100) as E by lia. rewrite E. simpl.
        replace (length samples - 1)%nat with 99%nat in Hmx by lia. exact Hmx.
      * apply sorted_last_is_maximum, Hmx.
Qed.


(** C7.  In the report, for each of the three metrics with [n >= 1]
    samples: [p95] is the sorted sample at index [floor(0.95 n)] when
    [n >= 20] and the maximum sample otherwise; [p99] is the sorted sample
    at index [floor(0.99 n)] when [n >= 100] and the maximum otherwise.
    (The source tests [n > 20] and [n > 100]; at [n = 20] and [n = 100]
    the index [floor(0.95 n)], respectively [floor(0.99 n)], is the last
    one, so both readings give the same value.) *)
Theorem get_statistics_percentiles (s : SyncStats.t) (r : SyncStats.statistics) :
  SyncStats.get_statistics s = inr (Some r) ->
  percentiles_ok (SyncStats.network_latency_samples s) (SyncStats.network_latency r) /\
  percentiles_ok (SyncStats.execution_time_samples s) (SyncStats.execution_time r) /\
  percentiles_ok (SyncStats.total_latency_samples s) (SyncStats.total_latency r).
Proof.
  unfold SyncStats.get_statistics.
  destruct (SyncStats.network_latency_samples s) as [|x net] eqn:En; [discriminate|].
  destruct (SyncStats.metric_of (x :: net)) as [|mn] eqn:Hn; [discriminate|].
  destruct (SyncStats.metric_of (SyncStats.execution_time_samples s))
    as [|me] eqn:He; [discriminate|].
  destruct (SyncStats.metric_of (SyncStats.total_latency_samples s))
    as [|mt] eqn:Ht; [discriminate|].
  intros [= <-]. simpl.
  auto using metric_of_percentiles.
Qed.

Lemma get_statistics_percentiles_witness :
  percentiles_ok [700; 650; 900]
    (SyncStats.mk_metric (2250, 3) 700 650 900 900 900 3) /\
  percentiles_ok [120; 110; 130]
    (SyncStats.mk_metric (360, 3) 120 110 130 130 130 3) /\
  percentiles_ok [830; 770; 1040]
    (SyncStats.mk_metric (2640, 3) 830 770 1040 1040 1040 3).
Proof.
  apply (get_statistics_percentiles example_stats_state example_report).
  vm_compute. reflexivity.
Defined.

(** The boundary lengths: twenty samples, and one more. *)
Example p95_at_twenty :
  SyncStats.p95 <$> (match SyncStats.metric_of (seqZ 1 20) with
                     | inr m => Some m | inl _ => None end) = Some 20.
Proof. vm_compute. reflexivity. Qed.

Example p95_at_twenty_one :
  SyncStats.p95 <$> (match SyncStats.metric_of (seqZ 1 21) with
                     | inr m => Some m | inl _ => None end) = Some 20.
Proof. vm_compute. reflexivity. Qed.

(** ** UTF-8 decoding *)

Lemma utf8_decode_nonempty (b : Z) (bs : list Z) (t : list Z) :
  utf8_decode (b :: bs) = Some t -> t <> [].
Proof.
  simpl. intros H.
  repeat match type of H with
  | (if ?c then _ else _) = _ => destruct c
  | match ?l with [] => _ | _ :: _ => _ end = _ => destruct l
  | (cons _ <$> ?o) = _ => destruct o; simpl in H
  | let cp := _ in _ => cbv zeta in H
  end; try discriminate; injection H as <-; discriminate.
Qed.

Lemma utf8_decode_length_aux (n : nat) : forall (bs t : list Z),
  (length bs <= n)%nat -> utf8_decode bs = Some t -> (length t <= length bs)%nat.
Proof.
  induction n as [|n IH]; intros bs t Hn H.
  - destruct bs; simpl in *; [injection H as <-; simpl; lia | lia].
  - destruct bs as [|b0 r0]; [injection H as <-; simpl; lia|].
    simpl in H, Hn.
    repeat match type of H with
    | (if ?c then _ else _) = _ => destruct c
    | match ?l with [] => _ | _ :: _ => _ end = _ => destruct l; simpl in Hn
    | (cons _ <$> ?o) = _ => destruct o eqn:?; simpl in H
    | let cp := _ in _ => cbv zeta in H
    end; try discriminate; injection H as <-; simpl;
    match goal with
    | E : utf8_decode ?r = Some ?l |- _ =>
        apply IH in E; [simpl in *; lia | simpl in *; lia]
    end.
Qed.

Lemma utf8_decode_length (bs t : list Z) :
  utf8_decode bs = Some t -> (length t <= length bs)%nat.
Proof. apply (utf8_decode_length_aux (length bs)). lia. Qed.

(** ** The framer as a function of the byte stream *)

Section Framer.
Import Ble.
Variable conn_id : pystr.



Lemma upd_same (s : rx) : upd conn_id (_msg_buffer (conn s)) [] 0 s = s.
Proof.
  destruct s as [[] ? ?]. unfold upd. simpl. rewrite !app_nil_r. reflexivity.
Qed.

Lemma upd_upd buf1 new1 ov1 buf2 new2 ov2 s :
  upd conn_id buf2 new2 ov2 (upd conn_id buf1 new1 ov1 s) = upd conn_id buf2 (new1 ++ new2) (ov1 + ov2) s.
Proof.
  unfold upd. simpl. rewrite replicate_add, !app_assoc. reflexivity.
Qed.

Lemma accumulate_step buf' len len' new ov byte s :
  acc_step (_msg_buffer (conn s)) len byte = Some (buf', len', new, ov) ->
  accumulate conn_id len byte s = Returned len' (upd conn_id buf' new ov s).
Proof.
  unfold acc_step, accumulate, bind, get, modify, raise, ret.
  destruct (byte =? EOT).
  - destruct (0 <? len)%nat.
    + destruct (utf8_decode _); [|discriminate].
      intros [= <- <- <- <-]. f_equal.
      destruct s as [[] ? ?]. unfold upd. simpl. rewrite app_nil_r. reflexivity.
    + intros [= <- <- <- <-]. rewrite upd_same. reflexivity.
  - destruct (len <? length _)%nat.
    + intros [= <- <- <- <-]. f_equal.
      destruct s as [[] ? ?]. unfold upd. simpl. rewrite !app_nil_r. reflexivity.
    + intros [= <- <- <- <-]. f_equal.
      destruct s as [[] ? ?]. unfold upd, print. simpl. rewrite !app_nil_r. reflexivity.
Qed.

Lemma feed_run data : forall buf' len len' new ov s,
  acc_run (_msg_buffer (conn s)) len data = Some (buf', len', new, ov) ->
  feed conn_id data len s = Returned len' (upd conn_id buf' new ov s).
Proof.
  induction data as [|byte data IH]; intros buf' len len' new ov s; simpl.
  - intros [= <- <- <- <-]. rewrite upd_same. reflexivity.
  - destruct (acc_step _ len byte) as [[[[buf1 len1] new1] ov1]|] eqn:Hs; [|discriminate].
    destruct (acc_run buf1 len1 data) as [[[[buf2 len2] new2] ov2]|] eqn:Hr; [|discriminate].
    intros [= <- <- <- <-].
    unfold bind. rewrite (accumulate_step _ _ _ _ _ _ _ Hs).
    rewrite (IH buf2 len1 len2 new2 ov2); [apply f_equal, upd_upd|exact Hr].
Qed.

Lemma acc_run_app d1 : forall d2 buf len,
  acc_run buf len (d1 ++ d2) =
  match acc_run buf len d1 with
  | None => None
  | Some (buf1, len1, new1, ov1) =>
      match acc_run buf1 len1 d2 with
      | None => None
      | Some (buf2, len2, new2, ov2) =>
          Some (buf2, len2, new1 ++ new2, (ov1 + ov2)%nat)
      end
  end.
Proof.
  induction d1 as [|b d1 IH]; intros d2 buf len; simpl.
  - destruct (acc_run buf len d2) as [[[[? ?] ?] ?]|]; reflexivity.
  - destruct (acc_step buf len b) as [[[[buf1 len1] new1] ov1]|]; [|reflexivity].
    rewrite IH.
    destruct (acc_run buf1 len1 d1) as [[[[buf2 len2] new2] ov2]|]; [|reflexivity].
    destruct (acc_run buf2 len2 d2) as [[[[buf3 len3] new3] ov3]|]; [|reflexivity].
    rewrite app_assoc, Nat.add_assoc. reflexivity.
Qed.

(** Payload bytes that fit are stored one after the other. *)
Lemma acc_run_payload m : forall buf len,
  EOT ∉ m -> (len + length m <= length buf)%nat ->
  exists buf',
    acc_run buf len m = Some (buf', (len + length m)%nat, [], 0%nat) /\
    length buf' = length buf /\
    take (len + length m) buf' = take len buf ++ m.
Proof.
  induction m as [|b m IH]; intros buf len Hno Hfit; simpl in *.
  - exists buf. rewrite Nat.add_0_r, app_nil_r. auto.
  - apply not_elem_of_cons in Hno as [Hb Hm].
    unfold acc_step.
    destruct (Z.eqb_spec b EOT) as [->|_]; [congruence|].
    destruct (Nat.ltb_spec len (length buf)) as [Hlt|]; [|lia].
    destruct (IH (<[len := b]> buf) (S len) Hm) as (buf' & Hrun & Hlen & Htake).
    { rewrite length_insert. lia. }
    exists buf'. rewrite Hrun. rewrite length_insert in Hlen.
    replace (len + S (length m))%nat with (S len + length m)%nat by lia.
    split; [reflexivity|]. split; [exact Hlen|].
    rewrite Htake. rewrite (take_S_r _ _ b).
    + rewrite take_insert_ge by lia. rewrite <- app_assoc. reflexivity.
    + apply list_lookup_insert_eq. exact Hlt.
Qed.


Lemma acc_run_frame m t buf :
  well_formed (length buf) m t ->
  exists buf',
    acc_run buf 0 (m ++ [EOT]) = Some (buf', 0%nat, [t], 0%nat) /\
    length buf' = length buf.
Proof.
  intros (Hno & Hne & Hfit & Hdec).
  destruct (acc_run_payload m buf 0%nat Hno) as (buf' & Hrun & Hlen & Htake);
    [simpl; lia|].
  exists buf'. rewrite acc_run_app, Hrun. simpl in *. unfold acc_step.
  rewrite Z.eqb_refl.
  destruct (Nat.ltb_spec 0 (length m)) as [_|Hz].
  - rewrite Htake, Hdec. auto.
  - destruct m; [congruence | simpl in Hz; lia].
Qed.

Lemma acc_run_wire msgs : forall texts buf,
  Forall2 (well_formed (length buf)) msgs texts ->
  exists buf',
    acc_run buf 0 (wire msgs) = Some (buf', 0%nat, texts, 0%nat) /\
    length buf' = length buf.
Proof.
  induction msgs as [|m msgs IH]; intros texts buf Hwf.
  - inversion Hwf; subst. exists buf. auto.
  - inversion Hwf as [|? t ? texts' Hm Hrest]; subst.
    destruct (acc_run_frame m t buf Hm) as (buf1 & Hrun1 & Hlen1).
    rewrite <- Hlen1 in Hrest.
    destruct (IH texts' buf1 Hrest) as (buf2 & Hrun2 & Hlen2).
    exists buf2. change (wire (m :: msgs)) with ((m ++ [EOT]) ++ wire msgs).
    rewrite acc_run_app, Hrun1, Hrun2. split; [reflexivity|congruence].
Qed.

(** The byte loop over [rx_buf] is the framer run on the bytes read. *)
Lemma accumulate_rx_buffer len byte s :
  match accumulate conn_id len byte s with
  | Returned _ s' | Raised _ s' =>
      _rx_buffer (conn s') = _rx_buffer (conn s)
  end.
Proof.
  unfold accumulate, bind, get, modify, raise, ret.
  repeat (match goal with |- context [if ?c then _ else _] => destruct c end
          || match goal with |- context [utf8_decode ?x] => destruct (utf8_decode x) end);
    reflexivity.
Qed.

Lemma process_bytes_feed data : forall k len s,
  (forall i, (i < length data)%nat ->
             _rx_buffer (conn s) !! (k + i)%nat = data !! i) ->
  process_bytes conn_id (seq k (length data)) len s = feed conn_id data len s.
Proof.
  induction data as [|b data IH]; intros k len s Hrx; simpl; [reflexivity|].
  unfold process_byte. unfold bind, get.
  specialize (Hrx 0%nat) as H0. rewrite Nat.add_0_r in H0.
  rewrite H0 by (simpl; lia). simpl.
  pose proof (accumulate_rx_buffer len b s) as Hsame.
  destruct (accumulate conn_id len b s) as [len' s'|e s']; [|reflexivity].
  apply IH. intros i Hi. rewrite Hsame.
  replace (S k + i)%nat with (k + S i)%nat by lia.
  apply Hrx. simpl. lia.
Qed.


Lemma read_uart_single s :
  single_read (conn s) ->
  read_uart s =
    (length (uart_fifo (conn s)),
     mk_rx (set_rx_buffer
              (uart_fifo (conn s)
                 ++ drop (length (uart_fifo (conn s))) (_rx_buffer (conn s)))
              (set_uart_fifo [] (conn s)))
           (clock s) (console s)).
Proof.
  intros Hs. unfold read_uart.
  assert ((if uart_has_readinto (conn s)
           then take (length (_rx_buffer (conn s))) (uart_fifo (conn s))
           else uart_fifo (conn s)) = uart_fifo (conn s)) as ->.
  { destruct (uart_has_readinto (conn s)) eqn:E; [|reflexivity].
    destruct Hs as [Hs|Hs]; [congruence|]. apply take_ge. exact Hs. }
  rewrite drop_all. reflexivity.
Qed.


Lemma receive_connected_first_read fuel timeout s buf len t rest ov :
  _pending_messages (conn s) = [] ->
  single_read (conn s) ->
  timed_out timeout 0 = false ->
  acc_run (_msg_buffer (conn s)) (_msg_len (conn s)) (uart_fifo (conn s))
    = Some (buf, len, t :: rest, ov) ->
  receive_connected (S fuel) conn_id timeout s
    = Some (Some t, after_read conn_id buf len rest ov s).
Proof.
  intros Hq Hsingle Hto Hrun.
  unfold receive_connected. rewrite Hq.
  cbn [receive_loop]. rewrite Z.sub_diag, Hto.
  rewrite (read_uart_single s Hsingle).
  destruct (uart_fifo (conn s)) as [|b data] eqn:Hfifo.
  { simpl in Hrun. injection Hrun as _ _ Hnew _. discriminate. }
  change (0 <? length (b :: data))%nat with true. cbv iota.
  rewrite process_bytes_feed.
  2:{ intros i Hi. cbn [conn _rx_buffer set_rx_buffer].
      rewrite lookup_app_l by exact Hi. reflexivity. }
  erewrite feed_run by (cbn; exact Hrun).

  destruct s as [[] ? ?]. simpl in *. subst. reflexivity.
Qed.

Lemma receive_connected_queued fuel timeout s t rest :
  _pending_messages (conn s) = t :: rest ->
  receive_connected fuel conn_id timeout s
    = Some (Some t, update_last_seen (on_conn (set_pending_messages rest) s)).
Proof. intros Hq. unfold receive_connected. rewrite Hq. reflexivity. Qed.

End Framer.

(** ** Successive calls of [receive] *)

Section ReceiveCalls.
Import Ble.


Lemma receive_through_table b conn_id c fuel timeout r s' :
  _connections b !! conn_id = Some c -> connected c = true ->
  receive_connected fuel conn_id timeout (mk_rx c (now b) (output b))
    = Some (r, s') ->
  receive fuel conn_id timeout b
    = Some (r, mk_ble (<[conn_id := conn s']> (_connections b))
                 (clock s') (console s')).
Proof.
  intros Hc Hconn Hrun. unfold receive. rewrite Hc, Hconn. simpl.
  rewrite Hrun. reflexivity.
Qed.

(** Frames that are already queued come out one per call, oldest first,
    and nothing else about the connection moves. *)
Lemma receive_calls_queued fuel conn_id timeout ts : forall b c rest,
  _connections b !! conn_id = Some c -> connected c = true ->
  _pending_messages c = ts ++ rest ->
  exists b' c',
    receive_calls (length ts) fuel conn_id timeout b = Some (Some <$> ts, b') /\
    _connections b' !! conn_id = Some c' /\
    connected c' = true /\
    _pending_messages c' = rest /\
    _msg_len c' = _msg_len c /\
    _msg_buffer c' = _msg_buffer c /\
    uart_fifo c' = uart_fifo c.
Proof.
  induction ts as [|t ts IH]; intros b c rest Hc Hconn Hq.
  - exists b, c. simpl. auto 10.
  - simpl in Hq |- *.
    rewrite (receive_through_table b conn_id c fuel timeout (Some t) _ Hc Hconn
               (receive_connected_queued conn_id fuel timeout
                  (mk_rx c (now b) (output b)) t (ts ++ rest) Hq)).
    match goal with
    | |- context [receive_calls _ _ _ _ ?b1] =>
        destruct (IH b1 (set_last_seen (now b) (set_pending_messages (ts ++ rest) c)) rest)
          as (b' & c' & Hrun & Hc' & Hconn' & Hq' & Hlen' & Hbuf' & Hfifo')
    end.
    + simpl. apply lookup_insert_eq.
    + exact Hconn.
    + reflexivity.
    + exists b', c'. simpl in *. rewrite Hrun. auto 10.
Qed.

(** One read that completes at least one frame: the frames it completes
    come out one per call. *)
Lemma receive_calls_single_read fuel conn_id timeout b c buf len t frames ov :
  _connections b !! conn_id = Some c ->
  connected c = true ->
  _pending_messages c = [] ->
  single_read c ->
  (forall t0, timeout = Some t0 -> 0 <= t0) ->
  (0 < fuel)%nat ->
  acc_run (_msg_buffer c) (_msg_len c) (uart_fifo c)
    = Some (buf, len, t :: frames, ov) ->
  exists b' c',
    receive_calls (S (length frames)) fuel conn_id timeout b
      = Some (Some <$> (t :: frames), b') /\
    _connections b' !! conn_id = Some c' /\
    _pending_messages c' = [] /\
    _msg_len c' = len /\
    uart_fifo c' = [].
Proof.
  intros Hc Hconn Hq Hsingle Hto Hfuel Hrun.
  destruct fuel as [|fuel]; [lia|].
  assert (timed_out timeout 0 = false) as Hto'.
  { destruct timeout as [t0|]; [|reflexivity]. simpl.
    specialize (Hto t0 eq_refl).
    destruct (Z.gtb_spec 0 t0); [lia|]. apply andb_false_r. }
  pose proof (receive_connected_first_read conn_id fuel timeout
                (mk_rx c (now b) (output b)) buf len t frames ov) as Hfirst.
  simpl in Hfirst. specialize (Hfirst Hq Hsingle Hto' Hrun).
  cbn [receive_calls].
  rewrite (receive_through_table b conn_id c (S fuel) timeout (Some t) _ Hc Hconn Hfirst).
  match goal with
  | |- context [receive_calls _ _ _ _ ?b1] =>
      destruct (receive_calls_queued (S fuel) conn_id timeout frames b1
                  (conn (after_read conn_id buf len frames ov
                           (mk_rx c (now b) (output b)))) [])
        as (b' & c' & Hcalls & Hc' & _ & Hq' & Hlen' & _ & Hfifo')
  end.
  - simpl. apply lookup_insert_eq.
  - simpl. exact Hconn.
  - simpl. rewrite app_nil_r. reflexivity.
  - rewrite Hcalls. exists b', c'. simpl in *. auto.
Qed.

(** C1.  When one transport read delivers N concatenated well-formed,
    non-empty, EOT-terminated messages (to a connection whose accumulator
    and queue are empty), N successive calls of [receive] return exactly
    the N payloads, decoded and without the EOT, one per call and in the
    order they were sent; after that the queue and the accumulator are
    empty again. *)
Theorem receive_concatenated_messages
    (b : BLE) (conn_id : pystr) (c : BLEConnection) (timeout : option Z)
    (fuel : nat) (msgs : list (list Z)) (texts : list pystr) :
  _connections b !! conn_id = Some c ->
  connected c = true ->
  _pending_messages c = [] ->
  _msg_len c = 0%nat ->
  uart_fifo c = wire msgs ->
  single_read c ->
  Forall2 (well_formed (length (_msg_buffer c))) msgs texts ->
  (forall t, timeout = Some t -> 0 <= t) ->
  (0 < fuel)%nat ->
  exists b' c',
    receive_calls (length msgs) fuel conn_id timeout b
      = Some (Some <$> texts, b') /\
    _connections b' !! conn_id = Some c' /\
    _pending_messages c' = [] /\
    _msg_len c' = 0%nat /\
    uart_fifo c' = [].
Proof.
  intros Hc Hconn Hq Hlen Hfifo Hsingle Hwf Hto Hfuel.
  destruct (acc_run_wire msgs texts (_msg_buffer c) Hwf) as (buf' & Hrun & _).
  rewrite (Forall2_length _ _ _ Hwf).
  destruct texts as [|t texts].
  { exists b, c. simpl. apply Forall2_nil_inv_r in Hwf. subst msgs. auto. }
  change (length (t :: texts)) with (S (length texts)).
  eapply receive_calls_single_read; try eassumption.
  rewrite Hlen, Hfifo. exact Hrun.
Qed.

End ReceiveCalls.

(** ** What every call of [receive] preserves *)

Section ReceiveInvariant.
Import Ble.


Lemma new_connection_ok name now : conn_ok 512 (new_connection name now).
Proof.
  unfold conn_ok, new_connection.
  cbn [_msg_buffer _msg_len _pending_messages]. rewrite length_replicate.
  repeat split; [lia | constructor].
Qed.

Lemma decode_accumulated_ok cap buf len m :
  length buf = cap -> (0 < len <= cap)%nat ->
  utf8_decode (take len buf) = Some m -> msg_ok cap m.
Proof.
  intros Hbuf Hlen Hdec. split.
  - destruct buf as [|b buf]; [simpl in Hbuf; lia|].
    destruct len as [|len]; [lia|].
    simpl in Hdec. eapply utf8_decode_nonempty, Hdec.
  - apply utf8_decode_length in Hdec. rewrite length_take in Hdec. lia.
Qed.

Lemma accumulate_ok cap conn_id len byte s :
  conn_ok cap (conn s) -> (len <= cap)%nat ->
  match accumulate conn_id len byte s with
  | Returned len' s' => (len' <= cap)%nat /\ conn_ok cap (conn s')
  | Raised _ s' => conn_ok cap (conn s')
  end.
Proof.
  intros (Hbuf & Hml & Hq) Hlen.
  unfold accumulate, bind, get, modify, raise, ret.
  destruct (byte =? EOT).
  - destruct (Nat.ltb_spec 0 len) as [Hpos|_].
    + destruct (utf8_decode _) as [m|] eqn:Hdec; [|repeat split; assumption].
      split; [lia|]. unfold conn_ok; simpl. repeat split; try assumption.
      apply Forall_app; split; [assumption|].
      constructor; [|constructor].
      eapply decode_accumulated_ok; [exact Hbuf | | exact Hdec]. lia.
    + split; [lia|]. repeat split; assumption.
  - destruct (Nat.ltb_spec len (length (_msg_buffer (conn s)))) as [Hlt|_].
    + split; [lia|]. unfold conn_ok; simpl. rewrite length_insert.
      repeat split; assumption.
    + split; [lia|]. repeat split; assumption.
Qed.

Lemma process_bytes_ok cap conn_id range : forall len s,
  conn_ok cap (conn s) -> (len <= cap)%nat ->
  match process_bytes conn_id range len s with
  | Returned len' s' => (len' <= cap)%nat /\ conn_ok cap (conn s')
  | Raised _ s' => conn_ok cap (conn s')
  end.
Proof.
  induction range as [|i range IH]; intros len s Hok Hlen; simpl.
  - auto.
  - unfold bind at 1. unfold process_byte. unfold bind at 1. unfold get.
    destruct (_rx_buffer (conn s) !! i) as [byte|]; [|exact Hok].
    pose proof (accumulate_ok cap conn_id len byte s Hok Hlen) as Hstep.
    destruct (accumulate conn_id len byte s) as [len' s'|e s']; [|exact Hstep].
    destruct Hstep. apply IH; assumption.
Qed.

Lemma receive_loop_ok cap conn_id timeout start fuel : forall len s o,
  conn_ok cap (conn s) -> (len <= cap)%nat ->
  receive_loop fuel conn_id timeout start len s = Some o ->
  match o with
  | Returned r s' => conn_ok cap (conn s') /\ (forall m, r = Some m -> msg_ok cap m)
  | Raised _ s' => conn_ok cap (conn s')
  end.
Proof.
  induction fuel as [|fuel IH]; intros len s o Hok Hlen; [discriminate|].
  cbn [receive_loop].
  destruct (timed_out _ _).
  { intros [= <-]. split; [exact Hok | discriminate]. }
  destruct (0 <? length (uart_fifo (conn s)))%nat.
  2:{ apply IH; assumption. }
  unfold read_uart.
  set (data := if uart_has_readinto (conn s) then _ else _).
  destruct (0 <? length data)%nat.
  2:{ apply IH; assumption. }
  match goal with
  | |- context [process_bytes conn_id ?r len ?s1] =>
      pose proof (process_bytes_ok cap conn_id r len s1 Hok Hlen) as Hrun;
      destruct (process_bytes conn_id r len s1) as [len' s2|e s2]
  end.
  2:{ intros [= <-]. exact Hrun. }
  destruct Hrun as (Hlen' & Hbuf & Hml & Hq).
  destruct (_pending_messages (conn (on_conn (set_msg_len len') s2)))
    as [|m rest] eqn:Hpend.
  - apply IH; [|exact Hlen']. repeat split; assumption.
  - intros [= <-]. simpl in Hpend. rewrite Hpend in Hq.
    apply Forall_cons in Hq as [Hm Hrest].
    split; [repeat split; assumption|]. intros ? [= <-]. exact Hm.
Qed.

Lemma receive_connected_ok cap conn_id timeout fuel s r s' :
  conn_ok cap (conn s) ->
  receive_connected fuel conn_id timeout s = Some (r, s') ->
  conn_ok cap (conn s') /\ (forall m, r = Some m -> msg_ok cap m).
Proof.
  intros Hok. unfold receive_connected.
  destruct (_pending_messages (conn s)) as [|m rest] eqn:Hpend.
  - destruct (receive_loop _ _ _ _ _ _) as [o|] eqn:Hloop; [|discriminate].
    apply (receive_loop_ok cap) in Hloop; [|exact Hok|apply Hok].
    destruct o as [r0 s0|e s0]; intros [= <- <-].
    + exact Hloop.
    + split; [exact Hloop|discriminate].
  - intros [= <- <-]. destruct Hok as (Hbuf & Hml & Hq).
    rewrite Hpend in Hq. apply Forall_cons in Hq as [Hm Hrest].
    split; [repeat split; assumption|]. intros ? [= <-]. exact Hm.
Qed.


Lemma receive_ok cap conn_id timeout fuel b r b' :
  ble_ok cap b ->
  receive fuel conn_id timeout b = Some (r, b') ->
  ble_ok cap b' /\ (forall m, r = Some m -> msg_ok cap m).
Proof.
  intros Hok. unfold receive.
  destruct (_connections b !! conn_id) as [c|] eqn:Hc.
  2:{ intros [= <- <-]. split; [exact Hok|discriminate]. }
  destruct (connected c); simpl.
  2:{ intros [= <- <-]. split; [exact Hok|discriminate]. }
  destruct (receive_connected _ _ _ _) as [[r0 s']|] eqn:Hrun; [|discriminate].
  intros [= <- <-].
  apply (receive_connected_ok cap) in Hrun; [|exact (Hok _ _ Hc)].
  destruct Hrun as [Hc' Hr]. split; [|exact Hr].
  unfold ble_ok. simpl. apply map_Forall_insert_2; assumption.
Qed.

End ReceiveInvariant.

(** ** Properties of [receive] *)

Section ReceiveProperties.
Import Ble.

Ltac eot_free := refine (bool_decide_unpack _ _); vm_compute; exact I.
Ltac ascii_payload :=
  unfold well_formed; split; [eot_free|]; split; [discriminate|];
  split; [vm_compute; lia | vm_compute; reflexivity].

Lemma ascii_well_formed_heartbeat :
  well_formed 512 example_heartbeat example_heartbeat.
Proof.
  ascii_payload.
Qed.

Lemma ascii_well_formed_buzz : well_formed 512 example_buzz example_buzz.
Proof.
  ascii_payload.
Qed.

Lemma receive_concatenated_messages_witness :
  exists b' c',
    receive_calls 2 1 (lit "primary") (Some 10)
      (primary_with (wire [example_heartbeat; example_buzz]))
      = Some (Some <$> [example_heartbeat; example_buzz], b') /\
    _connections b' !! lit "primary" = Some c' /\
    _pending_messages c' = [] /\
    _msg_len c' = 0%nat /\
    uart_fifo c' = [].
Proof.
  apply (receive_concatenated_messages
           (primary_with (wire [example_heartbeat; example_buzz]))
           (lit "primary")
           (set_uart_fifo (wire [example_heartbeat; example_buzz])
              (new_connection (lit "primary") 0))
           (Some 10) 1
           [example_heartbeat; example_buzz]
           [example_heartbeat; example_buzz]).
  - vm_compute. reflexivity.
  - reflexivity.
  - reflexivity.
  - reflexivity.
  - reflexivity.
  - right. vm_compute. lia.
  - repeat (constructor; [ascii_payload|]). constructor.
  - intros t [= <-]. lia.
  - lia.
Defined.

(** The multi-message scenario of the specification, evaluated. *)
Example multi_message_packet :
  fst <$> receive_calls 2 1 (lit "primary") (Some 10)
            (primary_with (wire [example_heartbeat; example_buzz]))
  = Some [Some example_heartbeat; Some example_buzz].
Proof. vm_compute. reflexivity. Qed.

(** C10.  [receive] never returns an empty string.  An EOT that arrives
    while nothing is accumulated leaves the connection as it is (nothing
    is queued, nothing is printed), and from any table whose queues hold
    no empty string and whose accumulators are within their buffers, a
    call returns [None] or a non-empty text and leaves such a table. *)
Theorem receive_never_returns_empty :
  (forall conn_id s, accumulate conn_id 0 EOT s = Returned 0%nat s) /\
  (forall cap fuel conn_id timeout b r b',
     ble_ok cap b ->
     receive fuel conn_id timeout b = Some (r, b') ->
     r <> Some [] /\ ble_ok cap b').
Proof.
  split.
  - intros conn_id s. reflexivity.
  - intros cap fuel conn_id timeout b r b' Hok Hrun.
    destruct (receive_ok cap conn_id timeout fuel b r b' Hok Hrun) as [Hok' Hr].
    split; [|exact Hok'].
    intros ->. destruct (Hr [] eq_refl) as [Hne _]. congruence.
Qed.

Lemma primary_with_ok bytes : ble_ok 512 (primary_with bytes).
Proof.
  unfold ble_ok, primary_with. cbn [_connections].
  apply map_Forall_singleton.
  destruct (new_connection_ok (lit "primary") 0) as (H1 & H2 & H3).
  repeat split; assumption.
Qed.

Lemma receive_never_returns_empty_witness :
  exists r b',
    receive 1 (lit "primary") (Some 10)
      (primary_with ([EOT; EOT] ++ lit "CD" ++ [EOT])) = Some (r, b') /\
    r <> Some [] /\ ble_ok 512 b'.
Proof.
  destruct receive_never_returns_empty as [_ H].
  eexists _, _. split; [vm_compute; reflexivity|].
  apply (H 512%nat 1%nat (lit "primary") (Some 10)
           (primary_with ([EOT; EOT] ++ lit "CD" ++ [EOT]))).
  - apply primary_with_ok.
  - vm_compute. reflexivity.
Defined.

(** Two EOT bytes in a row, then a message: only the message comes out. *)
Example consecutive_eot_are_skipped :
  fst <$> receive_calls 2 1 (lit "primary") (Some 10)
            (primary_with (lit "First" ++ [EOT; EOT; EOT] ++ lit "Second" ++ [EOT]))
  = Some [Some (lit "First"); Some (lit "Second")].
Proof. vm_compute. reflexivity. Qed.







(** The same stream polled with the 10 ms timeout of the main loop: the
    first call times out, then the 87 bytes that follow the reset come
    out as a message, then the next message. *)
Example overflow_then_next_message :
  fst <$> receive_calls 3 10 (lit "primary") (Some 10)
            (primary_with (replicate 600 88 ++ [EOT] ++ lit "next" ++ [EOT]))
  = Some [None; Some (replicate 87 88); Some (lit "next")].
Proof. vm_compute. reflexivity. Qed.

End ReceiveProperties.

(** ** Text *)









(** ** [int(str(n)) = n] *)









(** ** SYNC encode / decode *)



Lemma pystr_eqb_eq a b : pystr_eqb a b = true <-> a = b.
Proof. unfold pystr_eqb. apply bool_decide_eq_true. Qed.

Lemma pystr_eqb_neq a b : pystr_eqb a b = false <-> a <> b.
Proof. unfold pystr_eqb. apply bool_decide_eq_false. Qed.






(** The message of the round-trip scenario and what the SECONDARY reads
    from it: the text ["235"] has become the integer 235. *)
Example execute_buzz_on_the_wire :
  App.sync_message (lit "EXECUTE_BUZZ") example_buzz_data
  = lit "SYNC:EXECUTE_BUZZ:left_finger|2|right_finger|2|amplitude|75|seq|0|timestamp|1500000|pattern_type|rndp|jitter_percent|235"
  /\ coerced example_buzz_data
     = [(lit "left_finger", VInt 2); (lit "right_finger", VInt 2);
        (lit "amplitude", VInt 75); (lit "seq", VInt 0);
        (lit "timestamp", VInt 1500000);
        (lit "pattern_type", VStr (lit "rndp"));
        (lit "jitter_percent", VInt 235)].
Proof. split; vm_compute; reflexivity. Qed.


(** A colon in the command type moves the cut between command and data. *)
Example colon_in_command_type :
  decode_sync (App.sync_message (lit "A:B") [(lit "k", VInt 1)])
  = Some (lit "A", [(lit "B:k", VInt 1)]).
Proof. vm_compute. reflexivity. Qed.

(** Empty DATA is legal and yields an empty map. *)
Example empty_data_is_legal :
  decode_sync (lit "SYNC:PAUSE_SESSION:") = Some (lit "PAUSE_SESSION", []).
Proof. vm_compute. reflexivity. Qed.

(** ** Footprints of the handler's steps *)

Section Footprint.
Import App.
Context {X : Type} (obs : App.t -> X).

Lemma keeps_ret {A} (x : A) : keeps obs (ret x).
Proof. intros a. reflexivity. Qed.

Lemma keeps_raise {A} e : keeps obs (@raise App.t A e).
Proof. intros a. reflexivity. Qed.

Lemma keeps_get : keeps obs get.
Proof. intros a. reflexivity. Qed.

Lemma keeps_modify f : (forall a, obs (f a) = obs a) -> keeps obs (modify f).
Proof. intros H a. apply H. Qed.

Lemma keeps_bind {A B} (c : M App.t A) (k : A -> M App.t B) :
  keeps obs c -> (forall x, keeps obs (k x)) -> keeps obs (bind c k).
Proof.
  intros Hc Hk a. unfold ends_in, bind. specialize (Hc a). unfold ends_in in Hc.
  destruct (c a) as [x a1|e a1]; [|exact Hc].
  specialize (Hk x a1). unfold ends_in in Hk.
  destruct (k x a1); congruence.
Qed.

Lemma keeps_try_except {A} (c : M App.t A) (h : exn -> M App.t A) :
  keeps obs c -> (forall e, keeps obs (h e)) -> keeps obs (try_except c h).
Proof.
  intros Hc Hh a. unfold ends_in, try_except. specialize (Hc a).
  unfold ends_in in Hc.
  destruct (c a) as [x a1|e a1]; [exact Hc|].
  specialize (Hh e a1). unfold ends_in in Hh.
  destruct (h e a1); congruence.
Qed.

End Footprint.



(** Walks through a computation built from the handler's primitives. *)
Ltac footprint obs_emit :=
  repeat first
    [ apply keeps_ret | apply keeps_raise | apply keeps_get
    | apply keeps_bind; [|intros ?]
    | apply keeps_try_except; [|intros ?]
    | apply keeps_modify; intros ?;
      first [ reflexivity | apply obs_emit; reflexivity
            | etransitivity; [apply obs_emit; reflexivity | reflexivity] ]
    | progress unfold App.print, App.debug, App.led, App.sleep, App.call,
        App.haptic, App.sm_transition, App.sm_force_state, App.check_float
    | match goal with
      | |- keeps _ (if ?b then _ else _) => destruct b
      | |- keeps _ (match ?x with _ => _ end) => destruct x
      | |- keeps _ (let '(_, _) := ?x in _) => destruct x
      end ].

Section SequenceTracking.
Import App.




End SequenceTracking.

Section HandlerProperties.
Import App.









Lemma handler_ends_in {A} (body : M App.t A) a (Q : App.t -> Prop) :
  ends_in body a Q ->
  Q (match body a with Returned _ a' => a' | Raised _ a' => a' end).
Proof. intros H. unfold ends_in in H. destruct (body a); exact H. Qed.

Lemma pystr_eqb_refl s : pystr_eqb s s = true.
Proof. apply pystr_eqb_eq. reflexivity. Qed.








(** *** Unknown commands and missing keys *)











End HandlerProperties.


Section DroppedMessages.
Import App.




(** The round-trip scenario on the SECONDARY: fingers 2 at 75 %, one
    sample recorded. *)
Example execute_buzz_scenario :
  let a' := _handle_sync_command quiet_env
              (lit "SYNC:EXECUTE_BUZZ:left_finger|2|right_finger|2|amplitude|75|seq|0|timestamp|200")
              example_secondary in
  omap activation (trace a')
    = [HapticActivate (VInt 2) (VInt 75); HapticActivate (VInt 2) (VInt 75)] /\
  (SyncStats.sample_count <$> sync_stats a') = Some 1.
Proof. split; vm_compute; reflexivity. Qed.

End DroppedMessages.

(** ** Heartbeat recovery *)

Section Recovery.
Import App.

Lemma milestones_emit e a :
  milestones (emit e a) = milestones a ++ option_list (milestone_of e).
Proof.
  unfold milestones. simpl. rewrite omap_app. simpl.
  destruct (milestone_of e); reflexivity.
Qed.

Lemma milestones_set_clock c a : milestones (set_clock c a) = milestones a.
Proof. reflexivity. Qed.

Lemma milestones_set_state s a : milestones (set_state s a) = milestones a.
Proof. reflexivity. Qed.

Lemma milestones_set_primary_connection c a :
  milestones (set_primary_connection c a) = milestones a.
Proof. reflexivity. Qed.

Lemma milestones_set_last_heartbeat_received c a :
  milestones (set_last_heartbeat_received c a) = milestones a.
Proof. reflexivity. Qed.

Ltac milestones_norm :=
  rewrite ?milestones_emit, ?milestones_set_clock, ?milestones_set_state,
    ?milestones_set_primary_connection, ?milestones_set_last_heartbeat_received;
  cbn [milestone_of option_list]; rewrite ?app_nil_r, <- ?app_assoc.

Lemma reconnect_attempts_run env remaining : forall attempt a,
  exists (k : nat) b a',
    reconnect_attempts env attempt remaining a = Returned b a' /\
    (if b then (k < remaining)%nat else k = remaining) /\
    milestones a' = milestones a ++ failed_attempts k (get_ble_name a)
                      ++ ending b (get_ble_name a) /\
    state a' = (if b then TherapyState.READY else TherapyState.IDLE) /\
    (b = true -> primary_connection a' = Some (lit "primary")) /\
    _last_heartbeat_received a' = _last_heartbeat_received a.
Proof.
  induction remaining as [|remaining IH]; intros attempt a.
  - exists 0%nat, false. eexists. split; [reflexivity|].
    repeat split; try reflexivity; try discriminate.
    repeat milestones_norm. reflexivity.
  - cbn [reconnect_attempts].
    cbv beta delta [bind print led modify try_except call get sm_force_state ret raise sleep].
    cbn [clock emit set_clock].
    change (get_ble_name (emit _ (emit _ a))) with (get_ble_name a).
    match goal with |- context [respond env ?c ?p] =>
      generalize (respond env c p); intros r end.
    destruct (raises r) eqn:Hr; [|destruct (accepts r) eqn:Ha]; cbv beta iota.
    + match goal with |- context [reconnect_attempts _ _ _ ?a1] =>
        destruct (IH (S attempt) a1) as (k & b & a' & Hrun & Hk & Hm & Hs & Hp & Hh)
      end.
      exists (S k), b, a'. split; [exact Hrun|].
      split; [destruct b; lia|].
      split; [|split; [exact Hs|split; [exact Hp|rewrite Hh; reflexivity]]].
      rewrite Hm.
      change (get_ble_name (emit _ _)) with (get_ble_name a).
      repeat milestones_norm. unfold connects. rewrite Hr. reflexivity.
    + exists 0%nat, true. eexists. split; [reflexivity|].
      split; [lia|].
      repeat split; try reflexivity.
      repeat milestones_norm. unfold connects. rewrite Hr, Ha. reflexivity.
    + match goal with |- context [reconnect_attempts _ _ _ ?a1] =>
        destruct (IH (S attempt) a1) as (k & b & a' & Hrun & Hk & Hm & Hs & Hp & Hh)
      end.
      exists (S k), b, a'. split; [exact Hrun|].
      split; [destruct b; lia|].
      split; [|split; [exact Hs|split; [exact Hp|rewrite Hh; reflexivity]]].
      rewrite Hm.
      change (get_ble_name (emit _ _)) with (get_ble_name a).
      repeat milestones_norm. unfold connects. rewrite Hr, Ha. reflexivity.
Qed.


(** C3.  On the SECONDARY, with the haptic driver installed, the
    handler of a tripped heartbeat watchdog returns, and what it did is,
    in this order: the actuators' emergency stop; the state machine
    forced to CONNECTION_LOST; then [k] failed attempts, each a scan for
    the configured name with a 10 s window followed by a 2 s delay; then
    either a scan that connects ([k < 3], so at most three scans) and
    the state machine forced to READY, with the connection stored, or,
    after [k = 3] failed attempts, the state machine forced to IDLE.
    [last_heartbeat_received] is cleared. *)
Theorem heartbeat_timeout_recovery env a :
  haptic_controller a = true ->
  exists (k : nat) (reconnected : bool) a',
    _handle_heartbeat_timeout env a = Returned tt a' /\
    milestones a'
      = milestones a
        ++ [EmergencyStop; Forced TherapyState.CONNECTION_LOST]
        ++ failed_attempts k (get_ble_name a)
        ++ ending reconnected (get_ble_name a) /\
    _last_heartbeat_received a' = None /\
    (if reconnected
     then (k < 3)%nat /\ state a' = TherapyState.READY /\
          primary_connection a' = Some (lit "primary")
     else k = 3%nat /\ state a' = TherapyState.IDLE).
Proof.
  intros Hh. unfold _handle_heartbeat_timeout, _attempt_reconnect_to_primary.
  cbv beta delta [bind print led modify try_except call get sm_force_state ret raise].
  cbn [haptic_controller clock emit set_clock]. rewrite Hh.
  match goal with |- context [respond env ?c ?p] =>
    generalize (respond env c p); intros r end.
  destruct (raises r); cbv beta iota;
    match goal with |- context [reconnect_attempts _ _ _ ?a1] =>
      destruct (reconnect_attempts_run env MAX_ATTEMPTS 0%nat a1)
        as (k & b & a' & Hrun & Hk & Hm & Hs & Hp & Hb)
    end;
    rewrite Hrun; exists k, b, a';
    (split; [reflexivity|]);
    (split; [rewrite Hm; change (get_ble_name (emit _ _)) with (get_ble_name a);
             repeat milestones_norm; reflexivity|]);
    (split; [rewrite Hb; reflexivity|]);
    destruct b; auto.
Qed.

Lemma heartbeat_timeout_recovery_witness :
  exists (k : nat) (reconnected : bool) a',
    _handle_heartbeat_timeout flaky_env example_secondary = Returned tt a' /\
    milestones a'
      = milestones example_secondary
        ++ [EmergencyStop; Forced TherapyState.CONNECTION_LOST]
        ++ failed_attempts k (get_ble_name example_secondary)
        ++ ending reconnected (get_ble_name example_secondary) /\
    _last_heartbeat_received a' = None /\
    (if reconnected
     then (k < 3)%nat /\ state a' = TherapyState.READY /\
          primary_connection a' = Some (lit "primary")
     else k = 3%nat /\ state a' = TherapyState.IDLE).
Proof. apply (heartbeat_timeout_recovery flaky_env example_secondary). reflexivity. Defined.

Example recovery_third_attempt :
  milestones (match _handle_heartbeat_timeout flaky_env example_secondary with
              | Returned _ a' => a' | Raised _ a' => a' end)
  = [EmergencyStop; Forced TherapyState.CONNECTION_LOST;
     Scan (lit "BlueBuzzah") (10 * second) (lit "primary") false; Delay (2 * second);
     Scan (lit "BlueBuzzah") (10 * second) (lit "primary") false; Delay (2 * second);
     Scan (lit "BlueBuzzah") (10 * second) (lit "primary") true;
     Forced TherapyState.READY].
Proof. vm_compute. reflexivity. Qed.

Example recovery_gives_up :
  milestones (match _handle_heartbeat_timeout quiet_env example_secondary with
              | Returned _ a' => a' | Raised _ a' => a' end)
  = [EmergencyStop; Forced TherapyState.CONNECTION_LOST;
     Scan (lit "BlueBuzzah") (10 * second) (lit "primary") false; Delay (2 * second);
     Scan (lit "BlueBuzzah") (10 * second) (lit "primary") false; Delay (2 * second);
     Scan (lit "BlueBuzzah") (10 * second) (lit "primary") false; Delay (2 * second);
     Forced TherapyState.IDLE].
Proof. vm_compute. reflexivity. Qed.

End Recovery.

(** ** PRIMARY boot *)

Section Boot.
Import App.













Example boot_without_phone :
  returned_result (_primary_boot_sequence 101 boot_env example_primary)
  = Some SUCCESS_NO_PHONE.
Proof. vm_compute. reflexivity. Qed.

Example boot_without_secondary :
  returned_result (_primary_boot_sequence 101 quiet_env example_primary)
  = Some FAILED.
Proof. vm_compute. reflexivity. Qed.

Example boot_without_advertising :
  returned_result (_primary_boot_sequence 1 deaf_env example_primary)
  = Some FAILED.
Proof. vm_compute. reflexivity. Qed.

(** A wait that raises ends the boot sequence without a result. *)
Example boot_wait_raises :
  returned_result
    (_primary_boot_sequence 101
       (mk_env false (fun _ => false)
          (fun _ c => match c with
                      | BleAdvertise _ => mk_reply false 1500 false
                      | _ => mk_reply true 1500 false
                      end))
       example_primary)
  = None.
Proof. vm_compute. reflexivity. Qed.

End Boot.

(** ** SyncStats: histories and the order of the report *)

Section StatsHistory.
Import SyncStats.













End StatsHistory.

(** ** UTF-8: encoding and decoding *)

Ltac decide_tests :=
  repeat match goal with
         | |- context [(?a <=? ?b)] => destruct (Z.leb_spec a b); try lia
         end;
  cbn [andb negb].

Lemma utf8_decode_encode_char cp bs rest :
  utf8_encode_char cp = Some bs ->
  utf8_decode (bs ++ rest) = cons cp <$> utf8_decode rest.
Proof.
  unfold utf8_encode_char.
  destruct (Z.leb_spec 0 cp), (Z.leb_spec cp 0x7F); cbn [andb];
    try discriminate.
  - intros [= <-]. cbn [app utf8_decode]. decide_tests. reflexivity.
  - destruct (Z.leb_spec 0x80 cp), (Z.leb_spec cp 0x7FF); cbn [andb]; try lia.
    + intros [= <-]. cbn [app utf8_decode]. unfold is_cont.
      pose proof (Z.div_mod cp 64 ltac:(lia)).
      pose proof (Z.mod_pos_bound cp 64 ltac:(lia)).
      assert (2 <= cp / 64 <= 31) by lia.
      decide_tests. f_equal. f_equal. lia.
    + destruct (Z.leb_spec 0x800 cp), (Z.leb_spec cp 0xFFFF); cbn [andb]; try lia.
      * destruct (Z.leb_spec 0xD800 cp), (Z.leb_spec cp 0xDFFF); cbn [andb];
          try discriminate;
          (intros [= <-]; cbn [app utf8_decode]; unfold is_cont;
           pose proof (Z.div_mod cp 64 ltac:(lia));
           pose proof (Z.mod_pos_bound cp 64 ltac:(lia));
           pose proof (Z.div_mod (cp / 64) 64 ltac:(lia));
           pose proof (Z.mod_pos_bound (cp / 64) 64 ltac:(lia));
           assert (cp / 4096 = cp / 64 / 64) as E
             by (rewrite Z.div_div by lia; reflexivity);
           rewrite E;
           assert (0 <= cp / 64 / 64 <= 15) by lia;
           assert ((cp / 64 / 64 + 224 - 224) * 4096 + (128 + (cp / 64) mod 64 - 128) * 64
                   + (128 + cp mod 64 - 128) = cp) as Ecp by lia;
           cbv zeta; change 0xE0 with 224; change 0x80 with 128;
           replace (224 + cp / 64 / 64 - 224) with (cp / 64 / 64 + 224 - 224) by lia;
           rewrite Ecp; decide_tests; reflexivity).
      * destruct (Z.leb_spec 0x10000 cp), (Z.leb_spec cp 0x10FFFF); cbn [andb];
          try discriminate.
        intros [= <-]. cbn [app utf8_decode]. unfold is_cont.
        pose proof (Z.div_mod cp 64 ltac:(lia)).
        pose proof (Z.mod_pos_bound cp 64 ltac:(lia)).
        pose proof (Z.div_mod (cp / 64) 64 ltac:(lia)).
        pose proof (Z.mod_pos_bound (cp / 64) 64 ltac:(lia)).
        pose proof (Z.div_mod (cp / 64 / 64) 64 ltac:(lia)).
        pose proof (Z.mod_pos_bound (cp / 64 / 64) 64 ltac:(lia)).
        assert (cp / 4096 = cp / 64 / 64) as E1
          by (rewrite Z.div_div by lia; reflexivity).
        assert (cp / 262144 = cp / 64 / 64 / 64) as E2
          by (rewrite !Z.div_div by lia; reflexivity).
        rewrite E1, E2.
        assert (0 <= cp / 64 / 64 / 64 <= 4) by lia.
        assert ((240 + cp / 64 / 64 / 64 - 240) * 262144
                + (128 + (cp / 64 / 64) mod 64 - 128) * 4096
                + (128 + (cp / 64) mod 64 - 128) * 64
                + (128 + cp mod 64 - 128) = cp) as Ecp by lia.
        cbv zeta. change 0xF0 with 240. change 0x80 with 128.
        rewrite Ecp. decide_tests. reflexivity.
  - decide_tests; discriminate.
  - lia.
Qed.

Lemma utf8_decode_encode s : forall bs,
  utf8_encode s = Some bs -> utf8_decode bs = Some s.
Proof.
  induction s as [|cp s IH]; intros bs; cbn [utf8_encode].
  - intros [= <-]. reflexivity.
  - destruct (utf8_encode_char cp) as [b|] eqn:Hc; [|discriminate].
    destruct (utf8_encode s) as [bs'|]; [|discriminate].
    intros [= <-]. rewrite (utf8_decode_encode_char _ _ _ Hc), (IH bs' eq_refl).
    reflexivity.
Qed.

Lemma utf8_encode_char_bytes cp bs :
  utf8_encode_char cp = Some bs ->
  bs <> [] /\ (length bs <= 4)%nat /\
  (bs = [cp] /\ 0 <= cp <= 0x7F \/ Forall (fun b => 0x80 <= b) bs /\ 0x80 <= cp).
Proof.
  unfold utf8_encode_char.
  destruct (Z.leb_spec 0 cp), (Z.leb_spec cp 0x7F); cbn [andb].
  - intros [= <-]. split; [discriminate|]. split; [simpl; lia|]. left. split; [reflexivity|lia].
  - pose proof (Z.mod_pos_bound cp 64 ltac:(lia)).
    pose proof (Z.mod_pos_bound (cp / 64) 64 ltac:(lia)).
    pose proof (Z.mod_pos_bound (cp / 4096) 64 ltac:(lia)).
    pose proof (Z.div_pos cp 64 ltac:(lia) ltac:(lia)).
    pose proof (Z.div_pos cp 4096 ltac:(lia) ltac:(lia)).
    pose proof (Z.div_pos cp 262144 ltac:(lia) ltac:(lia)).
    repeat match goal with
           | |- context [if ?c then _ else _] => destruct c
           end; try discriminate;
      (intros [= <-]; split; [discriminate|]; split; [simpl; lia|]; right;
       split; [repeat first [apply Forall_nil_2 | apply Forall_cons_2; [lia|]] | lia]).
  - decide_tests; discriminate.
  - lia.
Qed.

Lemma utf8_encode_facts s : forall bs,
  utf8_encode s = Some bs ->
  (length s <= length bs)%nat /\
  (s <> [] -> bs <> []) /\
  (Ble.EOT ∈ bs <-> Ble.EOT ∈ s).
Proof.
  induction s as [|cp s IH]; intros bs; cbn [utf8_encode].
  - intros [= <-]. repeat split; auto.
  - destruct (utf8_encode_char cp) as [b|] eqn:Hc; [|discriminate].
    destruct (utf8_encode s) as [bs'|]; [|discriminate].
    intros [= <-]. destruct (IH bs' eq_refl) as (Hl & _ & He).
    destruct (utf8_encode_char_bytes _ _ Hc) as (Hne & Hlen & Hcase).
    split; [rewrite length_app; destruct b; [congruence|simpl in *; lia]|].
    split; [intros _; destruct b; [congruence|discriminate]|].
    rewrite elem_of_app, elem_of_cons, He.
    destruct Hcase as [[-> Hr]|[Hall Hr]].
    + rewrite list_elem_of_singleton. split; intros [|]; auto.
    + split; [intros [Hin|]; [|auto]|intros [E|]; [|auto]].
      * rewrite Forall_forall in Hall. apply Hall in Hin. unfold Ble.EOT in Hin. lia.
      * rewrite <- E in Hr. unfold Ble.EOT in Hr. lia.
Qed.

Lemma utf8_encode_app s1 : forall s2 b1 b2,
  utf8_encode s1 = Some b1 -> utf8_encode s2 = Some b2 ->
  utf8_encode (s1 ++ s2) = Some (b1 ++ b2).
Proof.
  induction s1 as [|cp s1 IH]; intros s2 b1 b2; cbn [utf8_encode app].
  - intros [= <-] H2. exact H2.
  - destruct (utf8_encode_char cp) as [b|]; [|discriminate].
    destruct (utf8_encode s1) as [bs'|]; [|discriminate].
    intros [= <-] H2. rewrite (IH s2 bs' b2 eq_refl H2), app_assoc. reflexivity.
Qed.

Lemma utf8_encode_app_inv s1 s2 bs :
  utf8_encode (s1 ++ s2) = Some bs ->
  exists b1 b2, utf8_encode s1 = Some b1 /\ utf8_encode s2 = Some b2.
Proof.
  revert bs. induction s1 as [|cp s1 IH]; intros bs; cbn [utf8_encode app].
  - intros H. eauto.
  - destruct (utf8_encode_char cp) as [b|]; [|discriminate].
    destruct (utf8_encode (s1 ++ s2)) as [bs'|] eqn:E; [|discriminate].
    intros _. destruct (IH bs' eq_refl) as (b1 & b2 & -> & ->). eauto.
Qed.

(** ** [send] *)

Section Send.
Import Ble BleOps.

Lemma send_through DEBUG_ENABLED link conn_id message payload c s :
  _connections (ble s) !! conn_id = Some c ->
  connected c = true ->
  link_up link conn_id ->
  utf8_encode message = Some payload ->
  exists s',
    send DEBUG_ENABLED link conn_id message s = (true, s') /\
    uart_calls s'
      = uart_calls s ++ (conn_id, UartWrite (payload ++ [EOT]))
          :: (if has_flush link conn_id then [(conn_id, UartFlush)] else []) /\
    ble s' = mk_ble (alter (set_last_seen (now (ble s))) conn_id
                       (_connections (ble s)))
               (now (ble s)) (output (ble s)) /\
    link_disconnects s' = link_disconnects s.
Proof.
  intros Hc Hconn [Hw Hf] Henc. unfold send. rewrite Hc, Hconn. cbn [negb].
  unfold send_body.
  rewrite (utf8_encode_app message [EOT] payload [EOT] Henc eq_refl).
  rewrite Hw, Hf.
  destruct DEBUG_ENABLED, (has_flush link conn_id),
    (has_reset_input_buffer link conn_id).
  all: cbn [debug bind modify ret raise print ask on_ble
              ble uart_calls link_disconnects console].
  all: (eexists; split; [reflexivity|]).
  all: cbn [uart_calls ble link_disconnects print ask on_ble];
    rewrite <- ?app_assoc; repeat split; reflexivity.
Qed.



Lemma written_app conn_id l1 l2 :
  written conn_id (l1 ++ l2) = written conn_id l1 ++ written conn_id l2.
Proof. unfold written. rewrite omap_app, concat_app. reflexivity. Qed.

Lemma written_send conn_id d (flush : bool) :
  written conn_id
    ((conn_id, UartWrite d) :: (if flush then [(conn_id, UartFlush)] else []))
  = d.
Proof.
  unfold written. destruct flush; cbn [omap list_omap];
    rewrite pystr_eqb_refl; cbn [concat]; rewrite app_nil_r; reflexivity.
Qed.

Lemma sendable_well_formed message :
  sendable message ->
  exists payload, utf8_encode message = Some payload /\
                  well_formed 512 payload message.
Proof.
  intros (Hne & Heot & payload & Henc & Hlen).
  exists payload. split; [exact Henc|].
  destruct (utf8_encode_facts _ _ Henc) as (_ & Hne' & He).
  repeat split; [rewrite He; exact Heot | auto | exact Hlen |].
  apply utf8_decode_encode, Henc.
Qed.

Lemma send_all_through DEBUG_ENABLED link conn_id messages : forall s c,
  _connections (ble s) !! conn_id = Some c ->
  connected c = true ->
  link_up link conn_id ->
  Forall sendable messages ->
  exists s' payloads,
    send_all DEBUG_ENABLED link conn_id messages s
      = (replicate (length messages) true, s') /\
    written conn_id (uart_calls s')
      = written conn_id (uart_calls s) ++ on_the_wire messages /\
    on_the_wire messages = wire payloads /\
    Forall2 (well_formed 512) payloads messages /\
    link_disconnects s' = link_disconnects s.
Proof.
  induction messages as [|m messages IH]; intros s c Hc Hconn Hup Hall.
  - exists s, []. cbn. rewrite app_nil_r. repeat split. constructor.
  - apply Forall_cons in Hall as [Hm Hall].
    destruct (sendable_well_formed m Hm) as (payload & Henc & Hwf).
    destruct (send_through DEBUG_ENABLED link conn_id m payload c s Hc Hconn Hup Henc)
      as (s1 & Hsend & Hcalls & Hble & Hd).
    destruct (IH s1 (set_last_seen (now (ble s)) c))
      as (s2 & payloads & Hrun & Hw & Hwire & Hwfs & Hd2).
    { rewrite Hble. cbn [_connections]. rewrite lookup_alter_eq, Hc. reflexivity. }
    { exact Hconn. }
    { exact Hup. }
    { exact Hall. }
    exists s2, (payload :: payloads). cbn [send_all]. rewrite Hsend, Hrun.
    split; [reflexivity|].
    assert (on_the_wire (m :: messages) = wire (payload :: payloads)) as E.
    { unfold on_the_wire, wire in *. cbn [fmap list_fmap concat].
      rewrite Henc, Hwire. reflexivity. }
    split; [|split; [exact E|split; [constructor; assumption | congruence]]].
    rewrite Hw, Hcalls, written_app, written_send.
    unfold on_the_wire. cbn [fmap list_fmap concat]. rewrite Henc.
    cbn [default from_option]. rewrite <- !app_assoc. reflexivity.
Qed.

(** X3.  What [send] writes, [receive] gives back.  When the connection
    is up and the link lets the writes through, sending a list of texts
    (none empty, none with an EOT character, each encodable and at most
    512 bytes long) returns [True] every time and writes the texts'
    UTF-8 bytes, each followed by EOT.  When exactly these bytes wait on
    an idle connection of the peer and one read takes them, that many
    calls of [receive] return the texts as sent, in order. *)
Theorem send_receive_round_trip DEBUG_ENABLED link conn_id messages s c :
  _connections (ble s) !! conn_id = Some c ->
  connected c = true ->
  link_up link conn_id ->
  Forall sendable messages ->
  exists s',
    send_all DEBUG_ENABLED link conn_id messages s
      = (replicate (length messages) true, s') /\
    written conn_id (uart_calls s')
      = written conn_id (uart_calls s) ++ on_the_wire messages /\
    forall peer peer_id pc fuel timeout,
      _connections peer !! peer_id = Some pc ->
      connected pc = true ->
      _pending_messages pc = [] ->
      _msg_len pc = 0%nat ->
      length (_msg_buffer pc) = 512%nat ->
      uart_fifo pc = on_the_wire messages ->
      single_read pc ->
      (forall t, timeout = Some t -> 0 <= t) ->
      (0 < fuel)%nat ->
      exists peer',
        receive_calls (length messages) fuel peer_id timeout peer
          = Some (Some <$> messages, peer').
Proof.
  intros Hc Hconn Hup Hall.
  destruct (send_all_through DEBUG_ENABLED link conn_id messages s c Hc Hconn Hup Hall)
    as (s' & payloads & Hrun & Hw & Hwire & Hwf & _).
  exists s'. split; [exact Hrun|]. split; [exact Hw|].
  intros peer peer_id pc fuel timeout Hpc Hpconn Hq Hlen Hbuf Hfifo Hsingle Hto Hfuel.
  rewrite <- Hbuf in Hwf.
  destruct (acc_run_wire payloads messages (_msg_buffer pc) Hwf) as (buf' & Hacc & _).
  destruct messages as [|t texts].
  { exists peer. reflexivity. }
  change (length (t :: texts)) with (S (length texts)).
  destruct (receive_calls_single_read fuel peer_id timeout peer pc buf' 0%nat t texts 0%nat)
    as (peer' & c' & Hcalls & _); try assumption.
  { rewrite Hlen, Hfifo, Hwire. exact Hacc. }
  exists peer'. exact Hcalls.
Qed.


Lemma send_receive_round_trip_witness :
  exists s',
    send_all false open_link (lit "secondary") example_texts example_radio
      = (replicate (length example_texts) true, s') /\
    written (lit "secondary") (uart_calls s')
      = written (lit "secondary") (uart_calls example_radio)
          ++ on_the_wire example_texts /\
    forall peer peer_id pc fuel timeout,
      _connections peer !! peer_id = Some pc ->
      connected pc = true ->
      _pending_messages pc = [] ->
      _msg_len pc = 0%nat ->
      length (_msg_buffer pc) = 512%nat ->
      uart_fifo pc = on_the_wire example_texts ->
      single_read pc ->
      (forall t, timeout = Some t -> 0 <= t) ->
      (0 < fuel)%nat ->
      exists peer',
        receive_calls (length example_texts) fuel peer_id timeout peer
          = Some (Some <$> example_texts, peer').
Proof.
  apply (send_receive_round_trip false open_link (lit "secondary")
           example_texts example_radio (new_connection (lit "secondary") 0)).
  - vm_compute. reflexivity.
  - reflexivity.
  - split; [intros d|]; reflexivity.
  - repeat (apply Forall_cons_2;
            [split; [discriminate|]; split; [by_computation|];
             eexists; split; [vm_compute; reflexivity | simpl; lia]|]).
    apply Forall_nil_2.
Defined.

(** The two texts through [send] on one side and [receive] on the
    other. *)
Example heartbeat_and_unicode_over_the_link :
  written (lit "secondary")
    (uart_calls (snd (send_all false open_link (lit "secondary") example_texts
                        example_radio)))
  = on_the_wire example_texts /\
  fst <$> receive_calls 2 1 (lit "primary") (Some 10)
            (primary_with (on_the_wire example_texts))
  = Some (Some <$> example_texts).
Proof. split; vm_compute; reflexivity. Qed.

End Send.

(** ** [send] refused, and the connection table *)

Section Table.
Import Ble BleOps.

(** X4.  [send] fails closed.  When the connection is not in the table
    or not connected, or the text cannot be encoded, [send] returns
    [False], prints why, asks nothing of any UART service and leaves the
    table as it was.  When the write itself raises, [send] returns
    [False] after that one write attempt, and the table, the time the
    connection was last seen included, is as it was. *)
Theorem send_refused DEBUG_ENABLED link conn_id message s :
  (is_connected conn_id (ble s) = false \/ utf8_encode message = None ->
   exists s',
     send DEBUG_ENABLED link conn_id message s = (false, s') /\
     uart_calls s' = uart_calls s /\
     ble s' = ble s /\
     link_disconnects s' = link_disconnects s /\
     (length (console s) < length (console s'))%nat) /\
  (forall payload,
     is_connected conn_id (ble s) = true ->
     utf8_encode message = Some payload ->
     write_raises link conn_id (payload ++ [EOT]) = true ->
     exists s',
       send DEBUG_ENABLED link conn_id message s = (false, s') /\
       uart_calls s'
         = uart_calls s ++ [(conn_id, UartWrite (payload ++ [EOT]))] /\
       ble s' = ble s /\
       link_disconnects s' = link_disconnects s).
Proof.
  split.
  - intros H. unfold send, is_connected in *.
    destruct (_connections (ble s) !! conn_id) as [c|] eqn:Hc.
    2:{ eexists. split; [reflexivity|]. cbn. rewrite !length_app. cbn.
        repeat split; lia. }
    destruct (connected c) eqn:Hconn; cbn [negb].
    2:{ eexists. split; [reflexivity|]. cbn. rewrite !length_app. cbn.
        repeat split; lia. }
    destruct H as [H|H]; [discriminate|].
    unfold send_body.
    destruct (utf8_encode (message ++ [EOT])) as [bs|] eqn:E.
    { apply utf8_encode_app_inv in E as (b1 & b2 & E1 & _). congruence. }
    eexists. split; [reflexivity|]. cbn. rewrite !length_app. cbn.
    repeat split; lia.
  - intros payload Hconn Henc Hw. unfold send, is_connected in *.
    destruct (_connections (ble s) !! conn_id) as [c|] eqn:Hc; [|discriminate].
    rewrite Hconn. cbn [negb]. unfold send_body.
    rewrite (utf8_encode_app message [EOT] payload [EOT] Henc eq_refl).
    rewrite Hw.
    destruct DEBUG_ENABLED; (eexists; split; [reflexivity|]);
      cbn [uart_calls ble link_disconnects print ask on_ble];
      repeat split; reflexivity.
Qed.


Lemma send_refused_witness :
  (exists s',
     send false open_link (lit "phone") (lit "hello") example_radio = (false, s') /\
     uart_calls s' = uart_calls example_radio /\
     ble s' = ble example_radio /\
     link_disconnects s' = link_disconnects example_radio /\
     (length (console example_radio) < length (console s'))%nat) /\
  (exists s',
     send false closed_link (lit "secondary") (lit "hello") example_radio
       = (false, s') /\
     uart_calls s'
       = uart_calls example_radio
           ++ [(lit "secondary", UartWrite (lit "hello" ++ [EOT]))] /\
     ble s' = ble example_radio /\
     link_disconnects s' = link_disconnects example_radio).
Proof.
  destruct (send_refused false open_link (lit "phone") (lit "hello") example_radio)
    as [H1 _].
  destruct (send_refused false closed_link (lit "secondary") (lit "hello")
              example_radio) as [_ H2].
  split.
  - apply H1. left. vm_compute. reflexivity.
  - apply (H2 (lit "hello")).
    + vm_compute. reflexivity.
    + vm_compute. reflexivity.
    + reflexivity.
Defined.

Lemma get_all_connections_elem conn_id b :
  conn_id ∈ get_all_connections b <-> is_Some (_connections b !! conn_id).
Proof.
  unfold get_all_connections. rewrite list_elem_of_fmap. split.
  - intros ([k c] & -> & Hin). apply elem_of_map_to_list in Hin.
    cbn. rewrite Hin. eauto.
  - intros [c Hc]. exists (conn_id, c). split; [reflexivity|].
    apply elem_of_map_to_list. exact Hc.
Qed.

(** X5.  [disconnect] forgets exactly one connection.  Afterwards
    [is_connected] is [False] for it, it is not among
    [get_all_connections], [receive] on it returns [None] at once and
    [send] returns [False] without a write; every other connection is as
    it was.  The link is asked to disconnect once when the connection
    was in the table and not at all otherwise. *)
Theorem disconnect_forgets conn_id s :
  let s' := disconnect conn_id s in
  is_connected conn_id (ble s') = false /\
  (conn_id ∉ get_all_connections (ble s')) /\
  (forall other, other <> conn_id ->
     _connections (ble s') !! other = _connections (ble s) !! other) /\
  (forall fuel timeout,
     exists b', receive fuel conn_id timeout (ble s') = Some (None, b') /\
                _connections b' = _connections (ble s') /\
                now b' = now (ble s')) /\
  (forall DEBUG_ENABLED link message,
     exists s'', send DEBUG_ENABLED link conn_id message s' = (false, s'') /\
                 uart_calls s'' = uart_calls s' /\ ble s'' = ble s') /\
  link_disconnects s'
    = link_disconnects s
        ++ match _connections (ble s) !! conn_id with
           | Some _ => [conn_id]
           | None => []
           end /\
  uart_calls s' = uart_calls s.
Proof.
  cbv zeta.
  assert (_connections (ble (disconnect conn_id s)) !! conn_id = None) as Hgone.
  { unfold disconnect. destruct (_connections (ble s) !! conn_id) eqn:E;
      [cbn; apply lookup_delete_eq | exact E]. }
  split; [unfold is_connected; rewrite Hgone; reflexivity|].
  split; [rewrite get_all_connections_elem, Hgone; intros [? [=]]|].
  split.
  { intros other Hne. unfold disconnect.
    destruct (_connections (ble s) !! conn_id); [|reflexivity].
    cbn. apply lookup_delete_ne. congruence. }
  split.
  { intros fuel timeout. unfold receive. rewrite Hgone. eexists.
    split; [reflexivity|]. split; reflexivity. }
  split.
  { intros D link message. unfold send. rewrite Hgone. eexists.
    split; [reflexivity|]. split; reflexivity. }
  unfold disconnect. destruct (_connections (ble s) !! conn_id); cbn;
    rewrite ?app_nil_r; split; reflexivity.
Qed.

Lemma disconnect_list l : forall s,
  NoDup l ->
  (forall k, k ∈ l -> is_Some (_connections (ble s) !! k)) ->
  let s' := foldl (fun s conn_id => disconnect conn_id s) s l in
  link_disconnects s' = link_disconnects s ++ l /\
  uart_calls s' = uart_calls s /\
  console s' = console s /\
  now (ble s') = now (ble s) /\
  forall k, _connections (ble s') !! k
            = if decide (k ∈ l) then None else _connections (ble s) !! k.
Proof.
  induction l as [|x l IH]; intros s Hnd Hin; cbv zeta.
  - cbn. rewrite app_nil_r. repeat split.
  - apply NoDup_cons in Hnd as [Hx Hnd]. cbn [foldl].
    destruct (Hin x) as [c Hc]; [left|].
    assert (disconnect x s
            = mk_radio (mk_ble (delete x (_connections (ble s))) (now (ble s))
                          (output (ble s)))
                (uart_calls s) (link_disconnects s ++ [x]) (console s)) as E.
    { unfold disconnect. rewrite Hc. reflexivity. }
    destruct (IH (disconnect x s) Hnd) as (Hd & Hu & Hco & Hn & Hk).
    { intros k Hkl. rewrite E. cbn. rewrite lookup_delete_ne.
      - apply Hin. right. exact Hkl.
      - intros ->. contradiction. }
    rewrite Hd, Hu, Hco, Hn. split; [rewrite E; cbn; rewrite <- app_assoc; reflexivity|].
    split; [rewrite E; reflexivity|]. split; [rewrite E; reflexivity|].
    split; [rewrite E; reflexivity|].
    intros k. rewrite Hk, E. cbn.
    destruct (decide (k ∈ l)) as [Hkl|Hkl].
    + rewrite decide_True by (right; exact Hkl). reflexivity.
    + destruct (decide (k = x)) as [->|Hne].
      * rewrite decide_True by left. apply lookup_delete_eq.
      * rewrite decide_False by (rewrite elem_of_cons; tauto).
        apply lookup_delete_ne. congruence.
Qed.

(** X6.  [disconnect_all] leaves an empty table: every connection that
    was in it has been disconnected on the link exactly once, no UART
    service was asked anything, and afterwards no id is connected. *)
Theorem disconnect_all_empties s :
  let s' := disconnect_all s in
  _connections (ble s') = ∅ /\
  get_all_connections (ble s') = [] /\
  (forall conn_id, is_connected conn_id (ble s') = false) /\
  link_disconnects s' = link_disconnects s ++ get_all_connections (ble s) /\
  NoDup (get_all_connections (ble s)) /\
  uart_calls s' = uart_calls s.
Proof.
  cbv zeta. unfold disconnect_all.
  destruct (disconnect_list (get_all_connections (ble s)) s)
    as (Hd & Hu & _ & _ & Hk).
  { apply NoDup_fst_map_to_list. }
  { intros k Hin. apply get_all_connections_elem, Hin. }
  assert (_connections
            (ble (foldl (fun s conn_id => disconnect conn_id s) s
                    (get_all_connections (ble s)))) = ∅) as Hempty.
  { apply map_eq. intros k. rewrite Hk, lookup_empty.
    destruct (decide (k ∈ get_all_connections (ble s))) as [|Hn]; [reflexivity|].
    destruct (_connections (ble s) !! k) eqn:E; [|reflexivity].
    exfalso. apply Hn, get_all_connections_elem. rewrite E. eauto. }
  split; [exact Hempty|].
  split; [unfold get_all_connections at 1; rewrite Hempty, map_to_list_empty; reflexivity|].
  split; [intros conn_id; unfold is_connected; rewrite Hempty, lookup_empty; reflexivity|].
  split; [exact Hd|]. split; [apply NoDup_fst_map_to_list | exact Hu].
Qed.

(** Both connections of the example go; the link is told twice. *)
Example shutdown_of_two :
  get_all_connections (ble (disconnect_all two_connections)) = [] /\
  length (link_disconnects (disconnect_all two_connections)) = 2%nat.
Proof. split; vm_compute; reflexivity. Qed.

End Table.

(** ** [receive] on a silent link *)

Section Silence.
Import Ble.

Lemma silent_loop_times_out conn_id t start len (n : nat) : forall fuel s,
  uart_fifo (conn s) = [] ->
  t <> 0 ->
  t - (clock s - start) < 10 * Z.of_nat n ->
  ((0 < n)%nat -> 10 * (Z.of_nat n - 1) <= t - (clock s - start)) ->
  (n < fuel)%nat ->
  receive_loop fuel conn_id (Some t) start len s
    = Some (Returned None
              (mk_rx (conn s) (clock s + 10 * Z.of_nat n) (console s))).
Proof.
  induction n as [|n IH]; intros fuel s Hfifo Ht Hlt Hge Hfuel;
    (destruct fuel as [|fuel]; [lia|]); cbn [receive_loop timed_out].
  - destruct (Z.eqb_spec t 0); [contradiction|].
    destruct (Z.gtb_spec (clock s - start) t); [|lia]. cbn [negb andb].
    destruct s. cbn. rewrite Z.add_0_r. reflexivity.
  - destruct (Z.eqb_spec t 0); [contradiction|].
    destruct (Z.gtb_spec (clock s - start) t); [lia|]. cbn [negb andb].
    rewrite Hfifo. cbn [length Nat.ltb Nat.leb].
    rewrite (IH fuel (sleep 10 s)).
    + cbn. do 3 f_equal. lia.
    + exact Hfifo.
    + exact Ht.
    + cbn [sleep clock]. lia.
    + cbn [sleep clock]. lia.
    + lia.
Qed.




End Silence.

(** ** A frame that arrives in two pieces *)

Section Fragments.
Import Ble.

Lemma loop_absorbs conn_id t fuel s d buf' len' :
  _pending_messages (conn s) = [] ->
  single_read (conn s) ->
  uart_fifo (conn s) = d ->
  acc_run (_msg_buffer (conn s)) (_msg_len (conn s)) d
    = Some (buf', len', [], 0%nat) ->
  0 < t ->
  (Z.to_nat (t / 10) + 1 < fuel)%nat ->
  receive_loop fuel conn_id (Some t) (clock s) (_msg_len (conn s)) s
    = Some (Returned None
              (mk_rx (absorbed d buf' len' (conn s))
                 (clock s + 10 * (t / 10 + 1)) (console s))).
Proof.
  intros Hq Hsingle Hfifo Hrun Ht Hfuel.
  pose proof (Z.div_mod t 10 ltac:(lia)) as Hdm.
  pose proof (Z.mod_pos_bound t 10 ltac:(lia)) as Hmod.
  pose proof (Z.div_pos t 10 ltac:(lia) ltac:(lia)) as Hdiv.
  destruct d as [|b d].
  - cbn in Hrun. injection Hrun as <- <-.
    rewrite (silent_loop_times_out conn_id t (clock s) (_msg_len (conn s))
               (Z.to_nat (t / 10) + 1)); try assumption; try lia.
    destruct s as [[] ? ?]. cbn in *. subst. unfold absorbed. cbn.
    rewrite drop_0. do 3 f_equal. lia.
  - destruct fuel as [|fuel]; [lia|].
    cbn [receive_loop timed_out]. rewrite Z.sub_diag.
    destruct (Z.eqb_spec t 0); [lia|].
    destruct (Z.gtb_spec 0 t); [lia|]. cbn [negb andb].
    rewrite (read_uart_single s Hsingle). rewrite Hfifo.
    change (0 <? length (b :: d))%nat with true. cbv iota.
    rewrite process_bytes_feed.
    2:{ intros i Hi. cbn [conn _rx_buffer set_rx_buffer].
        rewrite lookup_app_l by exact Hi. reflexivity. }
    erewrite feed_run by (cbn; exact Hrun).
    assert (_pending_messages
              (conn (on_conn (set_msg_len len')
                       (upd conn_id buf' [] 0
                          (mk_rx (set_rx_buffer
                                    ((b :: d) ++ drop (length (b :: d))
                                                   (_rx_buffer (conn s)))
                                    (set_uart_fifo [] (conn s)))
                             (clock s) (console s))))) = []) as ->.
    { cbn. rewrite Hq. reflexivity. }
    rewrite (silent_loop_times_out conn_id t (clock s) len' (Z.to_nat (t / 10))).
    + unfold absorbed. cbn. rewrite Hq, app_nil_r.
      f_equal. f_equal. f_equal; [lia | apply app_nil_r].
    + reflexivity.
    + lia.
    + cbn. lia.
    + cbn. lia.
    + lia.
Qed.


Lemma arrive_lookup conn_id bytes b c :
  _connections b !! conn_id = Some c ->
  _connections (arrive conn_id bytes b) !! conn_id
    = Some (set_uart_fifo (uart_fifo c ++ bytes) c).
Proof.
  intros Hc. unfold arrive. cbn [_connections].
  rewrite lookup_alter_eq, Hc. reflexivity.
Qed.

(** X8.  A frame that arrives in two pieces is delivered whole.  On an
    idle connection, when the first bytes [d1] of a frame are all that
    has arrived, [receive] takes them into the accumulator and returns
    [None] at its timeout; when the rest [d2] and the EOT have arrived, the
    next call returns the text of [d1 ++ d2], and the connection is idle
    again. *)
Theorem fragmented_frame_is_reassembled b conn_id c d1 d2 text t1 t2 fuel :
  _connections b !! conn_id = Some c ->
  connected c = true ->
  _pending_messages c = [] ->
  _msg_len c = 0%nat ->
  uart_fifo c = [] ->
  well_formed (length (_msg_buffer c)) (d1 ++ d2) text ->
  (uart_has_readinto c = false \/
   (length d1 <= length (_rx_buffer c))%nat /\
   (length d2 < length (_rx_buffer c))%nat) ->
  0 < t1 -> 0 <= t2 ->
  (Z.to_nat (t1 / 10) + 1 < fuel)%nat ->
  exists b1 b2 c2,
    receive fuel conn_id (Some t1) (arrive conn_id d1 b) = Some (None, b1) /\
    receive fuel conn_id (Some t2) (arrive conn_id (d2 ++ [EOT]) b1)
      = Some (Some text, b2) /\
    _connections b2 !! conn_id = Some c2 /\
    _pending_messages c2 = [] /\
    _msg_len c2 = 0%nat /\
    uart_fifo c2 = [].
Proof.
  intros Hc Hconn Hq Hlen Hfifo (Hno & Hne & Hfit & Hdec) Hread Ht1 Ht2 Hfuel.
  rewrite not_elem_of_app in Hno. destruct Hno as [Hno1 Hno2].
  rewrite length_app in Hfit.
  destruct (acc_run_payload d1 (_msg_buffer c) 0%nat Hno1)
    as (buf1 & Hrun1 & Hlen1 & Htake1); [simpl; lia|].
  destruct (acc_run_payload d2 buf1 (length d1) Hno2)
    as (buf2 & Hrun2 & Hlen2 & Htake2); [lia|].
  cbn [Nat.add take app] in Hrun1, Htake1.
  (* the first call *)
  set (c1 := set_uart_fifo (uart_fifo c ++ d1) c).
  assert (receive_connected fuel conn_id (Some t1)
            (mk_rx c1 (now b) (output b))
          = Some (None,
                  mk_rx (absorbed d1 buf1 (length d1) c1)
                    (now b + 10 * (t1 / 10 + 1)) (output b))) as Hfirst.
  { unfold receive_connected. cbn [conn clock].
    change (_pending_messages c1) with (_pending_messages c). rewrite Hq.
    pose proof (loop_absorbs conn_id t1 fuel (mk_rx c1 (now b) (output b))
                  d1 buf1 (length d1)) as H.
    cbn [conn clock console] in H. rewrite H; [reflexivity|..].
    - exact Hq.
    - destruct Hread as [Hr|[Hr _]]; [left; exact Hr|right].
      subst c1. cbn. rewrite Hfifo. exact Hr.
    - subst c1. cbn. rewrite Hfifo. reflexivity.
    - subst c1. cbn. rewrite Hlen. exact Hrun1.
    - exact Ht1.
    - exact Hfuel. }
  pose proof (receive_through_table (arrive conn_id d1 b) conn_id c1 fuel
                (Some t1) None _ (arrive_lookup conn_id d1 b c Hc) Hconn Hfirst)
    as Hcall1.
  cbn [conn clock console] in Hcall1.
  eexists _, _, _. split; [exact Hcall1|].
  (* the second call *)
  set (a1 := absorbed d1 buf1 (length d1) c1) in *.
  set (c2 := set_uart_fifo (uart_fifo a1 ++ d2 ++ [EOT]) a1).
  destruct fuel as [|fuel]; [lia|].
  assert (acc_run (_msg_buffer c2) (_msg_len c2) (uart_fifo c2)
          = Some (buf2, 0%nat, [text], 0%nat)) as Hrun.
  { subst c2 a1. unfold absorbed.
    cbn [_msg_buffer _msg_len uart_fifo set_uart_fifo app].
    rewrite acc_run_app, Hrun2. cbn [acc_run]. unfold acc_step.
    rewrite Z.eqb_refl.
    destruct (Nat.ltb_spec 0 (length d1 + length d2)) as [_|Hz].
    - rewrite Htake2, Htake1, take_0. cbn [app]. rewrite Hdec. reflexivity.
    - destruct d1, d2; simpl in *; try lia. congruence. }
  pose proof (receive_connected_first_read conn_id fuel (Some t2)
                (mk_rx c2 (now b + 10 * (t1 / 10 + 1)) (output b))
                buf2 0%nat text [] 0%nat) as Hsecond.
  cbn [conn] in Hsecond.
  assert (timed_out (Some t2) 0 = false) as Hto.
  { cbn. destruct (Z.gtb_spec 0 t2); [lia|]. apply andb_false_r. }
  specialize (Hsecond eq_refl).
  assert (single_read c2) as Hsingle.
  { destruct Hread as [Hr|[Hr1 Hr2]]; [left; exact Hr|right].
    subst c2 a1 c1. unfold absorbed.
    cbn [uart_fifo _rx_buffer set_uart_fifo app].
    rewrite !length_app, length_drop. cbn [length]. lia. }
  specialize (Hsecond Hsingle Hto Hrun).
  match goal with
  | |- receive _ _ _ (arrive _ _ ?x) = _ /\ _ => set (b1 := x)
  end.
  assert (_connections (arrive conn_id (d2 ++ [EOT]) b1) !! conn_id = Some c2)
    as Hc2.
  { unfold arrive, b1. cbn [_connections].
    rewrite lookup_alter_eq, lookup_insert_eq. reflexivity. }
  pose proof (receive_through_table _ conn_id c2 (S fuel) (Some t2) (Some text)
                _ Hc2 Hconn Hsecond) as Hcall2.
  split; [exact Hcall2|].
  cbn [_connections]. rewrite lookup_insert_eq. repeat split; reflexivity.
Qed.


Lemma fragmented_frame_is_reassembled_witness :
  exists b1 b2 c2,
    receive 5 (lit "primary") (Some 10)
      (arrive (lit "primary") (lit "SYNC:HEART") (primary_with []))
      = Some (None, b1) /\
    receive 5 (lit "primary") (Some 10)
      (arrive (lit "primary") (lit "BEAT:ts|1" ++ [EOT]) b1)
      = Some (Some (lit "SYNC:HEARTBEAT:ts|1"), b2) /\
    _connections b2 !! lit "primary" = Some c2 /\
    _pending_messages c2 = [] /\
    _msg_len c2 = 0%nat /\
    uart_fifo c2 = [].
Proof.
  apply (fragmented_frame_is_reassembled (primary_with []) (lit "primary")
           (new_connection (lit "primary") 0)
           (lit "SYNC:HEART") (lit "BEAT:ts|1") (lit "SYNC:HEARTBEAT:ts|1")
           10 10 5%nat).
  - vm_compute. reflexivity.
  - reflexivity.
  - reflexivity.
  - reflexivity.
  - reflexivity.
  - split; [by_computation|]. split; [discriminate|].
    split; [vm_compute; lia | vm_compute; reflexivity].
  - right. vm_compute. lia.
  - lia.
  - lia.
  - vm_compute. lia.
Defined.

End Fragments.

(** ** A frame that does not decode *)

Section Undecodable.
Import Ble.

Lemma feed_raises conn_id d1 : forall len buf1 len1 new1 ov1 rest s,
  acc_run (_msg_buffer (conn s)) len d1 = Some (buf1, len1, new1, ov1) ->
  acc_step buf1 len1 EOT = None ->
  feed conn_id (d1 ++ EOT :: rest) len s
    = Raised UnicodeError (upd conn_id buf1 new1 ov1 s).
Proof.
  induction d1 as [|byte d1 IH]; intros len buf1 len1 new1 ov1 rest s; cbn [app feed acc_run].
  - intros [= <- <- <- <-] Hstep. rewrite upd_same.
    unfold acc_step in Hstep. rewrite Z.eqb_refl in Hstep.
    unfold accumulate. cbv beta iota delta [bind get]. rewrite Z.eqb_refl.
    destruct (0 <? len)%nat; [|discriminate].
    destruct (utf8_decode (take len (_msg_buffer (conn s)))); [discriminate|].
    reflexivity.
  - destruct (acc_step _ len byte) as [[[[bufa lena] newa] ova]|] eqn:Hs; [|discriminate].
    destruct (acc_run bufa lena d1) as [[[[bufb lenb] newb] ovb]|] eqn:Hr; [|discriminate].
    intros [= <- <- <- <-] Hstep.
    unfold bind. rewrite (accumulate_step conn_id _ _ _ _ _ _ _ Hs).
    rewrite (IH lena bufb lenb newb ovb rest); [|exact Hr|exact Hstep].
    f_equal. apply upd_upd.
Qed.


Lemma receive_connected_undecodable conn_id fuel timeout s buf1 len1 new1 ov1 d1 rest :
  _pending_messages (conn s) = [] ->
  single_read (conn s) ->
  timed_out timeout 0 = false ->
  uart_fifo (conn s) = d1 ++ EOT :: rest ->
  acc_run (_msg_buffer (conn s)) (_msg_len (conn s)) d1
    = Some (buf1, len1, new1, ov1) ->
  acc_step buf1 len1 EOT = None ->
  receive_connected (S fuel) conn_id timeout s
    = Some (None,
            print (LogReceiveError conn_id UnicodeError)
              (upd conn_id buf1 new1 ov1
                 (mk_rx (set_rx_buffer
                           (uart_fifo (conn s)
                              ++ drop (length (uart_fifo (conn s)))
                                      (_rx_buffer (conn s)))
                           (set_uart_fifo [] (conn s)))
                    (clock s) (console s)))).
Proof.
  intros Hq Hsingle Hto Hfifo Hrun Hstep.
  unfold receive_connected. rewrite Hq.
  cbn [receive_loop]. rewrite Z.sub_diag, Hto.
  rewrite (read_uart_single s Hsingle).
  assert ((0 <? length (uart_fifo (conn s)))%nat = true) as ->.
  { rewrite Hfifo, length_app. cbn [length]. apply Nat.ltb_lt. lia. }
  cbv iota.
  rewrite process_bytes_feed.
  2:{ intros i Hi. cbn [conn _rx_buffer set_rx_buffer].
      rewrite lookup_app_l by exact Hi. reflexivity. }
  replace (feed conn_id (uart_fifo (conn s)))
    with (feed conn_id (d1 ++ EOT :: rest)) by (rewrite Hfifo; reflexivity).
  erewrite feed_raises; [reflexivity | cbn; exact Hrun | exact Hstep].
Qed.

(** Queued frames come out without a line on the console. *)
Lemma receive_calls_queued_quiet fuel conn_id timeout ts : forall b c rest,
  _connections b !! conn_id = Some c -> connected c = true ->
  _pending_messages c = ts ++ rest ->
  exists b' c',
    receive_calls (length ts) fuel conn_id timeout b = Some (Some <$> ts, b') /\
    _connections b' !! conn_id = Some c' /\
    connected c' = true /\
    _pending_messages c' = rest /\
    _msg_len c' = _msg_len c /\
    _msg_buffer c' = _msg_buffer c /\
    uart_fifo c' = uart_fifo c /\
    output b' = output b /\
    now b' = now b.
Proof.
  induction ts as [|t ts IH]; intros b c rest Hc Hconn Hq.
  - exists b, c. simpl. auto 10.
  - simpl in Hq |- *.
    rewrite (receive_through_table b conn_id c fuel timeout (Some t) _ Hc Hconn
               (receive_connected_queued conn_id fuel timeout
                  (mk_rx c (now b) (output b)) t (ts ++ rest) Hq)).
    match goal with
    | |- context [receive_calls _ _ _ _ ?b1] =>
        destruct (IH b1 (set_last_seen (now b) (set_pending_messages (ts ++ rest) c)) rest)
          as (b' & c' & Hrun & Hc' & Hconn' & Hq' & Hlen' & Hbuf' & Hfifo' & Hout & Hnow)
    end.
    + simpl. apply lookup_insert_eq.
    + exact Hconn.
    + reflexivity.
    + exists b', c'. simpl in *. rewrite Hrun. auto 10.
Qed.

(** X9.  A frame that is not valid UTF-8 is never delivered, and it
    takes with it what was read behind it.  When one read brings
    well-formed frames, then a frame that does not decode, then anything
    else, the call returns [None] and logs the error; the frames in front
    of the bad one are queued and come out of the next calls; everything
    behind it in that read, well-formed frames included, is lost. *)
Theorem undecodable_frame_is_dropped b conn_id c msgs texts bad rest timeout fuel :
  _connections b !! conn_id = Some c ->
  connected c = true ->
  _pending_messages c = [] ->
  _msg_len c = 0%nat ->
  uart_fifo c = wire msgs ++ bad ++ [EOT] ++ rest ->
  single_read c ->
  Forall2 (well_formed (length (_msg_buffer c))) msgs texts ->
  (EOT ∉ bad) -> bad <> [] ->
  (length bad <= length (_msg_buffer c))%nat ->
  utf8_decode bad = None ->
  (forall t, timeout = Some t -> 0 <= t) ->
  (0 < fuel)%nat ->
  exists b' c',
    receive_calls (S (length texts)) fuel conn_id timeout b
      = Some (None :: (Some <$> texts), b') /\
    _connections b' !! conn_id = Some c' /\
    _pending_messages c' = [] /\
    uart_fifo c' = [] /\
    _msg_len c' = 0%nat /\
    output b' = output b ++ [LogReceiveError conn_id UnicodeError].
Proof.
  intros Hc Hconn Hq Hlen Hfifo Hsingle Hwf Hno Hne Hfit Hdec Hto Hfuel.
  destruct fuel as [|fuel]; [lia|].
  destruct (acc_run_wire msgs texts (_msg_buffer c) Hwf) as (bufw & Hrunw & Hlenw).
  destruct (acc_run_payload bad bufw 0%nat Hno) as (buf1 & Hrun1 & Hlen1 & Htake1);
    [simpl; lia|].
  cbn [Nat.add] in Hrun1, Htake1. rewrite take_0 in Htake1. cbn [app] in Htake1.
  assert (acc_run (_msg_buffer c) (_msg_len c) (wire msgs ++ bad)
          = Some (buf1, length bad, texts, 0%nat)) as Hrun.
  { rewrite Hlen, acc_run_app, Hrunw, Hrun1, app_nil_r. reflexivity. }
  assert (acc_step buf1 (length bad) EOT = None) as Hstep.
  { unfold acc_step. rewrite Z.eqb_refl.
    destruct (Nat.ltb_spec 0 (length bad)) as [_|Hz].
    - rewrite Htake1, Hdec. reflexivity.
    - destruct bad; [congruence | simpl in Hz; lia]. }
  assert (timed_out timeout 0 = false) as Hto'.
  { destruct timeout as [t0|]; [|reflexivity]. simpl.
    specialize (Hto t0 eq_refl).
    destruct (Z.gtb_spec 0 t0); [lia|]. apply andb_false_r. }
  pose proof (receive_connected_undecodable conn_id fuel timeout
                (mk_rx c (now b) (output b)) buf1 (length bad) texts 0%nat
                (wire msgs ++ bad) rest) as Hfirst.
  cbn [conn clock console] in Hfirst.
  specialize (Hfirst Hq Hsingle Hto').
  rewrite <- app_assoc in Hfirst. specialize (Hfirst Hfifo Hrun Hstep).
  cbn [receive_calls].
  rewrite (receive_through_table b conn_id c (S fuel) timeout None _ Hc Hconn Hfirst).
  match goal with
  | |- context [receive_calls _ _ _ _ ?b1] =>
      destruct (receive_calls_queued_quiet (S fuel) conn_id timeout texts b1
                  (set_pending_messages texts
                     (set_msg_buffer buf1
                        (set_rx_buffer
                           (uart_fifo c ++ drop (length (uart_fifo c)) (_rx_buffer c))
                           (set_uart_fifo [] c)))) [])
        as (b' & c' & Hcalls & Hc' & _ & Hq' & Hlen' & _ & Hfifo' & Hout & _)
  end.
  - cbn. rewrite lookup_insert_eq, Hq. reflexivity.
  - exact Hconn.
  - cbn. rewrite app_nil_r. reflexivity.
  - rewrite Hcalls. exists b', c'. cbn in *.
    rewrite app_nil_r in Hout. rewrite Hlen', Hlen. auto 10.
Qed.


Lemma undecodable_frame_is_dropped_witness :
  exists b' c',
    receive_calls 2 1 (lit "primary") (Some 10)
      (primary_with (wire [lit "one"] ++ [255] ++ [EOT] ++ wire [lit "three"]))
      = Some (None :: (Some <$> [lit "one"]), b') /\
    _connections b' !! lit "primary" = Some c' /\
    _pending_messages c' = [] /\
    uart_fifo c' = [] /\
    _msg_len c' = 0%nat /\
    output b'
      = output (primary_with (wire [lit "one"] ++ [255] ++ [EOT]
                                ++ wire [lit "three"]))
          ++ [LogReceiveError (lit "primary") UnicodeError].
Proof.
  apply (undecodable_frame_is_dropped
           (primary_with (wire [lit "one"] ++ [255] ++ [EOT] ++ wire [lit "three"]))
           (lit "primary")
           (set_uart_fifo (wire [lit "one"] ++ [255] ++ [EOT] ++ wire [lit "three"])
              (new_connection (lit "primary") 0))
           [lit "one"] [lit "one"] [255] (wire [lit "three"]) (Some 10) 1%nat).
  - vm_compute. reflexivity.
  - reflexivity.
  - reflexivity.
  - reflexivity.
  - reflexivity.
  - right. vm_compute. lia.
  - apply Forall2_cons_2; [|apply Forall2_nil_2].
    split; [by_computation|]. split; [discriminate|].
    split; [vm_compute; lia | vm_compute; reflexivity].
  - by_computation.
  - discriminate.
  - vm_compute. lia.
  - reflexivity.
  - intros t [= <-]. lia.
  - lia.
Defined.

(** The third frame never comes out, however often the caller polls. *)
Example frame_behind_a_bad_one_is_lost :
  fst <$> receive_calls 4 5 (lit "primary") (Some 10)
            (primary_with (wire [lit "one"] ++ [255] ++ [EOT]
                             ++ wire [lit "three"]))
  = Some [None; Some (lit "one"); None; None].
Proof. vm_compute. reflexivity. Qed.

End Undecodable.

(** ** [receive] with a positive timeout returns *)

Section Bounded.
Import Ble.

Lemma accumulate_clock conn_id len byte s :
  match accumulate conn_id len byte s with
  | Returned _ s' | Raised _ s' => clock s' = clock s
  end.
Proof.
  unfold accumulate, bind, get, modify, raise, ret.
  repeat (match goal with |- context [if ?c then _ else _] => destruct c end
          || match goal with |- context [utf8_decode ?x] => destruct (utf8_decode x) end);
    reflexivity.
Qed.

Lemma process_bytes_clock conn_id range : forall len s,
  match process_bytes conn_id range len s with
  | Returned _ s' | Raised _ s' => clock s' = clock s
  end.
Proof.
  induction range as [|i range IH]; intros len s; simpl; [reflexivity|].
  unfold bind at 1. unfold process_byte. unfold bind at 1. unfold get.
  destruct (_rx_buffer (conn s) !! i) as [byte|]; [|reflexivity].
  pose proof (accumulate_clock conn_id len byte s) as Hstep.
  destruct (accumulate conn_id len byte s) as [len' s'|e s']; [|exact Hstep].
  specialize (IH len' s').
  destruct (process_bytes conn_id range len' s'); congruence.
Qed.

Lemma receive_loop_returns conn_id t start (n : nat) : forall fuel len s,
  0 < t ->
  t - (clock s - start) < 10 * Z.of_nat n ->
  (n < fuel)%nat ->
  exists o, receive_loop fuel conn_id (Some t) start len s = Some o /\
            clock s <= final_clock o <= clock s + 10 * Z.of_nat n.
Proof.
  induction n as [|n IH]; intros fuel len s Ht Hlt Hfuel;
    (destruct fuel as [|fuel]; [lia|]); cbn [receive_loop timed_out];
    destruct (Z.eqb_spec t 0); try lia.
  - destruct (Z.gtb_spec (clock s - start) t); [|lia]. cbn [negb andb].
    eexists; split; [reflexivity|]. cbn [final_clock]. lia.
  - destruct (Z.gtb_spec (clock s - start) t); cbn [negb andb].
    { eexists; split; [reflexivity|]. cbn [final_clock]. lia. }
    assert (forall len' s', clock s' = clock s ->
              exists o, receive_loop fuel conn_id (Some t) start len' (sleep 10 s')
                          = Some o /\
                        clock s <= final_clock o <= clock s + 10 * Z.of_nat (S n))
      as Hnext.
    { intros len' s' Hclk.
      destruct (IH fuel len' (sleep 10 s')) as (o & Ho & Hb).
      - exact Ht.
      - cbn [sleep clock]. lia.
      - lia.
      - exists o. split; [exact Ho|]. cbn [sleep clock] in Hb. lia. }
    destruct (0 <? length (uart_fifo (conn s)))%nat; [|apply Hnext; reflexivity].
    destruct (read_uart s) as [bytes_read s1] eqn:Hread.
    assert (clock s1 = clock s) as Hc1.
    { unfold read_uart in Hread. injection Hread as _ <-. reflexivity. }
    destruct (0 <? bytes_read)%nat; [|apply Hnext; exact Hc1].
    pose proof (process_bytes_clock conn_id (seq 0 bytes_read) len s1) as Hp.
    destruct (process_bytes conn_id (seq 0 bytes_read) len s1) as [len' s2|e s2].
    + destruct (_pending_messages (conn (on_conn (set_msg_len len') s2)))
        as [|message rest] eqn:Hq.
      * apply Hnext. cbn [on_conn clock]. congruence.
      * eexists; split; [reflexivity|].
        cbn [final_clock update_last_seen on_conn clock]. lia.
    + eexists; split; [reflexivity|]. cbn [final_clock]. lia.
Qed.

(** X10.  A call of [receive] with a positive timeout of [t] ms returns
    whatever the link holds: after at most [floor(t/10) + 2] turns of
    its loop, and with the clock advanced by at most [10 * (floor(t/10)
    + 1)] ms. *)
Theorem receive_returns_within_timeout b conn_id t fuel :
  0 < t ->
  (Z.to_nat (t / 10) + 1 < fuel)%nat ->
  exists r b',
    receive fuel conn_id (Some t) b = Some (r, b') /\
    now b <= now b' <= now b + 10 * (t / 10 + 1).
Proof.
  intros Ht Hfuel. pose proof (Z.div_pos t 10).
  unfold receive.
  destruct (_connections b !! conn_id) as [c|];
    [|eexists _, _; split; [reflexivity|]; cbn [now]; lia].
  destruct (connected c); cbn [negb];
    [|eexists _, _; split; [reflexivity|]; cbn [now]; lia].
  unfold receive_connected. cbn [conn clock].
  destruct (_pending_messages c) as [|message rest].
  - destruct (receive_loop_returns conn_id t (now b) (Z.to_nat (t / 10) + 1)
                fuel (_msg_len c) (mk_rx c (now b) (output b)))
      as (o & -> & Hb).
    + exact Ht.
    + cbn [clock]. pose proof (Z.div_mod t 10). pose proof (Z.mod_pos_bound t 10). lia.
    + exact Hfuel.
    + cbn [clock] in Hb.
      destruct o as [r s'|e s']; eexists _, _; (split; [reflexivity|]);
        cbn [now final_clock print clock] in *; lia.
  - eexists _, _; split; [reflexivity|].
    cbn [now update_last_seen on_conn clock]. lia.
Qed.

Lemma receive_returns_within_timeout_witness :
  let b := arrive (lit "secondary") (lit "SYNC:HEART") (BleOps.ble example_radio) in
  exists r b',
    receive 3 (lit "secondary") (Some 10) b = Some (r, b') /\
    now b <= now b' <= now b + 10 * (10 / 10 + 1).
Proof.
  apply receive_returns_within_timeout; [lia | vm_compute; lia].
Defined.

End Bounded.

(** ** EXECUTE_BUZZ with fields that are not numbers *)

Section Malformed.
Import App.

Lemma effects_app tr1 tr2 : effects (tr1 ++ tr2) = effects tr1 ++ effects tr2.
Proof. unfold effects. apply omap_app. Qed.





(** The same with a timestamp that is a text: the sequence number is
    taken in, the fingers are not activated. *)
Example buzz_with_a_text_timestamp :
  let a' := _handle_sync_command quiet_env
              (lit "SYNC:EXECUTE_BUZZ:left_finger|1|seq|4|timestamp|now")
              example_secondary in
  _last_received_seq a' = 4 /\ effects (trace a') = [] /\
  trace a' = [error_line].
Proof. vm_compute. auto. Qed.

End Malformed.

(** ** DEACTIVATE *)

Section Deactivate.
Import App.

(** X12.  DEACTIVATE asks the haptic driver to stop the left finger and
    then the right one (finger 0 where the key is missing) under one
    handler: when the first call raises, the second is not made, and
    with no driver attached neither is; each failure is reported by a
    line "[ERROR] Failed to deactivate", and nothing else is called. *)
Theorem deactivate_stops_at_first_failure env message data_str data ts a :
  split_message message = Some (lit "DEACTIVATE", data_str) ->
  parse_data data_str = (data, ts) ->
  let a' := _handle_sync_command env message a in
  let left := HapticDeactivate (dict_get data (lit "left_finger") (VInt 0)) in
  let right := HapticDeactivate (dict_get data (lit "right_finger") (VInt 0)) in
  let r1 := respond env (clock a) left in
  let t1 := clock a + Z.of_nat (takes r1) in
  let r2 := respond env t1 right in
  effects (trace a')
    = effects (trace a)
        ++ (if haptic_controller a then
              if raises r1 then [Called left (clock a) r1]
              else [Called left (clock a) r1; Called right t1 r2]
            else []) /\
  last (trace a')
    = Some (if negb (haptic_controller a) || raises r1 || raises r2
            then Print "[ERROR] Failed to deactivate: {}" []
            else Called right t1 r2).
Proof.
  intros Hsplit Hparse. cbv zeta.
  unfold _handle_sync_command. rewrite Hsplit.
  unfold debug, dispatch.
  cbv beta iota delta [bind print modify get try_except ret].
  rewrite Hparse.
  replace (pystr_eqb (lit "DEACTIVATE") (lit "EXECUTE_BUZZ")) with false
    by (vm_compute; reflexivity).
  rewrite pystr_eqb_refl.
  generalize (dict_get data (lit "left_finger") (VInt 0)).
  generalize (dict_get data (lit "right_finger") (VInt 0)).
  intros right_finger left_finger.
  unfold haptic, call.
  cbv beta iota zeta delta [bind print modify get try_except ret raise].
  destruct a as [rl cf st hc te ss sc pc prc hb ls mc lsc clk tr].
  destruct (DEBUG_ENABLED env), hc;
    cbn [haptic_controller clock trace emit set_clock
         set_last_sync_command_received negb orb];
    set (r1 := respond env clk (HapticDeactivate left_finger));
    try (destruct (raises r1) eqn:E1;
         cbn [haptic_controller clock trace emit set_clock
              set_last_sync_command_received negb orb];
         set (r2 := respond env (clk + Z.of_nat (takes r1))
                      (HapticDeactivate right_finger));
         try (destruct (raises r2) eqn:E2;
              cbn [haptic_controller clock trace emit set_clock
                   set_last_sync_command_received negb orb]));
    rewrite ?last_snoc, ?effects_app; unfold effects;
    cbn [omap list_omap app]; rewrite ?app_nil_r, <- ?app_assoc;
    split; reflexivity.
Qed.

Lemma deactivate_stops_at_first_failure_witness :
  let env := mk_env false (fun _ => false)
               (fun _ c => mk_reply match c with
                                    | HapticDeactivate (VInt 1) => true
                                    | _ => false
                                    end 1500 false) in
  let a := example_secondary in
  let a' := _handle_sync_command env
              (lit "SYNC:DEACTIVATE:left_finger|1|right_finger|2") a in
  let left := HapticDeactivate (VInt 1) in
  let right := HapticDeactivate (VInt 2) in
  let r1 := respond env (clock a) left in
  let t1 := clock a + Z.of_nat (takes r1) in
  let r2 := respond env t1 right in
  effects (trace a') = effects (trace a) ++ [Called left (clock a) r1] /\
  last (trace a') = Some (Print "[ERROR] Failed to deactivate: {}" []).
Proof.
  exact (deactivate_stops_at_first_failure
           (mk_env false (fun _ => false)
              (fun _ c => mk_reply match c with
                                   | HapticDeactivate (VInt 1) => true
                                   | _ => false
                                   end 1500 false))
           (lit "SYNC:DEACTIVATE:left_finger|1|right_finger|2")
           (lit "left_finger|1|right_finger|2")
           [(lit "left_finger", VInt 1); (lit "right_finger", VInt 2)] None
           example_secondary eq_refl eq_refl).
Defined.

End Deactivate.

(** ** The sample an EXECUTE_BUZZ leaves in the statistics *)

Section Timing.
Import App.










(** A command stamped 4200 us and received at 5000 us, with two
    activations of 1.5 us each: the sample is (800, 3, 3). *)
Example one_buzz_one_sample :
  let a' := _handle_sync_command quiet_env
              (lit "SYNC:EXECUTE_BUZZ:left_finger|1|right_finger|2|seq|0|timestamp|4200")
              example_secondary in
  sync_stats a'
    = Some (SyncStats.mk 200 [800] [3] [3] 1 (Some 5003000)).
Proof. vm_compute. reflexivity. Qed.

End Timing.

(** ** From the PRIMARY's command to the SECONDARY's motors *)

Section Pump.
Import Ble BleOps.










(** The scenario run: the SECONDARY that finds the frame activates
    finger 2 twice at amplitude 75. *)
Example buzz_over_the_link :
  let p' := Node.send_sync_command quiet_env open_link (lit "EXECUTE_BUZZ")
              example_buzz_data primary_node in
  let bytes := written (lit "secondary") (uart_calls (Node.radio p')) in
  (fun s' => omap activation (App.trace (Node.app s')))
    <$> Node._process_connection_messages 3 quiet_env echo_menu
          (lit "primary") (lit "primary") (secondary_node bytes)
  = Some [App.HapticActivate (VInt 2) (VInt 75);
          App.HapticActivate (VInt 2) (VInt 75)].
Proof. vm_compute. reflexivity. Qed.

End Pump.

(** ** The queue of responses *)

Section Queue.
Import Ble BleOps.

Lemma is_connected_alter f conn_id conn_id' tbl now out now' out' :
  (forall c, connected (f c) = connected c) ->
  is_connected conn_id' (mk_ble (alter f conn_id tbl) now out)
    = is_connected conn_id' (mk_ble tbl now' out').
Proof.
  intros Hf. unfold is_connected. cbn [_connections].
  destruct (decide (conn_id = conn_id')) as [->|Hne].
  - rewrite lookup_alter_eq. destruct (tbl !! conn_id'); [apply Hf|reflexivity].
  - rewrite lookup_alter_ne by exact Hne. reflexivity.
Qed.

Lemma send_calls DEBUG_ENABLED link conn_id message s :
  uart_calls (snd (send DEBUG_ENABLED link conn_id message s))
    = uart_calls s ++ delivered link (ble s) (conn_id, message) /\
  (forall conn_id',
     is_connected conn_id' (ble (snd (send DEBUG_ENABLED link conn_id message s)))
       = is_connected conn_id' (ble s)) /\
  link_disconnects (snd (send DEBUG_ENABLED link conn_id message s))
    = link_disconnects s.
Proof.
  unfold send, delivered, is_connected at 1.
  destruct (_connections (ble s) !! conn_id) as [c|] eqn:Hc;
    [|cbn; rewrite app_nil_r; auto].
  destruct (connected c) eqn:Hconn; cbn [negb];
    [|cbn; rewrite app_nil_r; auto].
  unfold send_body.
  destruct (utf8_encode (message ++ [EOT])) as [data_bytes|];
    [|cbn; rewrite app_nil_r; auto].
  destruct s as [[tbl t0 out0] calls discs cons].
  destruct DEBUG_ENABLED, (write_raises link conn_id data_bytes),
    (has_flush link conn_id), (flush_raises link conn_id),
    (has_reset_input_buffer link conn_id);
    cbn [debug bind modify ret raise print ask on_ble snd
         ble uart_calls link_disconnects console _connections now output];
    rewrite <- ?app_assoc; cbn [app];
    (split; [reflexivity|]); (split; [|reflexivity]);
    intros conn_id'; try reflexivity;
    apply is_connected_alter; reflexivity.
Qed.

Lemma delivered_ext link b b' entry :
  (forall conn_id, is_connected conn_id b' = is_connected conn_id b) ->
  delivered link b' entry = delivered link b entry.
Proof. intros H. destruct entry as [c d]. unfold delivered. rewrite H. reflexivity. Qed.

Lemma send_queued_run rounds env link : forall n,
  let n' := Node.send_queued rounds env link n in
  Node.message_queue n' = drop rounds (Node.message_queue n) /\
  Node.app n' = Node.app n /\
  uart_calls (Node.radio n')
    = uart_calls (Node.radio n)
        ++ flat_map (delivered link (ble (Node.radio n)))
             (take rounds (Node.message_queue n)) /\
  (forall conn_id,
     is_connected conn_id (ble (Node.radio n'))
       = is_connected conn_id (ble (Node.radio n))) /\
  link_disconnects (Node.radio n') = link_disconnects (Node.radio n).
Proof.
  induction rounds as [|rounds IH]; intros n; cbv zeta.
  - cbn. rewrite app_nil_r. auto.
  - cbn [Node.send_queued].
    destruct (Node.message_queue n) as [|[connection data] rest] eqn:Hq.
    { cbn. rewrite Hq, app_nil_r. auto. }
    unfold Node.ble_send. cbn [Node.app Node.radio Node.message_queue].
    set (r0 := Node.at_app_time (Node.mk (Node.app n) (Node.radio n) rest)).
    pose proof (send_calls (App.DEBUG_ENABLED env) link connection data r0)
      as (Hcalls & Hconn & Hdisc).
    destruct (send (App.DEBUG_ENABLED env) link connection data r0) as [ok r1].
    cbn [snd] in Hcalls, Hconn, Hdisc.
    specialize (IH (Node.mk (Node.app n) r1 rest)). cbv zeta in IH.
    destruct IH as (IHq & IHa & IHc & IHconn & IHd).
    cbn [Node.app Node.radio Node.message_queue] in IHq, IHa, IHc, IHconn, IHd.
    assert (forall conn_id,
              is_connected conn_id (ble r0)
                = is_connected conn_id (ble (Node.radio n))) as H0.
    { intros conn_id. reflexivity. }
    split; [exact IHq|]. split; [exact IHa|]. split; [|split].
    + rewrite IHc, Hcalls. cbn [take flat_map]. rewrite <- app_assoc.
      f_equal. apply (f_equal2 app); [apply delivered_ext, H0|].
      apply flat_map_ext. intros e. apply delivered_ext.
      intros conn_id. rewrite Hconn. apply H0.
    + intros conn_id. rewrite IHconn, Hconn. apply H0.
    + rewrite IHd, Hdisc. reflexivity.
Qed.

(** X15.  [_process_message_queue] takes the five oldest responses off
    the queue (all of them when there are fewer) and hands each to
    [BLE.send] in queue order; what it takes is gone from the queue
    whether or not it could be sent: nothing is written for a
    connection that is absent or not connected. *)
Theorem queue_drains_five_at_a_time env link n :
  let n' := Node._process_message_queue env link n in
  Node.message_queue n' = drop 5 (Node.message_queue n) /\
  Node.app n' = Node.app n /\
  uart_calls (Node.radio n')
    = uart_calls (Node.radio n)
        ++ flat_map (delivered link (ble (Node.radio n)))
             (take 5 (Node.message_queue n)).
Proof.
  pose proof (send_queued_run 5 env link n) as H. cbv zeta in H |- *.
  unfold Node._process_message_queue. tauto.
Qed.

(** Six responses queued, the third for a connection that is not in
    the table: one call writes four frames, drops the third response
    and leaves the sixth. *)
Example five_of_six :
  let n := Node.mk (Node.app (phone_node [])) (Node.radio (phone_node []))
             example_queue in
  let n' := Node._process_message_queue quiet_env open_link n in
  Node.message_queue n' = [(lit "phone", lit "F")] /\
  written (lit "phone") (uart_calls (Node.radio n'))
    = on_the_wire [lit "A"; lit "B"; lit "D"; lit "E"] /\
  written (lit "tablet") (uart_calls (Node.radio n')) = [].
Proof. vm_compute. auto. Qed.

Lemma receive_whole_frame fuel conn_id timeout b c message :
  _connections b !! conn_id = Some c ->
  connected c = true ->
  _pending_messages c = [] ->
  _msg_len c = 0%nat ->
  length (_msg_buffer c) = 512%nat ->
  single_read c ->
  (forall t0, timeout = Some t0 -> 0 <= t0) ->
  (0 < fuel)%nat ->
  sendable message ->
  uart_fifo c = on_the_wire [message] ->
  exists c',
    receive fuel conn_id timeout b
      = Some (Some message,
              mk_ble (<[conn_id := c']> (_connections b)) (now b) (output b)) /\
    connected c' = true /\ uart_fifo c' = [] /\ _pending_messages c' = [].
Proof.
  intros Hc Hconn Hq Hlen Hbuf Hsingle Hto Hfuel Hm Hfifo.
  destruct (sendable_well_formed message Hm) as (payload & Henc & Hwf).
  rewrite <- Hbuf in Hwf.
  destruct (acc_run_wire [payload] [message] (_msg_buffer c)) as (buf' & Hacc & _).
  { repeat constructor; apply Hwf. }
  destruct fuel as [|fuel]; [lia|].
  assert (timed_out timeout 0 = false) as Hto'.
  { destruct timeout as [t0|]; [|reflexivity]. simpl.
    specialize (Hto t0 eq_refl).
    destruct (Z.gtb_spec 0 t0); [lia|]. apply andb_false_r. }
  pose proof (receive_connected_first_read conn_id fuel timeout
                (mk_rx c (now b) (output b)) buf' 0%nat message [] 0%nat) as Hfirst.
  cbn [conn] in Hfirst. specialize (Hfirst Hq Hsingle Hto').
  rewrite Hlen, Hfifo in Hfirst. unfold on_the_wire in Hfirst.
  cbn [fmap list_fmap] in Hfirst. rewrite Henc in Hfirst.
  specialize (Hfirst Hacc).
  pose proof (receive_through_table b conn_id c (S fuel) timeout (Some message)
                _ Hc Hconn Hfirst) as Hrecv.
  unfold after_read in Hrecv.
  cbn [conn clock console replicate] in Hrecv.
  rewrite app_nil_r in Hrecv.
  eexists. split; [exact Hrecv|]. cbn. auto.
Qed.

(** X16.  A command is answered.  When a whole frame waits on a
    connection and it is not a SYNC message on the connection of type
    "primary", [_process_connection_messages] gives its text to the menu
    and queues the menu's response for the same connection; the next
    [_process_message_queue] writes that response as one frame to the
    connection and leaves the queue empty. *)
Theorem command_is_answered env link menu connection connection_type
    message response payload n fuel :
  waiting connection (on_the_wire [message]) n ->
  sendable message ->
  connection_type <> lit "primary" \/ startswith message (lit "SYNC:") = false ->
  (forall a, exists a', Node.handle_command menu message a = Returned response a') ->
  utf8_encode response = Some payload ->
  link_up link connection ->
  Node.message_queue n = [] ->
  (0 < fuel)%nat ->
  exists n1,
    Node._process_connection_messages fuel env menu connection connection_type n
      = Some n1 /\
    Node.message_queue n1 = [(connection, response)] /\
    let n2 := Node._process_message_queue env link n1 in
    Node.message_queue n2 = [] /\
    written connection (uart_calls (Node.radio n2))
      = written connection (uart_calls (Node.radio n)) ++ payload ++ [EOT].
Proof.
  intros (c & Hc & Hconn & Hq & Hlen & Hbuf & Hfifo & Hsingle) Hm Hroute Hmenu
    Henc [Hw Hf] Hqueue Hfuel.
  destruct (receive_whole_frame fuel connection (Some 10)
              (ble (Node.at_app_time n)) c message) as (c' & Hrecv & Hconn' & _);
    try assumption.
  { intros t0 [= <-]. lia. }
  unfold Node._process_connection_messages, Node.ble_receive.
  rewrite Hrecv.
  assert (pystr_eqb connection_type (lit "primary")
          && startswith message (lit "SYNC:") = false) as ->.
  { destruct Hroute as [Hne| ->]; [|apply andb_false_r].
    apply pystr_eqb_neq in Hne. rewrite Hne. reflexivity. }
  match goal with |- context [Node.handle_command menu message ?a] =>
    destruct (Hmenu a) as (a' & ->)
  end.
  eexists. split; [reflexivity|].
  assert (forall n1,
            Node.message_queue n1 = [(connection, response)] ->
            uart_calls (Node.radio n1) = uart_calls (Node.radio n) ->
            is_connected connection (ble (Node.radio n1)) = true ->
            Node.message_queue n1 = [(connection, response)] /\
            let n2 := Node._process_message_queue env link n1 in
            Node.message_queue n2 = [] /\
            written connection (uart_calls (Node.radio n2))
              = written connection (uart_calls (Node.radio n)) ++ payload ++ [EOT])
    as Hsend.
  { intros n1 Hq1 Hcalls1 Hconn1. split; [exact Hq1|]. cbv zeta.
    pose proof (send_queued_run 5 env link n1) as (Hq2 & _ & Hcalls2 & _).
    unfold Node._process_message_queue.
    rewrite Hq2, Hcalls2, Hq1, Hcalls1. split; [reflexivity|].
    cbn [take flat_map delivered]. rewrite Hconn1.
    rewrite (utf8_encode_app response [EOT] payload [EOT] Henc eq_refl).
    rewrite Hw, app_nil_r, written_app, written_send. reflexivity. }
  assert (is_connected connection
            (mk_ble (<[connection := c']> (_connections (ble (Node.at_app_time n))))
               (now (ble (Node.at_app_time n)))
               (output (ble (Node.at_app_time n)))) = true) as Hup.
  { unfold is_connected. cbn [_connections]. rewrite lookup_insert_eq. exact Hconn'. }
  destruct (App.DEBUG_ENABLED env); apply Hsend;
    cbn [Node.message_queue Node.radio Node.print Node.on_app on_ble ble
         uart_calls Node.at_app_time];
    first [rewrite Hqueue; reflexivity | reflexivity | exact Hup].
Qed.

Lemma command_is_answered_witness :
  let n := phone_node (on_the_wire [lit "SYNC:HEARTBEAT:ts|100"]) in
  exists n1,
    Node._process_connection_messages 3 quiet_env echo_menu (lit "phone")
      (lit "phone") n = Some n1 /\
    Node.message_queue n1 = [(lit "phone", lit "OK:SYNC:HEARTBEAT:ts|100")] /\
    let n2 := Node._process_message_queue quiet_env open_link n1 in
    Node.message_queue n2 = [] /\
    written (lit "phone") (uart_calls (Node.radio n2))
      = written (lit "phone") (uart_calls (Node.radio n))
          ++ lit "OK:SYNC:HEARTBEAT:ts|100" ++ [EOT].
Proof.
  apply (command_is_answered quiet_env open_link echo_menu (lit "phone")
           (lit "phone") (lit "SYNC:HEARTBEAT:ts|100")
           (lit "OK:SYNC:HEARTBEAT:ts|100") (lit "OK:SYNC:HEARTBEAT:ts|100")
           (phone_node (on_the_wire [lit "SYNC:HEARTBEAT:ts|100"])) 3).
  - eexists. split; [vm_compute; reflexivity|].
    repeat split; try reflexivity. right. vm_compute. lia.
  - split; [discriminate|]. split; [by_computation|].
    eexists. split; [vm_compute; reflexivity | simpl; lia].
  - left. discriminate.
  - intros a. eexists. reflexivity.
  - vm_compute. reflexivity.
  - split; [intros d|]; reflexivity.
  - reflexivity.
  - lia.
Defined.

End Queue.

(** ** The heartbeat watchdog *)

Section Watchdog.
Import App.






End Watchdog.

(** ** One frame per poll *)

Section Polling.
Import Ble BleOps.

Lemma obs_conn_emit e a : obs_conn (App.emit e a) = obs_conn a.
Proof. reflexivity. Qed.

Lemma dispatch_keeps_conn env t command_type data ts :
  keeps obs_conn (App.dispatch env t command_type data ts).
Proof.
  unfold App.dispatch, App.execute_buzz, App.track_sequence,
    App.network_latency, App.activate_fingers, App.record_timing.
  footprint obs_conn_emit.
Qed.

Lemma handle_sync_keeps_conn env message a :
  obs_conn (App._handle_sync_command env message a) = obs_conn a.
Proof.
  unfold App._handle_sync_command.
  apply (handler_ends_in _ a (fun a' => obs_conn a' = obs_conn a)).
  apply keeps_bind; [footprint obs_conn_emit|intros _].
  apply keeps_try_except; [|intros e; footprint obs_conn_emit].
  destruct (App.split_message message) as [[command_type data_str]|];
    [|footprint obs_conn_emit].
  apply keeps_bind; [footprint obs_conn_emit|intros a0].
  apply keeps_bind; [footprint obs_conn_emit|intros _].
  apply keeps_bind; [footprint obs_conn_emit|intros _].
  destruct (App.parse_data data_str) as [data ts].
  apply dispatch_keeps_conn.
Qed.

Lemma set_clock_same a : App.set_clock (App.clock a) a = a.
Proof. destruct a. reflexivity. Qed.

Lemma on_the_wire_wire messages :
  Forall sendable messages ->
  exists payloads,
    on_the_wire messages = wire payloads /\
    Forall2 (well_formed 512) payloads messages.
Proof.
  induction 1 as [|m messages Hm _ (payloads & Hwire & Hwf)].
  - exists []. split; [reflexivity|constructor].
  - destruct (sendable_well_formed m Hm) as (payload & Henc & Hp).
    exists (payload :: payloads). split; [|constructor; assumption].
    unfold on_the_wire, wire in *. cbn [fmap list_fmap concat].
    rewrite Henc, Hwire. reflexivity.
Qed.

Lemma listening_handled env connection a message :
  listening connection a -> listening connection (handled env connection a message).
Proof.
  intros [Hne Hobs]. split; [exact Hne|]. unfold handled.
  rewrite handle_sync_keeps_conn. exact Hobs.
Qed.

(** One turn of the poll on a SECONDARY for whose connection
    [BLE.receive] has a SYNC message at once. *)
Lemma poll_delivers fuel env menu connection n c message c' :
  listening connection (Node.app n) ->
  _connections (ble (Node.radio n)) !! connection = Some c ->
  connected c = true ->
  startswith message (lit "SYNC:") = true ->
  receive fuel connection (Some 10) (ble (Node.at_app_time n))
    = Some (Some message,
            mk_ble (<[connection := c']> (_connections (ble (Node.radio n))))
              (now (ble (Node.at_app_time n))) (output (ble (Node.radio n)))) ->
  exists r',
    Node._process_incoming_ble_messages fuel env menu n
      = Some (Node.mk (handled env connection (Node.app n) message) r'
                (Node.message_queue n)) /\
    _connections (ble r') = <[connection := c']> (_connections (ble (Node.radio n))).
Proof.
  intros [Hne Hobs] Hc Hconn Hsync Hrecv.
  unfold obs_conn in Hobs. injection Hobs as Hrole Hphone Hprim Hsec.
  destruct connection as [|c0 connection]; [contradiction|].
  unfold Node._process_incoming_ble_messages, Node.poll_phone.
  rewrite Hphone. unfold Node.poll_primary. rewrite Hprim, Hrole.
  assert (Node.ble_is_connected (c0 :: connection) n = true) as Hup.
  { unfold Node.ble_is_connected, is_connected. rewrite Hc. exact Hconn. }
  rewrite Hup.
  assert (forall text args,
            Node.ble_is_connected (c0 :: connection) (Node.print text args n) = true)
    as -> by (intros; exact Hup).
  unfold Node._process_connection_messages, Node.ble_receive.
  change (Node.at_app_time (Node.print _ _ n)) with (Node.at_app_time n).
  rewrite Hrecv.
  rewrite pystr_eqb_refl, Hsync. cbn [andb].
  unfold Node.poll_secondary.
  cbn [Node.app Node.on_app Node.print Node.radio Node.message_queue
       Node.at_app_time on_ble ble now].
  rewrite Z.sub_diag, Z.mul_0_l, Z.add_0_r, set_clock_same.
  fold (handled env (c0 :: connection) (Node.app n) message).
  pose proof (listening_handled env (c0 :: connection) (Node.app n) message
                (conj Hne (f_equal2 pair (f_equal2 pair (f_equal2 pair Hrole Hphone) Hprim) Hsec)))
    as [_ Hobs'].
  unfold obs_conn in Hobs'. injection Hobs' as _ _ _ ->.
  eexists. split; [reflexivity|]. reflexivity.
Qed.

Lemma polls_queued fuel env menu connection messages : forall n c rest,
  listening connection (Node.app n) ->
  _connections (ble (Node.radio n)) !! connection = Some c ->
  connected c = true ->
  _pending_messages c = messages ++ rest ->
  Forall (fun m => startswith m (lit "SYNC:") = true) messages ->
  exists n' c',
    polls (length messages) fuel env menu n = Some n' /\
    Node.app n' = foldl (handled env connection) (Node.app n) messages /\
    Node.message_queue n' = Node.message_queue n /\
    _connections (ble (Node.radio n')) !! connection = Some c' /\
    connected c' = true /\
    _pending_messages c' = rest.
Proof.
  induction messages as [|m messages IH]; intros n c rest Hl Hc Hconn Hq Hall.
  - exists n, c. cbn [length polls foldl]. cbn [app] in Hq. auto 10.
  - apply Forall_cons in Hall as [Hm Hall]. cbn [length polls foldl].
    pose proof (receive_through_table (ble (Node.at_app_time n)) connection c
                  fuel (Some 10) (Some m) _ Hc Hconn
                  (receive_connected_queued connection fuel (Some 10)
                     (mk_rx c (now (ble (Node.at_app_time n)))
                        (output (ble (Node.at_app_time n))))
                     m (messages ++ rest) Hq)) as Hrecv.
    cbn [update_last_seen on_conn conn clock console] in Hrecv.
    destruct (poll_delivers fuel env menu connection n c m _ Hl Hc Hconn Hm Hrecv)
      as (r' & -> & Htbl).
    match goal with |- context [polls _ _ _ _ ?n1] =>
      destruct (IH n1 (set_last_seen (now (ble (Node.at_app_time n)))
                         (set_pending_messages (messages ++ rest) c)) rest)
        as (n' & c' & Hrun & Happ & Hqueue & Hc' & Hconn' & Hq')
    end.
    + apply listening_handled, Hl.
    + cbn [Node.radio]. rewrite Htbl. apply lookup_insert_eq.
    + exact Hconn.
    + reflexivity.
    + exact Hall.
    + exists n', c'. rewrite Hrun. auto 10.
Qed.

(** X18.  One frame per poll.  On a SECONDARY whose only connection is
    the one to the PRIMARY, when SYNC messages wait on that connection
    in one read, each turn of [_process_incoming_ble_messages] takes
    exactly one of them, in the order they were sent, prints the two
    lines of the poll and gives the message to [_handle_sync_command]:
    after [k] turns the application is what handling the first [k]
    messages makes of it, and no response has been queued. *)
Theorem one_frame_per_poll env menu connection n messages k fuel :
  listening connection (Node.app n) ->
  waiting connection (on_the_wire messages) n ->
  Forall sync_frame messages ->
  (0 < fuel)%nat ->
  (k <= length messages)%nat ->
  exists n',
    polls k fuel env menu n = Some n' /\
    Node.app n' = foldl (handled env connection) (Node.app n) (take k messages) /\
    Node.message_queue n' = Node.message_queue n.
Proof.
  intros Hl (c & Hc & Hconn & Hq & Hlen & Hbuf & Hfifo & Hsingle) Hall Hfuel Hk.
  destruct k as [|k]; [exists n; auto|].
  destruct messages as [|m messages]; [cbn in Hk; lia|].
  cbn [length] in Hk. cbn [polls take foldl].
  apply Forall_cons in Hall as [[Hm Hsend] Hall].
  destruct (on_the_wire_wire (m :: messages)) as (payloads & Hwire & Hwf).
  { constructor; [exact Hsend|]. eapply Forall_impl; [exact Hall|].
    intros x Hx. apply Hx. }
  rewrite <- Hbuf in Hwf.
  destruct (acc_run_wire payloads (m :: messages) (_msg_buffer c) Hwf)
    as (buf' & Hacc & _).
  destruct fuel as [|fuel]; [lia|].
  pose proof (receive_connected_first_read connection fuel (Some 10)
                (mk_rx c (now (ble (Node.at_app_time n)))
                   (output (ble (Node.at_app_time n))))
                buf' 0%nat m messages 0%nat) as Hfirst.
  cbn [conn] in Hfirst. rewrite Hlen, Hfifo, Hwire in Hfirst.
  specialize (Hfirst Hq Hsingle eq_refl Hacc).
  pose proof (receive_through_table (ble (Node.at_app_time n)) connection c
                (S fuel) (Some 10) (Some m) _ Hc Hconn Hfirst) as Hrecv.
  unfold after_read in Hrecv. cbn [conn clock console replicate] in Hrecv.
  rewrite app_nil_r in Hrecv.
  destruct (poll_delivers (S fuel) env menu connection n c m _ Hl Hc Hconn Hm Hrecv)
    as (r' & -> & Htbl).
  match goal with |- context [polls _ _ _ _ ?n1] =>
    match type of Htbl with _ = <[_ := ?c1]> _ =>
      destruct (polls_queued (S fuel) env menu connection (take k messages)
                  n1 c1 (drop k messages))
        as (n' & c' & Hrun & Happ & Hqueue & _)
    end
  end.
  - apply listening_handled, Hl.
  - cbn [Node.radio]. rewrite Htbl. apply lookup_insert_eq.
  - exact Hconn.
  - cbn [_pending_messages]. symmetry. apply take_drop.
  - apply Forall_take. eapply Forall_impl; [exact Hall|]. intros x Hx. apply Hx.
  - rewrite length_take, Nat.min_l in Hrun by lia.
    exists n'. rewrite Hrun. auto.
Qed.

Lemma one_frame_per_poll_witness :
  let n := secondary_node (on_the_wire two_buzzes) in
  exists n',
    polls 1 3 quiet_env echo_menu n = Some n' /\
    Node.app n'
      = foldl (handled quiet_env (lit "primary")) (Node.app n) (take 1 two_buzzes) /\
    Node.message_queue n' = Node.message_queue n.
Proof.
  apply (one_frame_per_poll quiet_env echo_menu (lit "primary")
           (secondary_node (on_the_wire two_buzzes)) two_buzzes 1 3).
  - split; [discriminate|reflexivity].
  - eexists. split; [vm_compute; reflexivity|].
    repeat split; try reflexivity. right. vm_compute. lia.
  - repeat (apply Forall_cons_2;
            [split; [vm_compute; reflexivity|];
             split; [discriminate|]; split; [by_computation|];
             eexists; split; [vm_compute; reflexivity | simpl; lia]|]).
    apply Forall_nil_2.
  - lia.
  - simpl. lia.
Defined.

(** The two commands of the packet are executed a poll apart. *)
Example second_buzz_waits_for_the_next_poll :
  let n := secondary_node (on_the_wire two_buzzes) in
  let activations k :=
    (fun n' => omap activation (App.trace (Node.app n')))
      <$> polls k 3 quiet_env echo_menu n in
  activations 1%nat
    = Some [App.HapticActivate (VInt 1) (VInt 60);
            App.HapticActivate (VInt 4) (VInt 60)] /\
  activations 2%nat
    = Some [App.HapticActivate (VInt 1) (VInt 60);
            App.HapticActivate (VInt 4) (VInt 60);
            App.HapticActivate (VInt 2) (VInt 60);
            App.HapticActivate (VInt 3) (VInt 60)].
Proof. split; vm_compute; reflexivity. Qed.

End Polling.

(** ** The SECONDARY's boot *)

Section SecondaryBoot.
Import App.





(** The PRIMARY found at 300 ms, never found, and behind scans that
    raise: the last is a FAILED like the second, not an exception. *)
Example secondary_boot_scenarios :
  let result env :=
    match Boot._secondary_boot_sequence 101 env booting_secondary with
    | Some (Returned r _) => Some r
    | _ => None
    end in
  result scan_env = Some SUCCESS /\
  result quiet_env = Some FAILED /\
  result raising_env = Some FAILED.
Proof. vm_compute. auto. Qed.

End SecondaryBoot.

(** ** The boot of either role *)

Section ExecuteBoot.
Import App.













(** The wait that raises on the PRIMARY: no result from the boot
    sequence itself, FAILED from [_execute_boot_sequence]. *)
Example raising_wait_is_a_failed_boot :
  let env := mk_env false (fun _ => false)
               (fun _ c => match c with
                           | BleAdvertise _ => mk_reply false 1500 false
                           | _ => mk_reply true 1500 false
                           end) in
  returned_result (_primary_boot_sequence 101 env example_primary) = None /\
  fst <$> Boot._execute_boot_sequence 101 env (Boot.mk example_primary [])
    = Some FAILED.
Proof. split; vm_compute; reflexivity. Qed.

End ExecuteBoot.

(** ** Frames across reads *)

Section Chunks.
Import Ble.

Lemma acc_run_split d1 d2 buf len buf' len' texts :
  acc_run buf len (d1 ++ d2) = Some (buf', len', texts, 0%nat) ->
  exists buf1 len1 new1 new2,
    acc_run buf len d1 = Some (buf1, len1, new1, 0%nat) /\
    acc_run buf1 len1 d2 = Some (buf', len', new2, 0%nat) /\
    texts = new1 ++ new2.
Proof.
  rewrite acc_run_app.
  destruct (acc_run buf len d1) as [[[[buf1 len1] new1] ov1]|] eqn:H1;
    [|discriminate].
  destruct (acc_run buf1 len1 d2) as [[[[buf2 len2] new2] ov2]|] eqn:H2;
    [|discriminate].
  intros [= <- <- <- Hov].
  assert (ov1 = 0%nat /\ ov2 = 0%nat) as [-> ->] by lia.
  exists buf1, len1, new1, new2. auto.
Qed.

Lemma loop_delivers conn_id start (n : nat) : forall fuel s len t rest buf' len',
  (length (uart_fifo (conn s)) <= n)%nat ->
  (n < fuel)%nat ->
  _pending_messages (conn s) = [] ->
  readable (conn s) ->
  acc_run (_msg_buffer (conn s)) len (uart_fifo (conn s))
    = Some (buf', len', t :: rest, 0%nat) ->
  exists s',
    receive_loop fuel conn_id None start len s = Some (Returned (Some t) s') /\
    to_come (conn s') len' rest /\
    connected (conn s') = connected (conn s) /\
    readable (conn s') /\
    console s' = console s /\
    (length (uart_fifo (conn s')) <= length (uart_fifo (conn s)))%nat.
Proof.
  induction n as [|n IH]; intros fuel s len t rest buf' len' Hn Hfuel Hq Hread Hrun.
  { destruct (uart_fifo (conn s)); [discriminate Hrun|simpl in Hn; lia]. }
  destruct fuel as [|fuel]; [lia|].
  cbn [receive_loop timed_out].
  destruct (uart_fifo (conn s)) as [|b0 fifo] eqn:Hfifo; [discriminate Hrun|].
  change (0 <? length (b0 :: fifo))%nat with true. cbv iota.
  unfold read_uart. rewrite Hfifo. cbv zeta.
  set (data := if uart_has_readinto (conn s)
               then take (length (_rx_buffer (conn s))) (b0 :: fifo)
               else b0 :: fifo).
  assert (exists b1 data', data = b1 :: data') as (b1 & data' & Hdata).
  { subst data. destruct (uart_has_readinto (conn s)) eqn:E; [|eauto].
    specialize (Hread E).
    destruct (_rx_buffer (conn s)); [simpl in Hread; lia|]. simpl. eauto. }
  assert (b0 :: fifo = data ++ drop (length data) (b0 :: fifo)) as Hsplit.
  { subst data. destruct (uart_has_readinto (conn s)).
    - rewrite length_take.
      destruct (Nat.le_ge_cases (length (_rx_buffer (conn s))) (length (b0 :: fifo))).
      + rewrite Nat.min_l by assumption. symmetry. apply take_drop.
      + rewrite Nat.min_r by assumption. rewrite take_ge by assumption.
        rewrite drop_all, app_nil_r. reflexivity.
    - rewrite drop_all, app_nil_r. reflexivity. }
  rewrite Hsplit in Hrun.
  destruct (acc_run_split _ _ _ _ _ _ _ Hrun)
    as (buf1 & len1 & new1 & new2 & Hrun1 & Hrun2 & Htexts).
  assert ((0 <? length data)%nat = true) as ->
    by (rewrite Hdata; reflexivity).
  rewrite process_bytes_feed.
  2:{ intros i Hi. cbn [conn _rx_buffer set_rx_buffer].
      rewrite lookup_app_l by exact Hi. reflexivity. }
  erewrite feed_run by (cbn [conn _msg_buffer set_rx_buffer set_uart_fifo]; exact Hrun1).
  assert (length (drop (length data) (b0 :: fifo)) <= n)%nat as Hless.
  { rewrite length_drop, Hdata. simpl in Hn |- *. lia. }
  assert (readable (set_rx_buffer (data ++ drop (length data) (_rx_buffer (conn s)))
                      (set_uart_fifo (drop (length data) (b0 :: fifo)) (conn s))))
    as Hread'.
  { intros E. cbn [_rx_buffer set_rx_buffer]. rewrite length_app, Hdata. simpl. lia. }
  destruct new1 as [|t1 new1'].
  - (* the read completes no frame: the loop sleeps and reads on *)
    cbn [app] in Htexts. subst new2.
    cbn [upd on_conn conn _pending_messages set_pending_messages set_msg_len
         set_msg_buffer set_rx_buffer set_uart_fifo].
    rewrite Hq. cbn [app].
    match goal with |- context [receive_loop fuel conn_id None start len1 ?s3] =>
      destruct (IH fuel s3 len1 t rest buf' len')
        as (s' & Hloop & Hcome & Hconn & Hr & Hcons & Hshort)
    end.
    + exact Hless.
    + lia.
    + cbn. rewrite Hq. reflexivity.
    + exact Hread'.
    + exact Hrun2.
    + exists s'. split; [exact Hloop|]. split; [exact Hcome|].
      split; [exact Hconn|]. split; [exact Hr|].
      split; [rewrite Hcons; cbn; apply app_nil_r|].
      etransitivity; [exact Hshort|]. cbn [sleep on_conn upd conn uart_fifo set_msg_len set_pending_messages
           set_msg_buffer set_rx_buffer set_uart_fifo set_last_seen
           update_last_seen].
      rewrite length_drop. lia.
  - (* the read completes a frame: it is returned *)
    injection Htexts as <- ->.
    cbn [upd on_conn conn _pending_messages set_pending_messages set_msg_len
         set_msg_buffer set_rx_buffer set_uart_fifo].
    rewrite Hq. cbn [app].
    eexists. split; [reflexivity|].
    split; [exists buf', new2; split; [exact Hrun2|reflexivity]|].
    split; [reflexivity|]. split; [exact Hread'|].
    split; [cbn; apply app_nil_r|].
    cbn [sleep on_conn upd conn uart_fifo set_msg_len set_pending_messages
           set_msg_buffer set_rx_buffer set_uart_fifo set_last_seen
           update_last_seen].
      rewrite length_drop. lia.
Qed.

Lemma receive_connected_stream fuel conn_id s t rest len' :
  to_come (conn s) len' (t :: rest) ->
  readable (conn s) ->
  (length (uart_fifo (conn s)) < fuel)%nat ->
  exists s',
    receive_connected fuel conn_id None s = Some (Some t, s') /\
    to_come (conn s') len' rest /\
    connected (conn s') = connected (conn s) /\
    readable (conn s') /\
    console s' = console s /\
    (length (uart_fifo (conn s')) <= length (uart_fifo (conn s)))%nat.
Proof.
  intros (buf' & new & Hrun & Htexts) Hread Hfuel.
  destruct (_pending_messages (conn s)) as [|m queued] eqn:Hq.
  - cbn [app] in Htexts. subst new.
    destruct (loop_delivers conn_id (clock s) (length (uart_fifo (conn s))) fuel s
                (_msg_len (conn s)) t rest buf' len')
      as (s' & Hloop & H); try assumption; [lia|].
    exists s'. unfold receive_connected. rewrite Hq, Hloop. auto.
  - injection Htexts as <- ->.
    rewrite (receive_connected_queued conn_id fuel None s t queued Hq).
    eexists. split; [reflexivity|].
    split; [exists buf', new; split; [exact Hrun|reflexivity]|].
    split; [reflexivity|]. split; [exact Hread|]. split; [reflexivity|].
    cbn. lia.
Qed.

Lemma receive_calls_stream fuel conn_id len' texts : forall b c,
  _connections b !! conn_id = Some c ->
  connected c = true ->
  to_come c len' texts ->
  readable c ->
  (length (uart_fifo c) < fuel)%nat ->
  exists b' c',
    receive_calls (length texts) fuel conn_id None b = Some (Some <$> texts, b') /\
    _connections b' !! conn_id = Some c' /\
    connected c' = true /\
    to_come c' len' [] /\
    output b' = output b.
Proof.
  induction texts as [|t texts IH]; intros b c Hc Hconn Hcome Hread Hfuel.
  - exists b, c. cbn. auto.
  - cbn [length receive_calls].
    destruct (receive_connected_stream fuel conn_id (mk_rx c (now b) (output b))
                t texts len' Hcome Hread Hfuel)
      as (s' & Hrun & Hcome' & Hconn' & Hread' & Hcons & Hshort).
    rewrite (receive_through_table b conn_id c fuel None (Some t) s' Hc Hconn Hrun).
    cbn [conn] in Hconn', Hshort.
    match goal with |- context [receive_calls _ _ _ _ ?b1] =>
      destruct (IH b1 (conn s')) as (b' & c' & Hcalls & Hc' & Hconn2 & Hcome2 & Hout)
    end.
    + cbn [_connections]. apply lookup_insert_eq.
    + congruence.
    + exact Hcome'.
    + exact Hread'.
    + lia.
    + rewrite Hcalls. exists b', c'. cbn [output console] in Hout, Hcons.
      rewrite Hout, Hcons. auto.
Qed.

(** X21.  Framing does not depend on how the transport cuts the bytes.
    When well-formed frames wait on an idle connection, however many
    they are and however long, a caller that polls [receive] without a
    timeout gets every payload, decoded, one per call and in the order
    sent: a read takes at most as many bytes as the read buffer holds,
    the accumulator carries a frame from one read to the next, and
    nothing is logged. *)
Theorem frames_survive_chunking b conn_id c payloads texts fuel :
  _connections b !! conn_id = Some c ->
  connected c = true ->
  _pending_messages c = [] ->
  _msg_len c = 0%nat ->
  readable c ->
  Forall2 (well_formed (length (_msg_buffer c))) payloads texts ->
  uart_fifo c = wire payloads ->
  (length (wire payloads) < fuel)%nat ->
  exists b' c',
    receive_calls (length texts) fuel conn_id None b
      = Some (Some <$> texts, b') /\
    _connections b' !! conn_id = Some c' /\
    _pending_messages c' = [] /\
    output b' = output b.
Proof.
  intros Hc Hconn Hq Hlen Hread Hwf Hfifo Hfuel.
  destruct (acc_run_wire payloads texts (_msg_buffer c) Hwf) as (buf' & Hacc & _).
  destruct (receive_calls_stream fuel conn_id 0%nat texts b c Hc Hconn)
    as (b' & c' & Hcalls & Hc' & _ & (buf2 & rest & _ & Hnone) & Hout).
  - exists buf', texts. rewrite Hlen, Hfifo, Hq. auto.
  - exact Hread.
  - rewrite Hfifo. exact Hfuel.
  - exists b', c'. split; [exact Hcalls|]. split; [exact Hc'|].
    split; [|exact Hout].
    symmetry in Hnone. apply app_eq_nil in Hnone. apply Hnone.
Qed.

Lemma frames_survive_chunking_witness :
  exists b' c',
    receive_calls (length long_packet) 400 (lit "primary") None
      (primary_with (wire long_packet))
      = Some (Some <$> long_packet, b') /\
    _connections b' !! lit "primary" = Some c' /\
    _pending_messages c' = [] /\
    output b' = output (primary_with (wire long_packet)).
Proof.
  apply (frames_survive_chunking (primary_with (wire long_packet))
           (lit "primary")
           (set_uart_fifo (wire long_packet) (new_connection (lit "primary") 0))
           long_packet long_packet 400).
  - vm_compute. reflexivity.
  - reflexivity.
  - reflexivity.
  - reflexivity.
  - intros _. vm_compute. lia.
  - repeat (apply Forall2_cons_2;
            [split; [by_computation|]; split; [discriminate|];
             split; [vm_compute; lia | vm_compute; reflexivity]|]).
    apply Forall2_nil_2.
  - reflexivity.
  - vm_compute. lia.
Defined.

(** The first call needs two reads for the long frame; the heartbeat
    comes out of the second call. *)
Example long_frame_then_heartbeat :
  fst <$> receive_calls 2 4 (lit "primary") None (primary_with (wire long_packet))
  = Some [Some long_frame; Some example_heartbeat] /\
  fst <$> receive 1 (lit "primary") None (primary_with (wire long_packet)) = None.
Proof. split; vm_compute; reflexivity. Qed.

End Chunks.

